(** * Falcon Player channel outputs: ArtNet sink, framebuffer matrix sink,
      spixels sink, network monitor

    A shallow embedding of
      - src/channeloutput/ArtNet.cpp     (module [ArtNet]),
      - src/NetworkMonitor.cpp           (module [NetworkMonitor]),
      - src/channeloutput/FBMatrix.cpp   (module [FBMatrix]),
      - src/channeloutput/spixels.cpp    (module [Spixels]),
    with the properties of the output layer stated and proved over it.

    Conventions.  C++ [int] is a [Z] kept in range by [int32]; [unsigned int]
    by [uint32]; an [unsigned char] by [uchar].  Pointers that the code only
    compares or dereferences are symbolic references ([iov_ref], [ptr]).
    Vectors are lists updated in place with stdpp's list insert, maps are
    [gmap]s. *)

From Stdlib Require Import ZArith Lia Bool.
From stdpp Require Import gmap strings list fin_maps sorting.

Local Open Scope Z_scope.

(** ** Machine integers *)

Module CInt.

Definition INT_MAX : Z := 2147483647.
Definition INT_MIN : Z := -2147483648.

(** Two's complement reduction to a signed 32-bit [int]. *)
Definition int32 (z : Z) : Z := (z + 2147483648) mod 4294967296 - 2147483648.

(** Conversion to [unsigned int]. *)
Definition uint32 (z : Z) : Z := z mod 4294967296.

(** Conversion to [size_t] on the 64-bit targets. *)
Definition size_t (z : Z) : Z := z mod 18446744073709551616.

(** Conversion to an 8-bit [char] stored in an [unsigned char] cell. *)
Definition uchar (z : Z) : Z := z mod 256.

Definition in_int (z : Z) : Prop := INT_MIN <= z <= INT_MAX.

Lemma int32_id z : in_int z -> int32 z = z.
Proof.
  unfold in_int, int32, INT_MIN, INT_MAX. intros H.
  rewrite Z.mod_small by lia. lia.
Qed.

Lemma int32_range z : in_int (int32 z).
Proof.
  unfold in_int, int32, INT_MIN, INT_MAX.
  pose proof (Z.mod_pos_bound (z + 2147483648) 4294967296). lia.
Qed.

Lemma uint32_id z : 0 <= z < 4294967296 -> uint32 z = z.
Proof. intros H. unfold uint32. now rewrite Z.mod_small. Qed.

Lemma uchar_id z : 0 <= z < 256 -> uchar z = z.
Proof. intros H. unfold uchar. now rewrite Z.mod_small. Qed.

Lemma uchar_range z : 0 <= uchar z < 256.
Proof. unfold uchar. apply Z.mod_pos_bound. lia. Qed.

End CInt.

(** ** Counted loops

    [for (int x = x0; x < x0 + n; x++) st = body x st]. *)

Fixpoint for_loop {St : Type} (body : nat -> St -> St) (x : nat) (n : nat) (st : St) : St :=
  match n with
  | O => st
  | S n' => for_loop body (S x) n' (body x st)
  end.

Lemma for_loop_invariant {St : Type} (Inv : nat -> St -> Prop) (body : nat -> St -> St) :
  forall n x st,
    Inv x st ->
    (forall i s, (x <= i < x + n)%nat -> Inv i s -> Inv (S i) (body i s)) ->
    Inv (x + n)%nat (for_loop body x n st).
Proof.
  induction n as [|n IH]; intros x st H0 Hstep; simpl.
  - now rewrite Nat.add_0_r.
  - replace (x + S n)%nat with (S x + n)%nat by lia.
    apply IH.
    + apply Hstep; [lia | exact H0].
    + intros i s Hi. apply Hstep. lia.
Qed.

(** Bytes [off .. off+len) of a buffer. *)
Definition bytes_at (data : list Z) (off len : Z) : list Z :=
  take (Z.to_nat len) (drop (Z.to_nat off) data).

(** ** ArtNet protocol sink (src/channeloutput/ArtNet.cpp) *)

Module ArtNet.
Import CInt.

Definition MAX_ARTNET_UNIVERSE_COUNT : Z := 512.
Definition ARTNET_HEADER_LENGTH : Z := 18.
Definition ARTNET_SYNC_PACKET_LENGTH : Z := 14.
Definition ARTNET_DEST_PORT : Z := 6454.
Definition ARTNET_SEQUENCE_INDEX : nat := 12.
Definition ARTNET_UNIVERSE_INDEX : nat := 14.
Definition ARTNET_LENGTH_INDEX : nat := 16.
Definition ARTNET_TYPE_BROADCAST : Z := 2.
Definition ARTNET_TYPE_UNICAST : Z := 3.

(** ['A','r','t','-','N','e','t',0], opcode 0x5000 low byte first, protocol
    version 14 high byte first, then sequence, physical, universe (low,
    high) and length (high, low), all zero in the template. *)
Definition ArtNetHeader : list Z :=
  [65; 114; 116; 45; 78; 101; 116; 0;
   0x00; 0x50; 0x00; 0x0E; 0x00; 0x00; 0x00; 0x00; 0x00; 0x00].

Definition ArtNetSyncPacket : list Z :=
  [65; 114; 116; 45; 78; 101; 116; 0;
   0x00; 0x52; 0x00; 0x0E; 0x00; 0x00].

(** *** Pointers

    The code stores and compares addresses of its own objects; [self] is the
    identity of a sink object. *)

Inductive ptr : Type :=
| PNull
| PHeader (self : nat) (x : nat)      (* anHeaders[x] of a sink *)
| PChannelData (off : Z)               (* channelData + off *)
| PSyncPacket.                         (* ArtNetSyncPacket *)

Record iovec : Type := { iov_base : ptr; iov_len : Z }.

Inductive iov_ref : Type :=
| IovNull
| IovSink (self : nat) (idx : nat)    (* &anIovecs[idx] of a sink *)
| IovSync.                             (* &ArtNetSyncIovecs *)

Inductive addr_ref : Type :=
| AddrNull
| AddrSink (self : nat)               (* &anAddress of a sink *)
| AddrSync.                            (* &ArtNetSyncAddress *)

#[export] Instance iov_ref_eq_dec : EqDecision iov_ref.
Proof. solve_decision. Defined.

Record sockaddr_in : Type := { sin_family : Z; sin_port : Z; sin_addr : Z }.

Definition AF_INET : Z := 2.
Definition INADDR_BROADCAST : Z := 0xFFFFFFFF.   (* inet_addr("255.255.255.255") *)
Definition sizeof_sockaddr_in : Z := 16.

Record mmsghdr : Type := {
  msg_name : addr_ref;
  msg_namelen : Z;
  msg_iov : iov_ref;
  msg_iovlen : Z;
  msg_len : Z
}.

(** [static struct iovec ArtNetSyncIovecs] and [ArtNetSyncAddress]. *)
Definition ArtNetSyncIovecs : iovec :=
  {| iov_base := PSyncPacket; iov_len := ARTNET_SYNC_PACKET_LENGTH |}.

Definition ArtNetSyncAddress : sockaddr_in :=
  {| sin_family := AF_INET; sin_port := ARTNET_DEST_PORT; sin_addr := INADDR_BROADCAST |}.

(** *** Configuration (the Json::Value the constructors read) *)

Record Config : Type := {
  cfg_description : option string;
  cfg_active : Z;
  cfg_startChannel : Z;
  cfg_channelCount : Z;
  cfg_type : Z;
  cfg_id : Z;
  cfg_priority : Z;
  cfg_universeCount : option Z;       (* None: no "universeCount" member *)
  cfg_address : string
}.

(** *** The base class UDPOutputData *)

Record UDPOutputData : Type := {
  description : string;
  active : bool;
  valid : bool;
  startChannel : Z;
  channelCount : Z;
  type : Z;
  ipAddress : string;
  lastData : option (list Z);         (* the frame snapshot *)
  skippedFrames : Z
}.

(** Modelled from the spec: the constructor [UDPOutputData(config)] lives in
    UDPOutput.cpp, which is not part of the sources.  The sink descriptor is
    [{startChannel, channelCount, active, valid}] read from the
    configuration; the frame snapshot is "created empty at sink start" and
    the skipped-frame counter starts at zero. *)
Definition UDPOutputData_new (config : Config) : UDPOutputData :=
  {| description := default "" (cfg_description config);
     active := negb (cfg_active config =? 0);
     valid := true;
     startChannel := cfg_startChannel config;
     channelCount := cfg_channelCount config;
     type := cfg_type config;
     ipAddress := "";
     lastData := None;
     skippedFrames := 0 |}.

(** Modelled from the spec: [UDPOutputData::NeedToOutputFrame] (UDPOutput.cpp)
    "compare[s] its byte range in buffer against the stored FrameSnapshot
    range for that universe": the frame is needed when the range changed or
    when there is no snapshot yet. *)
Definition NeedToOutputFrame (b : UDPOutputData) (channelData : list Z)
    (startChannel savedIdx count : Z) : bool :=
  match lastData b with
  | None => true
  | Some snap =>
      negb (bool_decide (bytes_at channelData (startChannel + savedIdx) count
                         = bytes_at snap savedIdx count))
  end.

(** Modelled from the spec: [UDPOutputData::SaveFrame] (UDPOutput.cpp)
    "cop[ies] the full transmitted byte range into the FrameSnapshot". *)
Definition SaveFrame (b : UDPOutputData) (channelData : list Z) (off len : Z) : UDPOutputData :=
  {| description := description b; active := active b; valid := valid b;
     startChannel := startChannel b; channelCount := channelCount b;
     type := type b; ipAddress := ipAddress b;
     lastData := Some (bytes_at channelData off len);
     skippedFrames := skippedFrames b |}.

Definition set_skippedFrames (b : UDPOutputData) (n : Z) : UDPOutputData :=
  {| description := description b; active := active b; valid := valid b;
     startChannel := startChannel b; channelCount := channelCount b;
     type := type b; ipAddress := ipAddress b;
     lastData := lastData b; skippedFrames := n |}.

(** *** The message batch UDPOutputMessages *)

(** Modelled from the spec: class [UDPOutputMessages] (UDPOutput.h) is "a
    mapping from destination port number to an ordered sequence of pending
    outbound datagrams for the current tick", with the socket each port
    sends from; [GetSocket] answers -1 for a port that has none. *)
Record UDPOutputMessages : Type := {
  messages : gmap Z (list mmsghdr);
  sockets : gmap Z Z
}.

Definition GetSocket (m : UDPOutputMessages) (port : Z) : Z :=
  default (-1) (sockets m !! port).

Definition ForceSocket (m : UDPOutputMessages) (port fd : Z) : UDPOutputMessages :=
  {| messages := messages m; sockets := <[port := fd]> (sockets m) |}.

(** [messages[port]] read as a value (an absent entry is an empty vector). *)
Definition msgs_at (m : UDPOutputMessages) (port : Z) : list mmsghdr :=
  default [] (messages m !! port).

(** The vector behind the reference [messages[port]] after the caller's
    updates; [operator[]] creates the entry when it is absent. *)
Definition set_msgs (m : UDPOutputMessages) (port : Z) (l : list mmsghdr) : UDPOutputMessages :=
  {| messages := <[port := l]> (messages m); sockets := sockets m |}.

(** *** The sink *)

Record ArtNetOutputData : Type := {
  self : nat;
  base : UDPOutputData;
  universe : Z;
  universeCount : Z;
  priority : Z;
  sequenceNumber : Z;
  anAddress : sockaddr_in;
  anIovecs : list iovec;
  anHeaders : list (list Z)
}.

(** Effects outside the sink and the batch. *)
Inductive io_event : Type :=
| IoCreateArtNetSocket
| IoWarning (text : string).

Section Sink.

(** [toInetAddr(host, valid)] (not part of the sources) resolves a host name
    and reports through its by-reference flag whether it could: it maps the
    host and the flag's old value to the address and the flag's new value. *)
Variable toInetAddr : string -> bool -> Z * bool.

(** The descriptor [CreateArtNetSocket()] (e131bridge) hands out. *)
Variable CreateArtNetSocket : Z.

(** **** Constructor *)

(** Body of [for (int x = 0; x < universeCount; x++)] in the constructor:
    the header template and the two scatter/gather entries of universe [x]. *)
Definition new_body (self : nat) (universe channelCount : Z) (x : nat)
    (st : list (list Z) * list iovec) : list (list Z) * list iovec :=
  let '(headers, iovecs) := st in
  let uni := int32 (universe + Z.of_nat x) in
  let anBuffer :=
    <[S ARTNET_LENGTH_INDEX := uchar (Z.rem channelCount 256)]>
      (<[ARTNET_LENGTH_INDEX := uchar (Z.quot channelCount 256)]>
        (<[S ARTNET_UNIVERSE_INDEX := uchar (Z.quot uni 256)]>
          (<[ARTNET_UNIVERSE_INDEX := uchar (Z.rem uni 256)]> ArtNetHeader))) in
  (<[x := anBuffer]> headers,
   <[(x * 2 + 1)%nat := {| iov_base := PNull; iov_len := size_t channelCount |}]>
     (<[(x * 2)%nat := {| iov_base := PHeader self x; iov_len := ARTNET_HEADER_LENGTH |}]>
        iovecs)).

Definition ArtNetOutputData_new (self : nat) (config : Config)
  : ArtNetOutputData * list io_event :=
  let b := UDPOutputData_new config in
  let universe := cfg_id config in
  let priority := cfg_priority config in
  let universeCount :=
    match cfg_universeCount config with Some n => n | None => 1 end in
  let universeCount := if universeCount <? 1 then 1 else universeCount in
  let ipAddress :=
    if type b =? ARTNET_TYPE_BROADCAST then ""
    else if type b =? 3 then cfg_address config
    else ipAddress b in
  let '(addr, valid, active, io) :=
    if type b =? ARTNET_TYPE_BROADCAST then
      (INADDR_BROADCAST, valid b, active b, [])
    else
      let '(a, v) := toInetAddr ipAddress (valid b) in
      if negb v && active b then
        (a, v, false,
         [IoWarning ("Could not resolve host name " +:+ ipAddress +:+ " - disabling output")])
      else (a, v, active b, []) in
  let n := Z.to_nat universeCount in
  let '(headers, iovecs) :=
    for_loop (new_body self universe (channelCount b)) 0 n
      (replicate n [], replicate (n * 2) {| iov_base := PNull; iov_len := 0 |}) in
  ({| self := self;
      base := {| description := description b; active := active; valid := valid;
                 startChannel := startChannel b; channelCount := channelCount b;
                 type := type b; ipAddress := ipAddress;
                 lastData := lastData b; skippedFrames := skippedFrames b |};
      universe := universe;
      universeCount := universeCount;
      priority := priority;
      sequenceNumber := 1;
      anAddress := {| sin_family := AF_INET; sin_port := ARTNET_DEST_PORT; sin_addr := addr |};
      anIovecs := iovecs;
      anHeaders := headers |}, io).

Definition IsPingable (s : ArtNetOutputData) : bool :=
  type (base s) =? ARTNET_TYPE_UNICAST.

(** **** GetRequiredChannelRange *)

Definition GetRequiredChannelRange (s : ArtNetOutputData) : Z * Z :=
  let b := base s in
  (int32 (startChannel b - 1),
   int32 (int32 (startChannel b + int32 (channelCount b * universeCount s)) - 1)).

(** **** PrepareData *)

Record prep_state : Type := {
  ps_msgs : list mmsghdr;             (* messages[ARTNET_DEST_PORT] *)
  ps_headers : list (list Z);         (* anHeaders *)
  ps_iovecs : list iovec;             (* anIovecs *)
  ps_cur : Z;                         (* cur - channelData *)
  ps_start : Z;
  ps_skipped : bool;
  ps_allSkipped : bool
}.

(** The datagram of universe [x]: header template and payload window. *)
Definition data_msg (s : ArtNetOutputData) (x : nat) : mmsghdr :=
  {| msg_name := AddrSink (self s);
     msg_namelen := sizeof_sockaddr_in;
     msg_iov := IovSink (self s) (x * 2);
     msg_iovlen := 2;
     msg_len := uint32 (int32 (channelCount (base s) + ARTNET_HEADER_LENGTH)) |}.

(** Modelled from the spec: [sequenceNumber] is declared in ArtNet.h, which
    is not part of the sources; the spec has "a mutable sequence-number
    byte", so the counter is eight bits wide and [++] wraps at 256. *)
Definition next_sequenceNumber (sequenceNumber : Z) : Z :=
  let sequenceNumber := uchar (sequenceNumber + 1) in
  if sequenceNumber =? 0 then uchar (sequenceNumber + 1) else sequenceNumber.

Definition PrepareData_body (s : ArtNetOutputData) (channelData : list Z) (x : nat)
    (st : prep_state) : prep_state :=
  let b := base s in
  let st :=
    if NeedToOutputFrame b channelData (int32 (startChannel b - 1)) (ps_start st) (channelCount b)
    then
      {| ps_msgs := ps_msgs st ++ [data_msg s x];
         ps_headers :=
           alter (fun h => <[ARTNET_SEQUENCE_INDEX := uchar (sequenceNumber s)]> h) x
                 (ps_headers st);
         ps_iovecs :=
           alter (fun v => {| iov_base := PChannelData (ps_cur st); iov_len := iov_len v |})
                 (x * 2 + 1)%nat (ps_iovecs st);
         ps_cur := ps_cur st; ps_start := ps_start st;
         ps_skipped := ps_skipped st;
         ps_allSkipped := false |}
    else
      {| ps_msgs := ps_msgs st; ps_headers := ps_headers st; ps_iovecs := ps_iovecs st;
         ps_cur := ps_cur st; ps_start := ps_start st;
         ps_skipped := true;
         ps_allSkipped := ps_allSkipped st |} in
  {| ps_msgs := ps_msgs st; ps_headers := ps_headers st; ps_iovecs := ps_iovecs st;
     ps_cur := ps_cur st + channelCount b;
     ps_start := int32 (ps_start st + channelCount b);
     ps_skipped := ps_skipped st;
     ps_allSkipped := ps_allSkipped st |}.

Definition PrepareData_loop (s : ArtNetOutputData) (channelData : list Z)
    (msgs : list mmsghdr) : prep_state :=
  for_loop (PrepareData_body s channelData) 0 (Z.to_nat (universeCount s))
    {| ps_msgs := msgs; ps_headers := anHeaders s; ps_iovecs := anIovecs s;
       ps_cur := startChannel (base s) - 1; ps_start := 0;
       ps_skipped := false; ps_allSkipped := true |}.

Definition PrepareData (s : ArtNetOutputData) (channelData : list Z) (messages : UDPOutputMessages)
  : ArtNetOutputData * UDPOutputMessages * list io_event :=
  if valid (base s) && active (base s) then
    let '(messages, io) :=
      if GetSocket messages ARTNET_DEST_PORT =? -1
      then (ForceSocket messages ARTNET_DEST_PORT CreateArtNetSocket, [IoCreateArtNetSocket])
      else (messages, []) in
    let st := PrepareData_loop s channelData (msgs_at messages ARTNET_DEST_PORT) in
    let b := base s in
    let b := if ps_skipped st then set_skippedFrames b (skippedFrames b + 1) else b in
    let b :=
      if negb (ps_allSkipped st)
      then SaveFrame b channelData (int32 (startChannel b - 1)) (ps_start st)
      else b in
    ({| self := self s; base := b; universe := universe s;
        universeCount := universeCount s; priority := priority s;
        sequenceNumber := next_sequenceNumber (sequenceNumber s);
        anAddress := anAddress s;
        anIovecs := ps_iovecs st; anHeaders := ps_headers st |},
     set_msgs messages ARTNET_DEST_PORT (ps_msgs st), io)
  else (s, messages, []).

(** **** PostPrepareData *)

Definition sync_msg : mmsghdr :=
  {| msg_name := AddrSync;
     msg_namelen := sizeof_sockaddr_in;
     msg_iov := IovSync;
     msg_iovlen := 1;
     msg_len := ARTNET_SYNC_PACKET_LENGTH |}.

Definition is_sync (msg : mmsghdr) : bool := bool_decide (msg_iov msg = IovSync).

Definition PostPrepareData (s : ArtNetOutputData) (msgs : UDPOutputMessages) : UDPOutputMessages :=
  if valid (base s) && active (base s) then
    let l := msgs_at msgs ARTNET_DEST_PORT in
    if existsb is_sync l
    then set_msgs msgs ARTNET_DEST_PORT l      (* already added, skip *)
    else set_msgs msgs ARTNET_DEST_PORT (l ++ [sync_msg])
  else msgs.

(** *** Notions the properties are stated with *)

(** The 18 bytes the constructor leaves in [anHeaders[x]]. *)
Definition header_template (universe channelCount : Z) (x : nat) : list Z :=
  let uni := int32 (universe + Z.of_nat x) in
  [65; 114; 116; 45; 78; 101; 116; 0; 0x00; 0x50; 0x00; 0x0E; 0x00; 0x00;
   uchar (Z.rem uni 256); uchar (Z.quot uni 256);
   uchar (Z.quot channelCount 256); uchar (Z.rem channelCount 256)].

Definition clamp_universeCount (config : Config) : Z :=
  let n := match cfg_universeCount config with Some n => n | None => 1 end in
  if n <? 1 then 1 else n.

(** What [universeCount] entries of the template vectors look like. *)
Definition templates_upto (self : nat) (universe channelCount : Z) (x : nat)
    (st : list (list Z) * list iovec) : Prop :=
  forall i, (i < x)%nat ->
    st.1 !! i = Some (header_template universe channelCount i) /\
    st.2 !! (i * 2)%nat = Some {| iov_base := PHeader self i; iov_len := ARTNET_HEADER_LENGTH |} /\
    st.2 !! (i * 2 + 1)%nat = Some {| iov_base := PNull; iov_len := size_t channelCount |}.

(** Value of [start] when the loop reaches universe [x]. *)
Definition start_at (s : ArtNetOutputData) (x : nat) : Z :=
  Nat.iter x (fun st => int32 (st + channelCount (base s))) 0.

(** The test the loop makes for universe [x]. *)
Definition need (s : ArtNetOutputData) (channelData : list Z) (x : nat) : bool :=
  NeedToOutputFrame (base s) channelData (int32 (startChannel (base s) - 1))
    (start_at s x) (channelCount (base s)).

(** The universes a call queues, in order. *)
Definition queued (s : ArtNetOutputData) (channelData : list Z) : list nat :=
  List.filter (need s channelData) (seq 0 (Z.to_nat (universeCount s))).

Definition stamp (s : ArtNetOutputData) (h : list Z) : list Z :=
  <[ARTNET_SEQUENCE_INDEX := uchar (sequenceNumber s)]> h.

Record prep_inv (s : ArtNetOutputData) (channelData : list Z) (msgs : list mmsghdr)
    (x : nat) (st : prep_state) : Prop := {
  pi_start : ps_start st = start_at s x;
  pi_cur : ps_cur st = startChannel (base s) - 1 + Z.of_nat x * channelCount (base s);
  pi_msgs : ps_msgs st = msgs ++ map (data_msg s) (List.filter (need s channelData) (seq 0 x));
  pi_skipped : ps_skipped st = existsb (fun i => negb (need s channelData i)) (seq 0 x);
  pi_allSkipped : ps_allSkipped st = negb (existsb (need s channelData) (seq 0 x));
  pi_headers : forall i,
      ps_headers st !! i =
      (fun h => if (i <? x)%nat && need s channelData i then stamp s h else h)
        <$> (anHeaders s !! i);
  pi_iovecs : forall i, ps_iovecs st !! (i * 2)%nat = anIovecs s !! (i * 2)%nat
}.

Definition enabled (s : ArtNetOutputData) : bool := valid (base s) && active (base s).

(** Universe [x]'s bytes differ from its bytes in the snapshot, or no
    snapshot was stored yet. *)
Definition changed (s : ArtNetOutputData) (channelData : list Z) (x : nat) : bool :=
  let cc := channelCount (base s) in
  match lastData (base s) with
  | None => true
  | Some snap =>
      negb (bool_decide
              (bytes_at channelData (startChannel (base s) - 1 + Z.of_nat x * cc) cc
               = bytes_at snap (Z.of_nat x * cc) cc))
  end.

(** The header a queued datagram points at: [msg_iov] is the address of an
    entry of the sink's [anIovecs], whose [iov_base] is the address of one of
    its [anHeaders]. *)
Definition header_of (s : ArtNetOutputData) (msg : mmsghdr) : option (list Z) :=
  match msg_iov msg with
  | IovSink self' idx =>
      if (self' =? self s)%nat then
        match anIovecs s !! idx with
        | Some {| iov_base := PHeader self'' x |} =>
            if (self'' =? self s)%nat then anHeaders s !! x else None
        | _ => None
        end
      else None
  | _ => None
  end.

(** The sequence byte a queued datagram carries on the wire. *)
Definition sequence_byte (s : ArtNetOutputData) (msg : mmsghdr) : option Z :=
  h ← header_of s msg; h !! ARTNET_SEQUENCE_INDEX.

(** Consecutive PrepareData calls, each on its own frame and batch. *)
Fixpoint run_frames (s : ArtNetOutputData) (frames : list (list Z * UDPOutputMessages))
  : ArtNetOutputData :=
  match frames with
  | [] => s
  | (channelData, m) :: frames => run_frames (PrepareData s channelData m).1.1 frames
  end.

Record sink_wf (s : ArtNetOutputData) : Prop := {
  wf_seq : 1 <= sequenceNumber s <= 255;
  wf_iov : forall x, (x < Z.to_nat (universeCount s))%nat ->
      exists len, anIovecs s !! (x * 2)%nat
                  = Some {| iov_base := PHeader (self s) x; iov_len := len |};
  wf_hdr : forall x, (x < Z.to_nat (universeCount s))%nat ->
      exists h, anHeaders s !! x = Some h /\ length h = 18%nat
}.

(** What sinks do to one tick's batch, in call order. *)
Inductive tick_op : Type :=
| OpPrepareData (s : ArtNetOutputData) (channelData : list Z)
| OpPostPrepareData (s : ArtNetOutputData).

Definition run_op (m : UDPOutputMessages) (op : tick_op) : UDPOutputMessages :=
  match op with
  | OpPrepareData s channelData => (PrepareData s channelData m).1.2
  | OpPostPrepareData s => PostPrepareData s m
  end.

Definition run_tick (m : UDPOutputMessages) (ops : list tick_op) : UDPOutputMessages :=
  foldl run_op m ops.

(** Number of synchronization packets pending for the ArtNet port. *)
Definition sync_count (m : UDPOutputMessages) : nat :=
  length (List.filter is_sync (msgs_at m ARTNET_DEST_PORT)).

(** A PostPrepareData call by a valid, active sink. *)
Definition posts (op : tick_op) : bool :=
  match op with
  | OpPostPrepareData s => enabled s
  | OpPrepareData _ _ => false
  end.

(** Calls the dispatch loop makes on a sink. *)
Inductive call : Type :=
| CallPrepareData (channelData : list Z)
| CallPostPrepareData.

Fixpoint run_calls (s : ArtNetOutputData) (m : UDPOutputMessages) (calls : list call)
  : ArtNetOutputData * UDPOutputMessages * list io_event :=
  match calls with
  | [] => (s, m, [])
  | CallPrepareData channelData :: calls =>
      let '(s1, m1, io1) := PrepareData s channelData m in
      let '(s2, m2, io2) := run_calls s1 m1 calls in
      (s2, m2, io1 ++ io2)
  | CallPostPrepareData :: calls => run_calls s (PostPrepareData s m) calls
  end.

(** Offset in the show buffer of the first byte of universe [x]. *)
Definition window (s : ArtNetOutputData) (x : nat) : Z :=
  startChannel (base s) - 1 + Z.of_nat x * channelCount (base s).

(** The two scatter/gather entries and the header of every universe, as the
    constructor lays them out and [PrepareData] keeps them: only the base of
    the payload entry and the sequence byte of the header vary. *)
Definition sink_shape (s : ArtNetOutputData) : Prop :=
  forall x, (x < Z.to_nat (universeCount s))%nat ->
    anIovecs s !! (x * 2)%nat
      = Some {| iov_base := PHeader (self s) x; iov_len := ARTNET_HEADER_LENGTH |} /\
    (exists p, anIovecs s !! (x * 2 + 1)%nat
               = Some {| iov_base := p; iov_len := size_t (channelCount (base s)) |}) /\
    (exists b, 0 <= b <= 255 /\
       anHeaders s !! x
       = Some (<[ARTNET_SEQUENCE_INDEX := b]>
                 (header_template (universe s) (channelCount (base s)) x))).

(** *** Properties of the constructor *)

Lemma new_body_lengths self universe channelCount x st :
  length (new_body self universe channelCount x st).1 = length st.1 /\
  length (new_body self universe channelCount x st).2 = length st.2.
Proof.
  destruct st as [headers iovecs]. unfold new_body. cbn [fst snd].
  now rewrite !length_insert.
Qed.

Lemma new_loop_templates self universe channelCount n :
  let st := for_loop (new_body self universe channelCount) 0 n
              (replicate n [], replicate (n * 2) {| iov_base := PNull; iov_len := 0 |}) in
  templates_upto self universe channelCount n st.
Proof.
  set (st0 := (replicate n [], replicate (n * 2) {| iov_base := PNull; iov_len := 0 |})).
  set (Inv := fun (x : nat) (st : list (list Z) * list iovec) =>
                length st.1 = n /\ length st.2 = (n * 2)%nat /\
                templates_upto self universe channelCount x st).
  assert (H : Inv (0 + n)%nat (for_loop (new_body self universe channelCount) 0 n st0)).
  { apply for_loop_invariant.
    - unfold st0. split; [|split]; cbn [fst snd]; rewrite ?length_replicate; try lia.
      intros i Hi. lia.
    - intros x st Hx (Hl1 & Hl2 & Ht).
      destruct (new_body_lengths self universe channelCount x st) as [E1 E2].
      split; [congruence|]. split; [congruence|].
      intros i Hi. destruct st as [headers iovecs]. cbn [fst snd] in *.
      unfold new_body. cbn [fst snd].
      destruct (decide (i = x)) as [->|Hne].
      + split; [|split].
        * rewrite list_lookup_insert_eq by lia. reflexivity.
        * rewrite list_lookup_insert_ne by lia.
          rewrite list_lookup_insert_eq by (rewrite ?length_insert; lia). reflexivity.
        * rewrite list_lookup_insert_eq by (rewrite ?length_insert; lia). reflexivity.
      + destruct (Ht i ltac:(lia)) as (A & B & C).
        split; [|split].
        * rewrite list_lookup_insert_ne by lia. exact A.
        * rewrite !list_lookup_insert_ne by lia. exact B.
        * rewrite !list_lookup_insert_ne by lia. exact C. }
  exact (proj2 (proj2 H)).
Qed.

Lemma new_fields self config :
  let s := (ArtNetOutputData_new self config).1 in
  ArtNet.self s = self /\
  universe s = cfg_id config /\
  universeCount s = clamp_universeCount config /\
  sequenceNumber s = 1 /\
  startChannel (base s) = cfg_startChannel config /\
  channelCount (base s) = cfg_channelCount config /\
  type (base s) = cfg_type config /\
  lastData (base s) = None /\
  skippedFrames (base s) = 0 /\
  (anHeaders s, anIovecs s) =
    for_loop (new_body self (cfg_id config) (cfg_channelCount config)) 0
      (Z.to_nat (clamp_universeCount config))
      (replicate (Z.to_nat (clamp_universeCount config)) [],
       replicate (Z.to_nat (clamp_universeCount config) * 2)
                 {| iov_base := PNull; iov_len := 0 |}).
Proof.
  unfold ArtNetOutputData_new, clamp_universeCount. cbn zeta.
  cbn [UDPOutputData_new type valid active channelCount startChannel
       ipAddress lastData skippedFrames description].
  destruct (cfg_type config =? ARTNET_TYPE_BROADCAST).
  - destruct (for_loop _ _ _ _) as [h i]. cbn. repeat split; reflexivity.
  - destruct (toInetAddr _ _) as [a v].
    destruct (negb v && negb (cfg_active config =? 0));
      destruct (for_loop _ _ _ _) as [h i]; cbn; repeat split; reflexivity.
Qed.

Lemma new_templates self config :
  let s := (ArtNetOutputData_new self config).1 in
  templates_upto self (cfg_id config) (cfg_channelCount config)
    (Z.to_nat (universeCount s)) (anHeaders s, anIovecs s).
Proof.
  intros s.
  destruct (new_fields self config) as (_ & _ & HN & _ & _ & _ & _ & _ & _ & HL).
  fold s in HN, HL. rewrite HL, HN. apply new_loop_templates.
Qed.

Lemma clamp_universeCount_ge1 config : 1 <= clamp_universeCount config.
Proof. unfold clamp_universeCount. destruct (Z.ltb_spec (match cfg_universeCount config with Some n => n | None => 1 end) 1); lia. Qed.

Lemma clamp_universeCount_id config N :
  cfg_universeCount config = Some N -> 1 <= N -> clamp_universeCount config = N.
Proof.
  intros E H. unfold clamp_universeCount. rewrite E.
  destruct (Z.ltb_spec N 1); lia.
Qed.

(** C1. A sink configured with universeCount N >= 1 requires the half-open
    channel range [startChannel-1, startChannel-1 + channelCount*N): the
    lower end is startChannel-1 and the range is exactly channelCount*N long.
    The quantities the code computes in [int] are assumed representable. *)
Theorem GetRequiredChannelRange_length (self : nat) (config : Config) (N : Z) :
  cfg_universeCount config = Some N ->
  1 <= N ->
  in_int (cfg_startChannel config - 1) ->
  in_int (cfg_channelCount config * N) ->
  in_int (cfg_startChannel config + cfg_channelCount config * N) ->
  in_int (cfg_startChannel config + cfg_channelCount config * N - 1) ->
  let s := (ArtNetOutputData_new self config).1 in
  let min := (GetRequiredChannelRange s).1 in
  let max := (GetRequiredChannelRange s).2 in
  universeCount s = N /\
  min = cfg_startChannel config - 1 /\
  max = cfg_startChannel config - 1 + cfg_channelCount config * N /\
  max - min = channelCount (base s) * universeCount s.
Proof.
  intros HN H1 Hmin Hprod Hsum Hmax s min max.
  destruct (new_fields self config) as (_ & _ & HC & _ & Hs & Hc & _).
  fold s in HC, Hs, Hc.
  rewrite (clamp_universeCount_id _ _ HN H1) in HC.
  assert (Emin : min = cfg_startChannel config - 1).
  { unfold min, GetRequiredChannelRange. cbn [fst]. rewrite Hs. now apply int32_id. }
  assert (Emax : max = cfg_startChannel config - 1 + cfg_channelCount config * N).
  { unfold max, GetRequiredChannelRange. cbn [snd]. rewrite Hs, Hc, HC.
    rewrite (int32_id _ Hprod), (int32_id _ Hsum).
    rewrite (int32_id _ Hmax). lia. }
  repeat split; try assumption.
  rewrite Emin, Emax, Hc, HC. lia.
Qed.

(** *** The per-universe loop of PrepareData *)

Lemma option_fmap_id_ext {A} (f : A -> A) (o : option A) :
  (forall a, f a = a) -> f <$> o = o.
Proof. intros H. destruct o; cbn; [now rewrite H | reflexivity]. Qed.

Lemma prep_inv_init s channelData msgs :
  prep_inv s channelData msgs 0
    {| ps_msgs := msgs; ps_headers := anHeaders s; ps_iovecs := anIovecs s;
       ps_cur := startChannel (base s) - 1; ps_start := 0;
       ps_skipped := false; ps_allSkipped := true |}.
Proof.
  split; cbn; try reflexivity; try lia.
  - now rewrite app_nil_r.
  - intros i. symmetry. apply option_fmap_id_ext. reflexivity.
Qed.

Lemma prep_inv_step s channelData msgs x st :
  prep_inv s channelData msgs x st ->
  prep_inv s channelData msgs (S x) (PrepareData_body s channelData x st).
Proof.
  intros [Hstart Hcur Hmsgs Hsk Hall Hh Hi].
  assert (Hneed : NeedToOutputFrame (base s) channelData (int32 (startChannel (base s) - 1))
                    (ps_start st) (channelCount (base s)) = need s channelData x).
  { unfold need. now rewrite Hstart. }
  unfold PrepareData_body. rewrite Hneed.
  split; rewrite ?seq_S, ?List.filter_app, ?existsb_app, ?map_app; cbn [Nat.add List.filter existsb].
  - destruct (need s channelData x); cbn; rewrite Hstart; reflexivity.
  - destruct (need s channelData x); cbn; rewrite Hcur; lia.
  - destruct (need s channelData x); cbn; rewrite Hmsgs.
    + now rewrite <- app_assoc.
    + now rewrite !app_nil_r.
  - destruct (need s channelData x); cbn; rewrite ?Hsk, ?orb_false_r, ?orb_true_r; reflexivity.
  - destruct (need s channelData x); cbn; rewrite ?Hall, ?orb_false_r, ?orb_true_r; reflexivity.
  - intros i. destruct (need s channelData x) eqn:En; cbn [ps_headers].
    + destruct (decide (i = x)) as [->|Hne].
      * rewrite list_lookup_alter_eq, Hh, <- option_fmap_compose.
        apply option_fmap_ext. intros h. unfold compose. cbv beta.
        rewrite En, Nat.ltb_irrefl.
        replace (x <? S x)%nat with true by (symmetry; apply Nat.ltb_lt; lia).
        reflexivity.
      * rewrite list_lookup_alter_ne by congruence. rewrite Hh.
        apply option_fmap_ext. intros h.
        replace (i <? S x)%nat with (i <? x)%nat; [reflexivity|].
        destruct (Nat.ltb_spec i x), (Nat.ltb_spec i (S x)); try reflexivity; lia.
    + rewrite Hh. apply option_fmap_ext. intros h.
      destruct (decide (i = x)) as [->|Hne].
      * rewrite En, !andb_false_r. reflexivity.
      * replace (i <? S x)%nat with (i <? x)%nat; [reflexivity|].
        destruct (Nat.ltb_spec i x), (Nat.ltb_spec i (S x)); try reflexivity; lia.
  - intros i. destruct (need s channelData x); cbn [ps_iovecs]; [|apply Hi].
    rewrite list_lookup_alter_ne by lia. apply Hi.
Qed.

Lemma PrepareData_loop_inv s channelData msgs :
  prep_inv s channelData msgs (Z.to_nat (universeCount s))
    (PrepareData_loop s channelData msgs).
Proof.
  unfold PrepareData_loop.
  apply (for_loop_invariant (prep_inv s channelData msgs)
           (PrepareData_body s channelData) (Z.to_nat (universeCount s)) 0%nat).
  - apply prep_inv_init.
  - intros i st _. apply prep_inv_step.
Qed.

(** *** What one PrepareData call does *)

Lemma msgs_at_set_msgs m port l : msgs_at (set_msgs m port l) port = l.
Proof. unfold msgs_at, set_msgs. cbn. now rewrite lookup_insert_eq. Qed.

Lemma msgs_at_set_msgs_ne m port port' l :
  port <> port' -> msgs_at (set_msgs m port l) port' = msgs_at m port'.
Proof. intros H. unfold msgs_at, set_msgs. cbn. now rewrite lookup_insert_ne. Qed.

Lemma PrepareData_disabled s channelData m :
  enabled s = false -> PrepareData s channelData m = (s, m, []).
Proof. unfold enabled, PrepareData. now intros ->. Qed.

Lemma msgs_at_ForceSocket m port fd port' :
  msgs_at (ForceSocket m port fd) port' = msgs_at m port'.
Proof. reflexivity. Qed.

Ltac prepare_enabled H :=
  unfold PrepareData; unfold enabled in H; rewrite H;
  destruct (GetSocket _ ARTNET_DEST_PORT =? -1);
  cbn [fst snd self base universe universeCount priority sequenceNumber
       anAddress anIovecs anHeaders];
  rewrite ?msgs_at_ForceSocket.

Lemma PrepareData_msgs s channelData m :
  enabled s = true ->
  msgs_at (PrepareData s channelData m).1.2 ARTNET_DEST_PORT =
  msgs_at m ARTNET_DEST_PORT ++ map (data_msg s) (queued s channelData).
Proof.
  intros H. pose proof (PrepareData_loop_inv s channelData (msgs_at m ARTNET_DEST_PORT)) as I.
  prepare_enabled H; rewrite msgs_at_set_msgs; apply (pi_msgs _ _ _ _ _ I).
Qed.

Lemma PrepareData_other_ports s channelData m port :
  port <> ARTNET_DEST_PORT ->
  msgs_at (PrepareData s channelData m).1.2 port = msgs_at m port.
Proof.
  intros Hp. unfold PrepareData.
  destruct (valid (base s) && active (base s)); [|reflexivity].
  destruct (GetSocket _ ARTNET_DEST_PORT =? -1); cbn [fst snd];
    now rewrite msgs_at_set_msgs_ne by congruence.
Qed.

Lemma PrepareData_sequenceNumber s channelData m :
  enabled s = true ->
  sequenceNumber (PrepareData s channelData m).1.1 = next_sequenceNumber (sequenceNumber s).
Proof. intros H. prepare_enabled H; reflexivity. Qed.

Lemma PrepareData_static s channelData m :
  let s' := (PrepareData s channelData m).1.1 in
  self s' = self s /\ universeCount s' = universeCount s /\
  valid (base s') = valid (base s) /\ active (base s') = active (base s) /\
  startChannel (base s') = startChannel (base s) /\
  channelCount (base s') = channelCount (base s).
Proof.
  unfold PrepareData.
  destruct (valid (base s) && active (base s)); [|cbn; tauto].
  destruct (GetSocket _ ARTNET_DEST_PORT =? -1); cbn [fst snd];
    destruct (ps_skipped _), (ps_allSkipped _); cbn; tauto.
Qed.

Lemma PrepareData_skippedFrames s channelData m :
  enabled s = true ->
  skippedFrames (base (PrepareData s channelData m).1.1) =
  if existsb (fun i => negb (need s channelData i)) (seq 0 (Z.to_nat (universeCount s)))
  then skippedFrames (base s) + 1 else skippedFrames (base s).
Proof.
  intros H. pose proof (PrepareData_loop_inv s channelData (msgs_at m ARTNET_DEST_PORT)) as I.
  pose proof (pi_skipped _ _ _ _ _ I) as Hs.
  prepare_enabled H; rewrite Hs;
    destruct (existsb _ _); destruct (ps_allSkipped _); reflexivity.
Qed.

Lemma PrepareData_lastData s channelData m :
  enabled s = true ->
  lastData (base (PrepareData s channelData m).1.1) =
  if existsb (need s channelData) (seq 0 (Z.to_nat (universeCount s)))
  then Some (bytes_at channelData (int32 (startChannel (base s) - 1))
                      (start_at s (Z.to_nat (universeCount s))))
  else lastData (base s).
Proof.
  intros H. pose proof (PrepareData_loop_inv s channelData (msgs_at m ARTNET_DEST_PORT)) as I.
  pose proof (pi_allSkipped _ _ _ _ _ I) as Ha.
  pose proof (pi_start _ _ _ _ _ I) as Hst.
  prepare_enabled H; rewrite Ha, Hst;
    destruct (existsb _ _); destruct (ps_skipped _); reflexivity.
Qed.

Lemma PrepareData_headers s channelData m i :
  enabled s = true ->
  anHeaders (PrepareData s channelData m).1.1 !! i =
  (fun h => if (i <? Z.to_nat (universeCount s))%nat && need s channelData i
            then stamp s h else h) <$> (anHeaders s !! i).
Proof.
  intros H. pose proof (PrepareData_loop_inv s channelData (msgs_at m ARTNET_DEST_PORT)) as I.
  prepare_enabled H; apply (pi_headers _ _ _ _ _ I).
Qed.

Lemma PrepareData_iovecs s channelData m i :
  anIovecs (PrepareData s channelData m).1.1 !! (i * 2)%nat = anIovecs s !! (i * 2)%nat.
Proof.
  pose proof (PrepareData_loop_inv s channelData (msgs_at m ARTNET_DEST_PORT)) as I.
  unfold PrepareData.
  destruct (valid (base s) && active (base s)); [|reflexivity].
  destruct (GetSocket _ ARTNET_DEST_PORT =? -1); cbn [fst snd]; apply (pi_iovecs _ _ _ _ _ I).
Qed.

(** With no [int] overflow, [start] is [x * channelCount]. *)
Lemma start_at_linear s x :
  0 <= channelCount (base s) ->
  channelCount (base s) * universeCount s <= INT_MAX ->
  (x <= Z.to_nat (universeCount s))%nat ->
  start_at s x = Z.of_nat x * channelCount (base s).
Proof.
  intros Hc Hmax. induction x as [|x IH]; intros Hx.
  - reflexivity.
  - unfold start_at in *. rewrite Nat.iter_succ, IH by lia.
    rewrite int32_id; [lia|].
    unfold in_int, INT_MIN, INT_MAX in *. nia.
Qed.

Lemma need_changed s channelData x :
  0 <= channelCount (base s) ->
  channelCount (base s) * universeCount s <= INT_MAX ->
  in_int (startChannel (base s) - 1) ->
  (x <= Z.to_nat (universeCount s))%nat ->
  need s channelData x = changed s channelData x.
Proof.
  intros Hc Hmax Hsc Hx. unfold need, changed, NeedToOutputFrame.
  rewrite (start_at_linear s x Hc Hmax Hx), (int32_id _ Hsc). reflexivity.
Qed.

Lemma filter_ext_seq (f g : nat -> bool) n :
  (forall x, (x < n)%nat -> f x = g x) ->
  List.filter f (seq 0 n) = List.filter g (seq 0 n).
Proof.
  intros H. apply List.filter_ext_in. intros x Hx.
  apply in_seq in Hx. apply H. lia.
Qed.

Lemma queued_changed s channelData :
  0 <= channelCount (base s) ->
  channelCount (base s) * universeCount s <= INT_MAX ->
  in_int (startChannel (base s) - 1) ->
  queued s channelData =
  List.filter (changed s channelData) (seq 0 (Z.to_nat (universeCount s))).
Proof.
  intros Hc Hmax Hsc. unfold queued. apply filter_ext_seq.
  intros x Hx. apply need_changed; auto; lia.
Qed.

Lemma existsb_filter_nil {A} (f : A -> bool) l :
  existsb f l = negb (bool_decide (List.filter f l = [])).
Proof.
  induction l as [|a l IH]; cbn; [reflexivity|].
  destruct (f a); cbn; [reflexivity|exact IH].
Qed.

(** *** Frame differencing *)

(** C2. For a valid, active sink and a universe x whose byte range in the
    show buffer equals its range in the stored snapshot, PrepareData queues
    no datagram for x, and the skipped-frame counter goes up by exactly one
    in that call. *)
Theorem PrepareData_skips_unchanged_universe
    (s : ArtNetOutputData) (channelData : list Z) (m : UDPOutputMessages)
    (x : nat) (snap : list Z) :
  enabled s = true ->
  0 <= channelCount (base s) ->
  channelCount (base s) * universeCount s <= INT_MAX ->
  in_int (startChannel (base s) - 1) ->
  (x < Z.to_nat (universeCount s))%nat ->
  lastData (base s) = Some snap ->
  bytes_at channelData
    (startChannel (base s) - 1 + Z.of_nat x * channelCount (base s)) (channelCount (base s))
  = bytes_at snap (Z.of_nat x * channelCount (base s)) (channelCount (base s)) ->
  let r := PrepareData s channelData m in
  (exists xs : list nat,
      msgs_at r.1.2 ARTNET_DEST_PORT = msgs_at m ARTNET_DEST_PORT ++ map (data_msg s) xs /\
      x ∉ xs) /\
  skippedFrames (base r.1.1) = skippedFrames (base s) + 1.
Proof.
  intros He Hc Hmax Hsc Hx Hsnap Heq r.
  assert (Hnx : need s channelData x = false).
  { rewrite need_changed by (auto; lia). unfold changed. rewrite Hsnap.
    rewrite bool_decide_eq_true_2 by exact Heq. reflexivity. }
  split.
  - exists (queued s channelData). split.
    + apply PrepareData_msgs, He.
    + unfold queued. rewrite list_elem_of_In, List.filter_In. intros [_ Hn]. congruence.
  - unfold r. rewrite PrepareData_skippedFrames by exact He.
    replace (existsb _ _) with true; [reflexivity|].
    symmetry. apply existsb_exists. exists x. split.
    + apply in_seq. lia.
    + now rewrite Hnx.
Qed.

(** C3. A PrepareData call of a valid, active sink queues datagrams for
    exactly the universes whose byte range differs from the stored snapshot
    (every universe when there is no snapshot yet), in universe order.  The
    snapshot becomes the bytes of the frame just processed when at least one
    universe was queued, and stays as it was when every universe was
    skipped. *)
Theorem PrepareData_queues_exactly_changed
    (s : ArtNetOutputData) (channelData : list Z) (m : UDPOutputMessages) :
  enabled s = true ->
  0 <= channelCount (base s) ->
  1 <= universeCount s ->
  channelCount (base s) * universeCount s <= INT_MAX ->
  in_int (startChannel (base s) - 1) ->
  let r := PrepareData s channelData m in
  let q := List.filter (changed s channelData) (seq 0 (Z.to_nat (universeCount s))) in
  msgs_at r.1.2 ARTNET_DEST_PORT = msgs_at m ARTNET_DEST_PORT ++ map (data_msg s) q /\
  (q <> [] ->
   lastData (base r.1.1) =
   Some (bytes_at channelData (startChannel (base s) - 1)
                  (channelCount (base s) * universeCount s))) /\
  (q = [] -> lastData (base r.1.1) = lastData (base s)).
Proof.
  intros He Hc HN Hmax Hsc r q.
  assert (Hq : queued s channelData = q) by now apply queued_changed.
  assert (Hex : existsb (need s channelData) (seq 0 (Z.to_nat (universeCount s)))
                = negb (bool_decide (q = []))).
  { rewrite existsb_filter_nil. fold (queued s channelData). now rewrite Hq. }
  split; [|split].
  - unfold r. rewrite PrepareData_msgs by exact He. now rewrite Hq.
  - intros Hne. unfold r. rewrite PrepareData_lastData by exact He.
    rewrite Hex, bool_decide_eq_false_2 by exact Hne. cbn [negb].
    rewrite start_at_linear, (int32_id _ Hsc) by (auto; lia).
    do 2 f_equal. lia.
  - intros Hnil. unfold r. rewrite PrepareData_lastData by exact He.
    rewrite Hex, bool_decide_eq_true_2 by exact Hnil. reflexivity.
Qed.

(** *** Sequence numbers *)

Lemma next_sequenceNumber_cycle v :
  1 <= v <= 255 -> next_sequenceNumber v = if v =? 255 then 1 else v + 1.
Proof.
  intros Hv. unfold next_sequenceNumber, uchar.
  destruct (Z.eqb_spec v 255) as [->|Hne]; [reflexivity|].
  rewrite (Z.mod_small (v + 1)) by lia.
  destruct (Z.eqb_spec (v + 1) 0); [lia|reflexivity].
Qed.

Lemma next_sequenceNumber_range v :
  1 <= v <= 255 -> 1 <= next_sequenceNumber v <= 255.
Proof.
  intros Hv. rewrite next_sequenceNumber_cycle by exact Hv.
  destruct (Z.eqb_spec v 255); lia.
Qed.

Lemma new_wf self config : sink_wf (ArtNetOutputData_new self config).1.
Proof.
  pose proof (new_fields self config) as (Hself & _ & _ & Hseq & _).
  pose proof (new_templates self config) as Ht.
  cbv zeta in *. set (s := (ArtNetOutputData_new self config).1) in *.
  split.
  - rewrite Hseq. lia.
  - intros x Hx. destruct (Ht x Hx) as (_ & B & _). cbn [fst snd] in B.
    rewrite Hself. eauto.
  - intros x Hx. destruct (Ht x Hx) as (A & _ & _). cbn [fst snd] in A.
    eexists. split; [exact A|reflexivity].
Qed.

Lemma PrepareData_wf s channelData m :
  sink_wf s -> sink_wf (PrepareData s channelData m).1.1.
Proof.
  intros [Hseq Hiov Hhdr].
  destruct (enabled s) eqn:He.
  2:{ rewrite PrepareData_disabled by exact He. now split. }
  pose proof (PrepareData_static s channelData m) as (Eself & EN & _). cbv zeta in *.
  split.
  - rewrite PrepareData_sequenceNumber by exact He. now apply next_sequenceNumber_range.
  - intros x Hx. rewrite EN in Hx. rewrite PrepareData_iovecs, Eself. now apply Hiov.
  - intros x Hx. rewrite EN in Hx. destruct (Hhdr x Hx) as (h & Hh & Hl).
    rewrite PrepareData_headers, Hh by exact He. cbn.
    eexists. split; [reflexivity|].
    destruct (_ && _); [|exact Hl]. unfold stamp. now rewrite length_insert.
Qed.

Lemma run_frames_wf frames : forall s, sink_wf s -> sink_wf (run_frames s frames).
Proof.
  induction frames as [|[d m] fs IH]; intros s Hwf; cbn; [exact Hwf|].
  apply IH, PrepareData_wf, Hwf.
Qed.

Lemma PrepareData_enabled s channelData m :
  enabled (PrepareData s channelData m).1.1 = enabled s.
Proof.
  pose proof (PrepareData_static s channelData m) as (_ & _ & Hv & Ha & _).
  cbv zeta in *. unfold enabled. now rewrite Hv, Ha.
Qed.

Lemma run_frames_sequenceNumber frames :
  forall s, enabled s = true -> 1 <= sequenceNumber s <= 255 ->
    sequenceNumber (run_frames s frames)
    = 1 + (sequenceNumber s - 1 + Z.of_nat (length frames)) mod 255.
Proof.
  induction frames as [|[d m] fs IH]; intros s He Hs.
  - cbn [run_frames length Z.of_nat]. rewrite Z.add_0_r, Z.mod_small by lia. lia.
  - cbn [run_frames length].
    rewrite IH.
    + rewrite PrepareData_sequenceNumber, next_sequenceNumber_cycle by assumption.
      f_equal. destruct (Z.eqb_spec (sequenceNumber s) 255) as [E|E].
      * rewrite E.
        replace (255 - 1 + Z.of_nat (S (length fs)))
          with (Z.of_nat (length fs) + 1 * 255) by lia.
        rewrite Z.mod_add by lia. f_equal; lia.
      * f_equal; lia.
    + now rewrite PrepareData_enabled.
    + rewrite PrepareData_sequenceNumber by assumption.
      now apply next_sequenceNumber_range.
Qed.

Lemma sequence_byte_queued s channelData m x :
  sink_wf s -> enabled s = true ->
  In x (queued s channelData) ->
  sequence_byte (PrepareData s channelData m).1.1 (data_msg s x) = Some (sequenceNumber s).
Proof.
  intros [Hseq Hiov Hhdr] He Hq.
  unfold queued in Hq. apply List.filter_In in Hq as [Hx Hn]. apply in_seq in Hx.
  pose proof (PrepareData_static s channelData m) as (Eself & _). cbv zeta in Eself.
  destruct (Hiov x ltac:(lia)) as (len & Hi).
  destruct (Hhdr x ltac:(lia)) as (h & Hh & Hl).
  unfold sequence_byte, header_of. cbn [data_msg msg_iov].
  rewrite Eself, Nat.eqb_refl, PrepareData_iovecs, Hi, Nat.eqb_refl.
  rewrite PrepareData_headers, Hh by exact He. cbn [fmap option_fmap option_map mbind option_bind].
  replace (x <? Z.to_nat (universeCount s))%nat with true
    by (symmetry; apply Nat.ltb_lt; lia).
  rewrite Hn. cbn [andb]. unfold stamp.
  rewrite list_lookup_insert_eq by (rewrite Hl; unfold ARTNET_SEQUENCE_INDEX; lia).
  now rewrite uchar_id by lia.
Qed.

(** C5. Over any number of consecutive PrepareData calls after construction,
    the sequence counter stays within 1..255; for a sink that transmits it
    starts at 1, advances by one per call and wraps from 255 to 1; and every
    datagram a call queues carries that counter's value, never 0, in the
    sequence byte of its header. *)
Theorem sequence_byte_cycles_1_255
    (self : nat) (config : Config) (frames : list (list Z * UDPOutputMessages))
    (channelData : list Z) (m : UDPOutputMessages) :
  let s0 := (ArtNetOutputData_new self config).1 in
  let s := run_frames s0 frames in
  let r := PrepareData s channelData m in
  sequenceNumber s0 = 1 /\
  1 <= sequenceNumber s <= 255 /\
  (enabled s0 = true ->
   sequenceNumber s = 1 + Z.of_nat (length frames) mod 255 /\
   sequenceNumber r.1.1 = if sequenceNumber s =? 255 then 1 else sequenceNumber s + 1) /\
  (forall new msg,
      msgs_at r.1.2 ARTNET_DEST_PORT = msgs_at m ARTNET_DEST_PORT ++ new ->
      msg ∈ new ->
      exists v, sequence_byte r.1.1 msg = Some v /\ v = sequenceNumber s /\ 1 <= v <= 255).
Proof.
  intros s0 s r.
  assert (Hwf0 : sink_wf s0) by apply new_wf.
  assert (Hwf : sink_wf s) by now apply run_frames_wf.
  assert (H1 : sequenceNumber s0 = 1) by apply (new_fields self config).
  split; [exact H1|]. split; [apply Hwf|]. split.
  - intros He0. split.
    + unfold s. rewrite run_frames_sequenceNumber by (auto; lia).
      rewrite H1. do 2 f_equal; lia.
    + assert (He : enabled s = true).
      { unfold s. clear -He0. revert He0. generalize s0.
        induction frames as [|[d m'] fs IH]; intros s1 H1; cbn; [exact H1|].
        apply IH. now rewrite PrepareData_enabled. }
      unfold r. rewrite PrepareData_sequenceNumber by exact He.
      apply next_sequenceNumber_cycle, Hwf.
  - intros new msg Hnew Hin.
    destruct (enabled s) eqn:He.
    + unfold r in Hnew. rewrite PrepareData_msgs in Hnew by exact He.
      apply app_inv_head in Hnew. subst new.
      apply list_elem_of_fmap in Hin as (x & -> & Hx).
      exists (sequenceNumber s). split; [|split; [reflexivity|apply Hwf]].
      apply sequence_byte_queued; auto. now apply list_elem_of_In.
    + unfold r in Hnew. rewrite PrepareData_disabled in Hnew by exact He.
      cbn [fst snd] in Hnew.
      rewrite <- (app_nil_r (msgs_at m ARTNET_DEST_PORT)) in Hnew at 1.
      apply app_inv_head in Hnew. subst new. inversion Hin.
Qed.

(** *** The synchronization packet *)

Lemma filter_is_sync_data s xs : List.filter is_sync (map (data_msg s) xs) = [].
Proof. induction xs as [|x xs IH]; cbn; [reflexivity|exact IH]. Qed.

Lemma PrepareData_sync_count s channelData m :
  sync_count (PrepareData s channelData m).1.2 = sync_count m.
Proof.
  unfold sync_count. destruct (enabled s) eqn:He.
  - rewrite PrepareData_msgs by exact He.
    now rewrite List.filter_app, filter_is_sync_data, app_nil_r.
  - now rewrite PrepareData_disabled by exact He.
Qed.

Lemma existsb_is_sync_count l :
  existsb is_sync l = negb (length (List.filter is_sync l) =? 0)%nat.
Proof.
  induction l as [|a l IH]; cbn; [reflexivity|].
  destruct (is_sync a); cbn; [reflexivity|exact IH].
Qed.

Lemma PostPrepareData_sync_count s m :
  enabled s = true ->
  sync_count (PostPrepareData s m) = if (sync_count m =? 0)%nat then 1%nat else sync_count m.
Proof.
  intros He. unfold PostPrepareData, sync_count. unfold enabled in He. rewrite He.
  rewrite existsb_is_sync_count.
  destruct (Nat.eqb_spec (length (List.filter is_sync (msgs_at m ARTNET_DEST_PORT))) 0)
    as [E|E]; cbn [negb]; rewrite msgs_at_set_msgs.
  - rewrite List.filter_app, length_app, E. reflexivity.
  - reflexivity.
Qed.

Lemma PostPrepareData_disabled s m : enabled s = false -> PostPrepareData s m = m.
Proof. unfold enabled, PostPrepareData. now intros ->. Qed.

Lemma PostPrepareData_present s m :
  (1 <= sync_count m)%nat -> PostPrepareData s m = m.
Proof.
  intros Hc. destruct (enabled s) eqn:He; [|now apply PostPrepareData_disabled].
  unfold PostPrepareData. unfold enabled in He. rewrite He.
  rewrite existsb_is_sync_count. unfold sync_count in Hc.
  destruct (Nat.eqb_spec (length (List.filter is_sync (msgs_at m ARTNET_DEST_PORT))) 0)
    as [E|E]; [lia|]. cbn [negb].
  unfold set_msgs, msgs_at in *. destruct m as [msgs socks]. cbn in *. f_equal.
  apply insert_id. destruct (msgs !! ARTNET_DEST_PORT) as [l|]; [reflexivity|].
  cbn in E. congruence.
Qed.

Lemma run_tick_sync_count ops : forall m,
  sync_count (run_tick m ops) =
  if (sync_count m =? 0)%nat
  then (if existsb posts ops then 1%nat else 0%nat)
  else sync_count m.
Proof.
  induction ops as [|op ops IH]; intros m; cbn [run_tick foldl existsb].
  - destruct (Nat.eqb_spec (sync_count m) 0); congruence.
  - fold (run_tick (run_op m op) ops). rewrite IH.
    destruct op as [s d|s]; cbn [run_op posts orb].
    + now rewrite PrepareData_sync_count.
    + destruct (enabled s) eqn:He.
      * rewrite PostPrepareData_sync_count by exact He. cbn [orb].
        destruct (Nat.eqb_spec (sync_count m) 0) as [E|E]; cbn.
        -- reflexivity.
        -- destruct (Nat.eqb_spec (sync_count m) 0); [lia|reflexivity].
      * now rewrite PostPrepareData_disabled by exact He.
Qed.

(** C4. Start a tick with a batch that holds no synchronization packet for
    the ArtNet port and let any sinks make any PrepareData and
    PostPrepareData calls on it: as soon as one valid, active sink has called
    PostPrepareData the port's batch holds exactly one synchronization
    packet (none before), and a PostPrepareData call on a batch that already
    holds one returns it unchanged. *)
Theorem PostPrepareData_one_sync_per_tick (m0 : UDPOutputMessages) (ops : list tick_op) :
  sync_count m0 = 0%nat ->
  sync_count (run_tick m0 ops) = (if existsb posts ops then 1%nat else 0%nat) /\
  (forall s m, sync_count m = 1%nat -> PostPrepareData s m = m) /\
  (forall s s', enabled s = true ->
     let m := PostPrepareData s (run_tick m0 ops) in
     sync_count m = 1%nat /\ PostPrepareData s' m = m).
Proof.
  intros H0. split; [|split].
  - rewrite run_tick_sync_count, H0. reflexivity.
  - intros s m Hm. apply PostPrepareData_present. lia.
  - intros s s' He m.
    assert (Hm : sync_count m = 1%nat).
    { unfold m. rewrite PostPrepareData_sync_count by exact He.
      rewrite run_tick_sync_count, H0. cbn.
      destruct (existsb posts ops); reflexivity. }
    split; [exact Hm|]. apply PostPrepareData_present. lia.
Qed.

(** *** A sink whose host does not resolve *)

Lemma run_calls_disabled s calls :
  enabled s = false -> forall m, run_calls s m calls = (s, m, []).
Proof.
  intros He. induction calls as [|[d|] calls IH]; intros m; cbn [run_calls].
  - reflexivity.
  - rewrite PrepareData_disabled by exact He. now rewrite IH.
  - rewrite PostPrepareData_disabled by exact He. apply IH.
Qed.

(** C6. A sink that is not a broadcast sink and whose host name does not
    resolve in the constructor is left with valid = false and active = false;
    whatever PrepareData and PostPrepareData calls follow, on whatever batch,
    the sink and the batch stay as they are (nothing is queued) and no socket
    is asked for. *)
Theorem unresolved_host_disables_sink
    (self : nat) (config : Config) (m : UDPOutputMessages) (calls : list call) :
  cfg_type config <> ARTNET_TYPE_BROADCAST ->
  (toInetAddr (if cfg_type config =? 3 then cfg_address config else "")
              (valid (UDPOutputData_new config))).2 = false ->
  let s := (ArtNetOutputData_new self config).1 in
  valid (base s) = false /\
  active (base s) = false /\
  run_calls s m calls = (s, m, []).
Proof.
  intros Ht Hr s.
  assert (Hva : valid (base s) = false /\ active (base s) = false).
  { unfold s, ArtNetOutputData_new. cbv zeta.
    cbn [UDPOutputData_new type valid active ipAddress] in *.
    destruct (Z.eqb_spec (cfg_type config) ARTNET_TYPE_BROADCAST) as [E|_]; [contradiction|].
    destruct (toInetAddr _ _) as [a v]. cbn [snd] in Hr. subst v. cbn [negb andb].
    destruct (negb (cfg_active config =? 0)) eqn:Ea;
      destruct (for_loop _ _ _ _); cbn; auto. }
  destruct Hva as [Hv Ha]. repeat split; try assumption.
  apply run_calls_disabled. unfold enabled. now rewrite Hv.
Qed.

(** *** Packet templates *)

Lemma le16_split v :
  0 <= v < 65536 ->
  0 <= uchar (Z.rem v 256) < 256 /\ 0 <= uchar (Z.quot v 256) < 256 /\
  uchar (Z.rem v 256) + 256 * uchar (Z.quot v 256) = v.
Proof.
  intros Hv. rewrite Z.rem_mod_nonneg, Z.quot_div_nonneg by lia.
  assert (0 <= v mod 256 < 256) by (apply Z.mod_pos_bound; lia).
  assert (0 <= v / 256 < 256).
  { split; [apply Z.div_pos; lia | apply Z.div_lt_upper_bound; lia]. }
  rewrite !uchar_id by assumption.
  repeat split; try lia.
  pose proof (Z.div_mod v 256). lia.
Qed.

(** The template of universe [x] as the constructor leaves it: 18 bytes that
    agree with [ArtNetHeader] up to the physical-port byte, the universe id
    low byte first at offset 14, the channel count high byte first at offset
    16, and a payload entry of [channelCount] bytes that points nowhere yet. *)
Theorem template_layout (self : nat) (config : Config) (x : nat) :
  let s := (ArtNetOutputData_new self config).1 in
  (x < Z.to_nat (universeCount s))%nat ->
  0 <= cfg_id config + Z.of_nat x < 65536 ->
  0 <= cfg_channelCount config < 65536 ->
  exists h lo hi lenhi lenlo,
    anHeaders s !! x = Some h /\
    length h = Z.to_nat ARTNET_HEADER_LENGTH /\
    take 14 h = take 14 ArtNetHeader /\
    h !! ARTNET_UNIVERSE_INDEX = Some lo /\ h !! S ARTNET_UNIVERSE_INDEX = Some hi /\
    0 <= lo < 256 /\ 0 <= hi < 256 /\ lo + 256 * hi = universe s + Z.of_nat x /\
    h !! ARTNET_LENGTH_INDEX = Some lenhi /\ h !! S ARTNET_LENGTH_INDEX = Some lenlo /\
    0 <= lenhi < 256 /\ 0 <= lenlo < 256 /\ 256 * lenhi + lenlo = channelCount (base s) /\
    anIovecs s !! (x * 2)%nat
      = Some {| iov_base := PHeader self x; iov_len := ARTNET_HEADER_LENGTH |} /\
    anIovecs s !! (x * 2 + 1)%nat
      = Some {| iov_base := PNull; iov_len := channelCount (base s) |}.
Proof.
  intros s Hx Hu Hc.
  destruct (new_fields self config) as (_ & Eu & _ & _ & _ & Ec & _).
  destruct (new_templates self config x Hx) as (A & B & C).
  fold s in Eu, Ec, A, B, C. cbn [fst snd] in A, B, C.
  assert (Ei : int32 (cfg_id config + Z.of_nat x) = cfg_id config + Z.of_nat x).
  { apply int32_id. unfold in_int, INT_MIN, INT_MAX. lia. }
  destruct (le16_split _ Hu) as (L1 & L2 & L3).
  destruct (le16_split _ Hc) as (M1 & M2 & M3).
  eexists _, _, _, _, _. split; [exact A|].
  unfold header_template. rewrite Ei. cbn [length take lookup list_lookup
    ARTNET_UNIVERSE_INDEX ARTNET_LENGTH_INDEX].
  rewrite Eu, Ec.
  repeat split; try reflexivity; try lia; try assumption.
  rewrite C. unfold size_t. now rewrite Z.mod_small by lia.
Qed.
(** *** What a queued datagram points at *)

Lemma PrepareData_loop_windows s channelData msgs i :
  ps_iovecs (PrepareData_loop s channelData msgs) !! (i * 2 + 1)%nat =
  (fun v => if (i <? Z.to_nat (universeCount s))%nat && need s channelData i
            then {| iov_base := PChannelData (window s i); iov_len := iov_len v |}
            else v) <$> (anIovecs s !! (i * 2 + 1)%nat).
Proof.
  set (Inv := fun (x : nat) (st : prep_state) =>
    prep_inv s channelData msgs x st /\
    forall i, ps_iovecs st !! (i * 2 + 1)%nat =
      (fun v => if (i <? x)%nat && need s channelData i
                then {| iov_base := PChannelData (window s i); iov_len := iov_len v |}
                else v) <$> (anIovecs s !! (i * 2 + 1)%nat)).
  assert (H : Inv (0 + Z.to_nat (universeCount s))%nat (PrepareData_loop s channelData msgs)).
  { unfold PrepareData_loop. apply for_loop_invariant.
    - split; [apply prep_inv_init|]. intros k. cbn [ps_iovecs].
      symmetry. apply option_fmap_id_ext. intros v. reflexivity.
    - intros x st _ [I Hodd]. split; [now apply prep_inv_step|].
      intros k. unfold PrepareData_body.
      rewrite (pi_start _ _ _ _ _ I). fold (need s channelData x).
      destruct (need s channelData x) eqn:En; cbn [ps_iovecs].
      + destruct (decide (k = x)) as [->|Hne].
        * rewrite list_lookup_alter_eq, Hodd, <- option_fmap_compose.
          apply option_fmap_ext. intros v. unfold compose. cbv beta.
          rewrite En, Nat.ltb_irrefl.
          replace (x <? S x)%nat with true by (symmetry; apply Nat.ltb_lt; lia).
          cbn [andb iov_len]. rewrite (pi_cur _ _ _ _ _ I). reflexivity.
        * rewrite list_lookup_alter_ne by lia. rewrite Hodd.
          apply option_fmap_ext. intros v.
          replace (k <? S x)%nat with (k <? x)%nat; [reflexivity|].
          destruct (Nat.ltb_spec k x), (Nat.ltb_spec k (S x)); try reflexivity; lia.
      + rewrite Hodd. apply option_fmap_ext. intros v.
        destruct (decide (k = x)) as [->|Hne].
        * rewrite En, !andb_false_r. reflexivity.
        * replace (k <? S x)%nat with (k <? x)%nat; [reflexivity|].
          destruct (Nat.ltb_spec k x), (Nat.ltb_spec k (S x)); try reflexivity; lia. }
  exact (proj2 H i).
Qed.

Lemma PrepareData_windows s channelData m i :
  enabled s = true ->
  anIovecs (PrepareData s channelData m).1.1 !! (i * 2 + 1)%nat =
  (fun v => if (i <? Z.to_nat (universeCount s))%nat && need s channelData i
            then {| iov_base := PChannelData (window s i); iov_len := iov_len v |}
            else v) <$> (anIovecs s !! (i * 2 + 1)%nat).
Proof.
  intros H. prepare_enabled H; apply PrepareData_loop_windows.
Qed.

Lemma PrepareData_universe s channelData m :
  universe (PrepareData s channelData m).1.1 = universe s.
Proof.
  unfold PrepareData.
  destruct (valid (base s) && active (base s)); [|reflexivity].
  destruct (GetSocket _ ARTNET_DEST_PORT =? -1); reflexivity.
Qed.

Lemma PrepareData_shape s channelData m :
  sink_shape s -> sink_shape (PrepareData s channelData m).1.1.
Proof.
  intros Hs.
  destruct (enabled s) eqn:He.
  2:{ now rewrite PrepareData_disabled by exact He. }
  pose proof (PrepareData_static s channelData m) as (Eself & EN & _ & _ & Esc & Ecc).
  cbv zeta in *.
  intros x Hx. rewrite EN in Hx. destruct (Hs x Hx) as (A & (p & B) & (b & Hb & C)).
  rewrite Eself, Ecc, PrepareData_universe.
  split; [|split].
  - rewrite PrepareData_iovecs. exact A.
  - rewrite PrepareData_windows, B by exact He. cbn [fmap option_fmap option_map].
    destruct (_ && _); eauto.
  - rewrite PrepareData_headers, C by exact He. cbn [fmap option_fmap option_map].
    destruct (_ && _); [|eauto]. exists (uchar (sequenceNumber s)).
    split; [pose proof (uchar_range (sequenceNumber s)); lia|].
    unfold stamp. now rewrite list_insert_insert_eq.
Qed.

Lemma new_shape self config : sink_shape (ArtNetOutputData_new self config).1.
Proof.
  pose proof (new_fields self config) as (Hself & Hu & _ & _ & _ & Hc & _).
  pose proof (new_templates self config) as Ht.
  cbv zeta in *. set (s := (ArtNetOutputData_new self config).1) in *.
  intros x Hx. destruct (Ht x Hx) as (A & B & C). cbn [fst snd] in A, B, C.
  rewrite Hself, Hu, Hc. split; [exact B|]. split; [eauto|].
  exists 0. split; [lia|]. rewrite A. reflexivity.
Qed.

Lemma run_frames_shape frames : forall s, sink_shape s -> sink_shape (run_frames s frames).
Proof.
  induction frames as [|[d m] fs IH]; intros s Hs; cbn; [exact Hs|].
  apply IH, PrepareData_shape, Hs.
Qed.

Lemma run_frames_static frames : forall s,
  self (run_frames s frames) = self s /\
  universe (run_frames s frames) = universe s /\
  universeCount (run_frames s frames) = universeCount s /\
  startChannel (base (run_frames s frames)) = startChannel (base s) /\
  channelCount (base (run_frames s frames)) = channelCount (base s).
Proof.
  induction frames as [|[d m] fs IH]; intros s; cbn [run_frames]; [auto|].
  destruct (IH (PrepareData s d m).1.1) as (A & B & C & D & E).
  pose proof (PrepareData_static s d m) as (A' & C' & _ & _ & D' & E'). cbv zeta in *.
  rewrite A, B, C, D, E, A', C', D', E', PrepareData_universe. auto.
Qed.

(** X13. What a queued datagram is made of.  On a sink as its constructor
    and any number of earlier frames leave it, every universe [x] a
    [PrepareData] call queues has its datagram in the batch for port 6454,
    addressed to the sink's destination and made of the two entries
    [anIovecs[2x]] and [anIovecs[2x+1]]: the 18-byte header of universe [x]
    and the [channelCount] bytes of the show buffer starting at
    [startChannel - 1 + x * channelCount].  The message length is the sum of
    the two, and the payload lies inside the range
    [GetRequiredChannelRange] reports. *)
Theorem queued_datagram_layout
    (self : nat) (config : Config) (frames : list (list Z * UDPOutputMessages))
    (channelData : list Z) (m : UDPOutputMessages) (x : nat) :
  let s := run_frames (ArtNetOutputData_new self config).1 frames in
  let r := PrepareData s channelData m in
  let cc := cfg_channelCount config in
  let first := cfg_startChannel config - 1 + Z.of_nat x * cc in
  enabled s = true ->
  0 <= cc ->
  1 <= cfg_startChannel config ->
  cfg_startChannel config + cc * clamp_universeCount config + 18 <= INT_MAX ->
  In x (queued s channelData) ->
  In (data_msg s x) (msgs_at r.1.2 ARTNET_DEST_PORT) /\
  data_msg s x =
    {| msg_name := AddrSink self; msg_namelen := sizeof_sockaddr_in;
       msg_iov := IovSink self (x * 2); msg_iovlen := 2; msg_len := 18 + cc |} /\
  anIovecs r.1.1 !! (x * 2)%nat = Some {| iov_base := PHeader self x; iov_len := 18 |} /\
  anIovecs r.1.1 !! (x * 2 + 1)%nat = Some {| iov_base := PChannelData first; iov_len := cc |} /\
  (GetRequiredChannelRange s).1 <= first /\
  first + cc <= (GetRequiredChannelRange s).2.
Proof.
  intros s r cc first He Hcc Hsc Hmax Hq.
  pose proof (clamp_universeCount_ge1 config) as HN.
  destruct (new_fields self config) as (Fself & _ & FN & _ & Fsc & Fcc & _).
  destruct (run_frames_static frames (ArtNetOutputData_new self config).1)
    as (Eself & _ & EN & Esc & Ecc).
  fold s in Eself, EN, Esc, Ecc. rewrite Fself in Eself. rewrite FN in EN.
  rewrite Fsc in Esc. rewrite Fcc in Ecc. fold cc in Ecc.
  assert (Hshape : sink_shape s) by (apply run_frames_shape, new_shape).
  unfold queued in Hq. apply List.filter_In in Hq as [Hx Hneed].
  apply in_seq in Hx. rewrite EN in Hx.
  assert (Hxn : (x < Z.to_nat (universeCount s))%nat) by (rewrite EN; lia).
  destruct (Hshape x Hxn) as (A & (p & B) & _).
  assert (Hxc : Z.of_nat x * cc + cc <= cc * clamp_universeCount config) by nia.
  unfold INT_MAX in Hmax.
  split; [|split; [|split; [|split]]].
  - unfold r. rewrite PrepareData_msgs by exact He.
    apply in_app_iff. right. apply in_map. unfold queued. apply List.filter_In.
    split; [apply in_seq; lia|exact Hneed].
  - unfold data_msg. rewrite Eself, Ecc. f_equal.
    rewrite int32_id by (unfold in_int, INT_MIN, INT_MAX, ARTNET_HEADER_LENGTH; nia).
    unfold ARTNET_HEADER_LENGTH. rewrite uint32_id by nia. lia.
  - unfold r. rewrite PrepareData_iovecs, A, Eself. reflexivity.
  - unfold r. rewrite PrepareData_windows, B by exact He.
    cbn [fmap option_fmap option_map].
    replace (x <? Z.to_nat (universeCount s))%nat with true
      by (symmetry; apply Nat.ltb_lt; exact Hxn).
    rewrite Hneed. cbn [andb iov_len]. unfold window. rewrite Esc, Ecc.
    unfold size_t. rewrite Z.mod_small by nia. reflexivity.
  - unfold GetRequiredChannelRange. rewrite Esc, Ecc, EN. cbn [fst snd].
    rewrite (int32_id (cfg_startChannel config - 1))
      by (unfold in_int, INT_MIN, INT_MAX; nia).
    rewrite (int32_id (cc * clamp_universeCount config))
      by (unfold in_int, INT_MIN, INT_MAX; nia).
    rewrite (int32_id (cfg_startChannel config + _))
      by (unfold in_int, INT_MIN, INT_MAX; nia).
    rewrite int32_id by (unfold in_int, INT_MIN, INT_MAX; nia).
    unfold first. split; nia.
Qed.

(** X14. Across any number of [PrepareData] calls a sink keeps, for every
    universe, the header its constructor made except for byte 12, the
    sequence number: the Art-Net id, opcode, protocol version, universe
    number and length bytes are never written again. *)
Theorem headers_keep_template
    (self : nat) (config : Config) (frames : list (list Z * UDPOutputMessages)) (x : nat) :
  let s := run_frames (ArtNetOutputData_new self config).1 frames in
  (x < Z.to_nat (clamp_universeCount config))%nat ->
  exists h b,
    anHeaders s !! x = Some h /\
    0 <= b <= 255 /\
    h = <[ARTNET_SEQUENCE_INDEX := b]>
          (header_template (cfg_id config) (cfg_channelCount config) x) /\
    length h = 18%nat /\
    (forall j, j <> ARTNET_SEQUENCE_INDEX ->
       h !! j = header_template (cfg_id config) (cfg_channelCount config) x !! j).
Proof.
  intros s Hx.
  destruct (new_fields self config) as (_ & Fu & FN & _ & _ & Fcc & _).
  destruct (run_frames_static frames (ArtNetOutputData_new self config).1)
    as (_ & Eu & EN & _ & Ecc).
  fold s in Eu, EN, Ecc. rewrite Fu in Eu. rewrite FN in EN. rewrite Fcc in Ecc.
  assert (Hshape : sink_shape s) by (apply run_frames_shape, new_shape).
  destruct (Hshape x ltac:(rewrite EN; exact Hx)) as (_ & _ & (b & Hb & C)).
  rewrite Eu, Ecc in C.
  eexists _, b. split; [exact C|]. split; [exact Hb|]. split; [reflexivity|].
  split; [now rewrite length_insert|].
  intros j Hj. now rewrite list_lookup_insert_ne by congruence.
Qed.

(** *** The socket of the batch *)

Lemma GetSocket_ForceSocket m port fd port' :
  GetSocket (ForceSocket m port fd) port' = if decide (port = port') then fd else GetSocket m port'.
Proof.
  unfold GetSocket, ForceSocket. cbn [sockets].
  destruct (decide (port = port')) as [->|Hne].
  - now rewrite lookup_insert_eq.
  - now rewrite lookup_insert_ne.
Qed.

Lemma GetSocket_set_msgs m port l port' :
  GetSocket (set_msgs m port l) port' = GetSocket m port'.
Proof. reflexivity. Qed.

(** X15. All ArtNet datagrams of a batch leave from one socket.  A valid,
    active sink's [PrepareData] asks for a new ArtNet socket exactly when
    the batch has none for port 6454, and binds it to that port; a batch
    that has one keeps it and no socket is asked for.  Sockets and pending
    messages of other ports are left alone.  So, when the socket handed out
    is not -1, no later [PrepareData] on that batch asks for another. *)
Theorem PrepareData_socket
    (s : ArtNetOutputData) (channelData : list Z) (m : UDPOutputMessages) :
  let r := PrepareData s channelData m in
  (enabled s = true ->
   (GetSocket m ARTNET_DEST_PORT = -1 ->
    r.2 = [IoCreateArtNetSocket] /\
    GetSocket r.1.2 ARTNET_DEST_PORT = CreateArtNetSocket) /\
   (GetSocket m ARTNET_DEST_PORT <> -1 ->
    r.2 = [] /\
    GetSocket r.1.2 ARTNET_DEST_PORT = GetSocket m ARTNET_DEST_PORT) /\
   (CreateArtNetSocket <> -1 ->
    forall s' channelData', (PrepareData s' channelData' r.1.2).2 = [])) /\
  (forall port, port <> ARTNET_DEST_PORT ->
     GetSocket r.1.2 port = GetSocket m port /\ msgs_at r.1.2 port = msgs_at m port).
Proof.
  intros r. split.
  - intros He.
    assert (Hr : r = PrepareData s channelData m) by reflexivity.
    unfold PrepareData in Hr. unfold enabled in He. rewrite He in Hr.
    destruct (Z.eqb_spec (GetSocket m ARTNET_DEST_PORT) (-1)) as [E|E];
      cbn [fst snd] in Hr.
    + assert (Hs : GetSocket r.1.2 ARTNET_DEST_PORT = CreateArtNetSocket).
      { rewrite Hr. cbn [fst snd]. rewrite GetSocket_set_msgs, GetSocket_ForceSocket.
        now rewrite decide_True. }
      split; [|split].
      * intros _. split; [now rewrite Hr|exact Hs].
      * intros H. contradiction.
      * intros Hfd s' channelData'. unfold PrepareData.
        destruct (valid (base s') && active (base s')); [|reflexivity].
        rewrite Hs. destruct (Z.eqb_spec CreateArtNetSocket (-1)); [contradiction|].
        reflexivity.
    + assert (Hs : GetSocket r.1.2 ARTNET_DEST_PORT = GetSocket m ARTNET_DEST_PORT).
      { rewrite Hr. cbn [fst snd]. now rewrite GetSocket_set_msgs. }
      split; [|split].
      * intros H. contradiction.
      * intros _. split; [now rewrite Hr|exact Hs].
      * intros _ s' channelData'. unfold PrepareData.
        destruct (valid (base s') && active (base s')); [|reflexivity].
        rewrite Hs. destruct (Z.eqb_spec (GetSocket m ARTNET_DEST_PORT) (-1));
          [contradiction|]. reflexivity.
  - intros port Hp. split; [|now apply PrepareData_other_ports].
    unfold r, PrepareData.
    destruct (valid (base s) && active (base s)); [|reflexivity].
    destruct (GetSocket m ARTNET_DEST_PORT =? -1); cbn [fst snd];
      rewrite GetSocket_set_msgs, ?GetSocket_ForceSocket; [|reflexivity].
    rewrite decide_False by congruence. reflexivity.
Qed.

End Sink.

(** *** Concrete runs *)

(** A resolver that knows no host, and one that knows every host. *)
Definition resolve_none : string -> bool -> Z * bool := fun _ _ => (0, false).
Definition resolve_any : string -> bool -> Z * bool := fun _ _ => (0x0100007F, true).

(** Broadcast sink, two universes of two channels from channel 1. *)
Definition cfg_small : Config :=
  {| cfg_description := None; cfg_active := 1; cfg_startChannel := 1;
     cfg_channelCount := 2; cfg_type := ARTNET_TYPE_BROADCAST; cfg_id := 0;
     cfg_priority := 0; cfg_universeCount := Some 2; cfg_address := "" |}.

(** Unicast sink to a host. *)
Definition cfg_unicast : Config :=
  {| cfg_description := None; cfg_active := 1; cfg_startChannel := 1;
     cfg_channelCount := 2; cfg_type := ARTNET_TYPE_UNICAST; cfg_id := 0;
     cfg_priority := 0; cfg_universeCount := Some 2; cfg_address := "nowhere.invalid" |}.

(** Broadcast sink with one universe of 511 channels. *)
Definition cfg_odd : Config :=
  {| cfg_description := None; cfg_active := 1; cfg_startChannel := 1;
     cfg_channelCount := 511; cfg_type := ARTNET_TYPE_BROADCAST; cfg_id := 0;
     cfg_priority := 0; cfg_universeCount := Some 1; cfg_address := "" |}.

Definition no_messages : UDPOutputMessages := {| messages := ∅; sockets := ∅ |}.

Definition sink_small : ArtNetOutputData := (ArtNetOutputData_new resolve_none 1 cfg_small).1.

(** [sink_small] after the frame [10; 20; 30; 40]. *)
Definition sink_small_sent : ArtNetOutputData :=
  (PrepareData 5 sink_small [10; 20; 30; 40] no_messages).1.1.

Example sink_small_first_frame :
  msgs_at (PrepareData 5 sink_small [10; 20; 30; 40] no_messages).1.2 ARTNET_DEST_PORT
    = [data_msg sink_small 0; data_msg sink_small 1] /\
  lastData (base sink_small_sent) = Some [10; 20; 30; 40] /\
  skippedFrames (base sink_small_sent) = 0 /\
  sequenceNumber sink_small_sent = 2.
Proof. repeat split; reflexivity. Qed.

Example sink_small_second_frame :
  let r := PrepareData 5 sink_small_sent [10; 20; 31; 40] no_messages in
  msgs_at r.1.2 ARTNET_DEST_PORT = [data_msg sink_small 1] /\
  lastData (base r.1.1) = Some [10; 20; 31; 40] /\
  skippedFrames (base r.1.1) = 1 /\
  anHeaders r.1.1 !! 1%nat
    = Some [65; 114; 116; 45; 78; 101; 116; 0; 0; 80; 0; 14; 2; 0; 1; 0; 0; 2] /\
  anIovecs r.1.1 !! 3%nat = Some {| iov_base := PChannelData 2; iov_len := 2 |}.
Proof. repeat split; reflexivity. Qed.

Ltac in_range :=
  vm_compute;
  first [ reflexivity | lia | intro; discriminate
        | split; first [reflexivity | intro; discriminate] ].

Lemma GetRequiredChannelRange_length_witness :
  let s := (ArtNetOutputData_new resolve_none 1 cfg_small).1 in
  let min := (GetRequiredChannelRange s).1 in
  let max := (GetRequiredChannelRange s).2 in
  universeCount s = 2 /\
  min = cfg_startChannel cfg_small - 1 /\
  max = cfg_startChannel cfg_small - 1 + cfg_channelCount cfg_small * 2 /\
  max - min = channelCount (base s) * universeCount s.
Proof.
  apply (GetRequiredChannelRange_length resolve_none 1%nat cfg_small 2).
  - reflexivity.
  - lia.
  - in_range.
  - in_range.
  - in_range.
  - in_range.
Defined.

Lemma PrepareData_skips_unchanged_universe_witness :
  let r := PrepareData 5 sink_small_sent [10; 20; 31; 40] no_messages in
  (exists xs : list nat,
      msgs_at r.1.2 ARTNET_DEST_PORT
        = msgs_at no_messages ARTNET_DEST_PORT ++ map (data_msg sink_small_sent) xs /\
      0%nat ∉ xs) /\
  skippedFrames (base r.1.1) = skippedFrames (base sink_small_sent) + 1.
Proof.
  apply (PrepareData_skips_unchanged_universe 5 sink_small_sent [10; 20; 31; 40]
           no_messages 0%nat [10; 20; 30; 40]).
  - reflexivity.
  - in_range.
  - in_range.
  - in_range.
  - in_range.
  - reflexivity.
  - reflexivity.
Defined.

Lemma PrepareData_queues_exactly_changed_witness :
  let s := sink_small_sent in
  let channelData := [10; 20; 31; 40] in
  let r := PrepareData 5 s channelData no_messages in
  let q := List.filter (changed s channelData) (seq 0 (Z.to_nat (universeCount s))) in
  msgs_at r.1.2 ARTNET_DEST_PORT
    = msgs_at no_messages ARTNET_DEST_PORT ++ map (data_msg s) q /\
  (q <> [] ->
   lastData (base r.1.1) =
   Some (bytes_at channelData (startChannel (base s) - 1)
                  (channelCount (base s) * universeCount s))) /\
  (q = [] -> lastData (base r.1.1) = lastData (base s)).
Proof.
  apply (PrepareData_queues_exactly_changed 5 sink_small_sent [10; 20; 31; 40] no_messages).
  - reflexivity.
  - in_range.
  - in_range.
  - in_range.
  - in_range.
Defined.

Lemma PostPrepareData_one_sync_per_tick_witness :
  let ops := [OpPrepareData sink_small [10; 20; 30; 40];
              OpPostPrepareData sink_small; OpPostPrepareData sink_small_sent] in
  sync_count (run_tick 5 no_messages ops) = (if existsb posts ops then 1%nat else 0%nat) /\
  (forall s m, sync_count m = 1%nat -> PostPrepareData s m = m) /\
  (forall s s', enabled s = true ->
     let m := PostPrepareData s (run_tick 5 no_messages ops) in
     sync_count m = 1%nat /\ PostPrepareData s' m = m).
Proof.
  apply (PostPrepareData_one_sync_per_tick 5 no_messages).
  reflexivity.
Defined.

Example one_tick_two_sinks :
  msgs_at (run_tick 5 no_messages
             [OpPrepareData sink_small [10; 20; 30; 40];
              OpPostPrepareData sink_small; OpPostPrepareData sink_small_sent])
          ARTNET_DEST_PORT
  = [data_msg sink_small 0; data_msg sink_small 1; sync_msg].
Proof. reflexivity. Qed.

(** The counter over 254, 255 and 256 frames: 255, then 1, never 0. *)
Example sequence_wraps_past_255 :
  let frame := ([10; 20; 30; 40], no_messages) in
  sequenceNumber (run_frames 5 sink_small (replicate 254 frame)) = 255 /\
  sequenceNumber (run_frames 5 sink_small (replicate 255 frame)) = 1 /\
  sequenceNumber (run_frames 5 sink_small (replicate 256 frame)) = 2.
Proof. cbv zeta. repeat split; vm_compute; reflexivity. Qed.

Lemma unresolved_host_disables_sink_witness :
  let s := (ArtNetOutputData_new resolve_none 1 cfg_unicast).1 in
  let calls := [CallPrepareData [10; 20; 30; 40]; CallPostPrepareData;
                CallPrepareData [11; 20; 30; 40]; CallPostPrepareData] in
  valid (base s) = false /\
  active (base s) = false /\
  run_calls 5 s no_messages calls = (s, no_messages, []).
Proof.
  apply (unresolved_host_disables_sink resolve_none 5 1%nat cfg_unicast).
  - discriminate.
  - reflexivity.
Defined.

(** The same configuration with a host that resolves transmits. *)
Example resolved_host_transmits :
  let s := (ArtNetOutputData_new resolve_any 1 cfg_unicast).1 in
  enabled s = true /\
  msgs_at (run_calls 5 s no_messages [CallPrepareData [10; 20; 30; 40]; CallPostPrepareData]).1.2
          ARTNET_DEST_PORT
  = [data_msg s 0; data_msg s 1; sync_msg].
Proof. split; reflexivity. Qed.

Lemma template_layout_witness :
  let s := (ArtNetOutputData_new resolve_none 1 cfg_small).1 in
  exists h lo hi lenhi lenlo,
    anHeaders s !! 1%nat = Some h /\
    length h = Z.to_nat ARTNET_HEADER_LENGTH /\
    take 14 h = take 14 ArtNetHeader /\
    h !! ARTNET_UNIVERSE_INDEX = Some lo /\ h !! S ARTNET_UNIVERSE_INDEX = Some hi /\
    0 <= lo < 256 /\ 0 <= hi < 256 /\ lo + 256 * hi = universe s + Z.of_nat 1 /\
    h !! ARTNET_LENGTH_INDEX = Some lenhi /\ h !! S ARTNET_LENGTH_INDEX = Some lenlo /\
    0 <= lenhi < 256 /\ 0 <= lenlo < 256 /\ 256 * lenhi + lenlo = channelCount (base s) /\
    anIovecs s !! (1 * 2)%nat
      = Some {| iov_base := PHeader 1 1; iov_len := ARTNET_HEADER_LENGTH |} /\
    anIovecs s !! (1 * 2 + 1)%nat
      = Some {| iov_base := PNull; iov_len := channelCount (base s) |}.
Proof.
  apply (template_layout resolve_none 1%nat cfg_small 1%nat).
  - in_range.
  - in_range.
  - in_range.
Defined.

(** C8 on a sink of 511 channels: the template is 18 bytes with the universe
    id low byte first and the length 0x01FF high byte first, and its payload
    entry is 511 bytes long, which is odd. *)
Theorem odd_channelCount_template :
  let s := (ArtNetOutputData_new resolve_none 1 cfg_odd).1 in
  anHeaders s !! 0%nat
    = Some [65; 114; 116; 45; 78; 101; 116; 0; 0x00; 0x50; 0x00; 0x0E; 0; 0; 0; 0; 0x01; 0xFF] /\
  anIovecs s !! 1%nat = Some {| iov_base := PNull; iov_len := 511 |} /\
  Z.even 511 = false /\
  msgs_at (PrepareData 5 s (replicate 511 7) no_messages).1.2 ARTNET_DEST_PORT
    = [{| msg_name := AddrSink 1; msg_namelen := 16; msg_iov := IovSink 1 0;
          msg_iovlen := 2; msg_len := 511 + 18 |}].
Proof. repeat split; reflexivity. Qed.

Lemma queued_datagram_layout_witness :
  let s := sink_small in
  let r := PrepareData 5 s [10; 20; 30; 40] no_messages in
  In (data_msg s 1) (msgs_at r.1.2 ARTNET_DEST_PORT) /\
  data_msg s 1 =
    {| msg_name := AddrSink 1; msg_namelen := sizeof_sockaddr_in;
       msg_iov := IovSink 1 2; msg_iovlen := 2; msg_len := 20 |} /\
  anIovecs r.1.1 !! 2%nat = Some {| iov_base := PHeader 1 1; iov_len := 18 |} /\
  anIovecs r.1.1 !! 3%nat = Some {| iov_base := PChannelData 2; iov_len := 2 |} /\
  (GetRequiredChannelRange s).1 <= 2 /\
  2 + 2 <= (GetRequiredChannelRange s).2.
Proof.
  apply (queued_datagram_layout resolve_none 5 1 cfg_small [] [10; 20; 30; 40] no_messages 1).
  - reflexivity.
  - vm_compute. intro. discriminate.
  - vm_compute. intro. discriminate.
  - vm_compute. intro. discriminate.
  - vm_compute. right. left. reflexivity.
Defined.

Lemma headers_keep_template_witness :
  exists h b,
    anHeaders sink_small_sent !! 1%nat = Some h /\
    0 <= b <= 255 /\
    h = <[ARTNET_SEQUENCE_INDEX := b]> (header_template 0 2 1) /\
    length h = 18%nat /\
    (forall j, j <> ARTNET_SEQUENCE_INDEX -> h !! j = header_template 0 2 1 !! j).
Proof.
  apply (headers_keep_template resolve_none 5 1 cfg_small [([10; 20; 30; 40], no_messages)] 1).
  vm_compute. lia.
Defined.

End ArtNet.

(** ** Network monitor (src/NetworkMonitor.cpp) *)

Module NetworkMonitor.
Import CInt.

Inductive NetEventType : Type := NEW_LINK | DEL_LINK | NEW_ADDR | DEL_ADDR.

(** Values of <linux/netlink.h>, <linux/rtnetlink.h>, <net/if.h>. *)
Definition NLMSG_ERROR : Z := 2.
Definition NLMSG_DONE : Z := 3.
Definition RTM_NEWLINK : Z := 16.
Definition RTM_DELLINK : Z := 17.
Definition RTM_NEWADDR : Z := 20.
Definition RTM_DELADDR : Z := 21.
Definition IFF_RUNNING : Z := 0x40.
Definition AF_INET : Z := 2.

Record ifinfomsg : Type := { ifi_index : Z; ifi_flags : Z }.
Record ifaddrmsg : Type := { ifa_family : Z; ifa_index : Z }.

(** One netlink message; [nlmsg_link] and [nlmsg_addr] are the two readings
    of [NLMSG_DATA(h)], of which the code takes the one its type calls for. *)
Record nlmsghdr : Type := {
  nlmsg_type : Z;
  nlmsg_link : ifinfomsg;
  nlmsg_addr : ifaddrmsg
}.

Section Monitor.

(** [std::function<void(NetEventType, int, const std::string&)>]. *)
Context {Callback : Type}.

(** [if_indextoname]: the name of an interface index, if it has one. *)
Variable if_indextoname : Z -> option string.

Record NetworkMonitor : Type := {
  callbacks : gmap Z Callback;        (* std::map<int, std::function<...>> *)
  curId : Z
}.

Definition registerCallback (m : NetworkMonitor) (callback : Callback) : Z * NetworkMonitor :=
  let id := curId m in
  (id, {| callbacks := <[id := callback]> (callbacks m); curId := int32 (curId m + 1) |}).

Definition removeCallback (m : NetworkMonitor) (id : Z) : NetworkMonitor :=
  {| callbacks := delete id (callbacks m); curId := curId m |}.

(** One call [cb.second(nl, up, n)] of the callback stored under [inv_id]. *)
Record Invocation : Type := {
  inv_id : Z;
  inv_cb : Callback;
  inv_type : NetEventType;
  inv_up : Z;
  inv_name : string
}.

Definition key_le (a b : Z * Callback) : Prop := a.1 <= b.1.

#[local] Instance key_le_dec : RelDecision key_le.
Proof. intros a b. unfold key_le. apply _. Defined.

(** The entries of the map in the order [std::map] iterates: ascending key. *)
Definition in_key_order (cbs : gmap Z Callback) : list (Z * Callback) :=
  merge_sort key_le (map_to_list cbs).

Definition callCallbacks (m : NetworkMonitor) (nl : NetEventType) (up : Z) (n : string)
  : list Invocation :=
  (fun cb => {| inv_id := cb.1; inv_cb := cb.2; inv_type := nl; inv_up := up; inv_name := n |})
    <$> in_key_order (callbacks m).

(** *** The poll handler installed by Init

    [emit] stands for what a decoded event sets off; the handler calls
    [callCallbacks]. *)
Section Handler.
Context {Out : Type} (emit : NetEventType -> Z -> string -> list Out).

Definition name_of (index : Z) : string := default "" (if_indextoname index).

(** The [switch] on one message: whether the scan goes on, and what it emits. *)
Definition handle_msg (h : nlmsghdr) : bool * list Out :=
  let t := nlmsg_type h in
  if t =? NLMSG_DONE then (false, [])
  else if t =? NLMSG_ERROR then (false, [])
  else if (t =? RTM_NEWLINK) || (t =? RTM_DELLINK) then
    let ifi := nlmsg_link h in
    (true, emit (if t =? RTM_NEWLINK then NEW_LINK else DEL_LINK)
                (if Z.land (ifi_flags ifi) IFF_RUNNING =? 0 then 0 else 1)
                (name_of (ifi_index ifi)))
  else if (t =? RTM_NEWADDR) || (t =? RTM_DELADDR) then
    let ifi := nlmsg_addr h in
    if ifa_family ifi =? AF_INET then
      (true, emit (if t =? RTM_NEWADDR then NEW_ADDR else DEL_ADDR)
                  (if t =? RTM_NEWADDR then 1 else 0)
                  (name_of (ifa_index ifi)))
    else (true, [])
  else (true, []).

(** [for (h = buf; OK && NLMSG_OK(h, status); h = NLMSG_NEXT(h, status))]
    over the messages of one datagram. *)
Fixpoint handle_buffer (buf : list nlmsghdr) : list Out :=
  match buf with
  | [] => []
  | h :: buf =>
      let '(OK, out) := handle_msg h in
      if OK then out ++ handle_buffer buf else out
  end.

(** [while (status > 0)]: every datagram [recvmsg] hands over until it has
    none left. *)
Definition handle_reads (reads : list (list nlmsghdr)) : list Out :=
  concat (handle_buffer <$> reads).

End Handler.

(** The events a run of the handler decodes. *)
Definition decoded_events (reads : list (list nlmsghdr)) : list (NetEventType * Z * string) :=
  handle_reads (fun nl up n => [(nl, up, n)]) reads.

(** The callback invocations a run of the handler makes. *)
Definition poll_handler (m : NetworkMonitor) (reads : list (list nlmsghdr)) : list Invocation :=
  handle_reads (callCallbacks m) reads.

(** The invocations of the callback registered under [id]. *)
Definition invocations_of (id : Z) (trace : list Invocation) : list Invocation :=
  filter (fun i => inv_id i = id) trace.

(** Every registered id is below the next id to hand out. *)
Definition ids_below (m : NetworkMonitor) : Prop :=
  forall k, is_Some (callbacks m !! k) -> k < curId m.

(** Calls a client makes on the registry. *)
Inductive registry_op : Type :=
| OpRegister (callback : Callback)
| OpRemove (id : Z).

(** A run of registry calls: the ids the registrations returned, in order,
    and the monitor they leave. *)
Fixpoint run_registry (m : NetworkMonitor) (ops : list registry_op) : list Z * NetworkMonitor :=
  match ops with
  | [] => ([], m)
  | OpRegister callback :: ops =>
      let '(id, m) := registerCallback m callback in
      let '(ids, m) := run_registry m ops in
      (id :: ids, m)
  | OpRemove id :: ops => run_registry (removeCallback m id) ops
  end.

(** Number of registrations in a run. *)
Fixpoint registrations (ops : list registry_op) : nat :=
  match ops with
  | [] => 0
  | OpRegister _ :: ops => S (registrations ops)
  | OpRemove _ :: ops => registrations ops
  end.

(** What a message stands for when the scan reaches it. *)
Definition event_of (h : nlmsghdr) (e : NetEventType * Z * string) : Prop :=
  match e.1.1 with
  | NEW_LINK =>
      nlmsg_type h = RTM_NEWLINK /\
      e.1.2 = (if Z.land (ifi_flags (nlmsg_link h)) IFF_RUNNING =? 0 then 0 else 1) /\
      e.2 = name_of (ifi_index (nlmsg_link h))
  | DEL_LINK =>
      nlmsg_type h = RTM_DELLINK /\
      e.1.2 = (if Z.land (ifi_flags (nlmsg_link h)) IFF_RUNNING =? 0 then 0 else 1) /\
      e.2 = name_of (ifi_index (nlmsg_link h))
  | NEW_ADDR =>
      nlmsg_type h = RTM_NEWADDR /\ ifa_family (nlmsg_addr h) = AF_INET /\
      e.1.2 = 1 /\ e.2 = name_of (ifa_index (nlmsg_addr h))
  | DEL_ADDR =>
      nlmsg_type h = RTM_DELADDR /\ ifa_family (nlmsg_addr h) = AF_INET /\
      e.1.2 = 0 /\ e.2 = name_of (ifa_index (nlmsg_addr h))
  end.

(** *** Registry *)

Lemma ids_below_empty c : ids_below {| callbacks := ∅; curId := c |}.
Proof. intros k [x Hx]. cbn in Hx. now rewrite lookup_empty in Hx. Qed.

Lemma ids_below_register m cb :
  ids_below m -> INT_MIN <= curId m < INT_MAX -> ids_below (registerCallback m cb).2.
Proof.
  intros Hb Hc k. cbn [registerCallback snd callbacks curId].
  rewrite int32_id by (unfold in_int; lia).
  destruct (decide (curId m = k)) as [->|Hne]; [lia|].
  rewrite lookup_insert_ne by exact Hne. intros Hk. specialize (Hb k Hk). lia.
Qed.

Lemma ids_below_remove m id : ids_below m -> ids_below (removeCallback m id).
Proof.
  intros Hb k. cbn [removeCallback callbacks curId]. intros [x Hx].
  apply Hb. destruct (decide (id = k)) as [->|Hne].
  - now rewrite lookup_delete_eq in Hx.
  - rewrite lookup_delete_ne in Hx by exact Hne. eauto.
Qed.

Lemma registerCallback_fresh m cb :
  ids_below m -> callbacks m !! (registerCallback m cb).1 = None.
Proof.
  intros Hb. cbn [registerCallback fst].
  destruct (callbacks m !! curId m) eqn:E; [|reflexivity].
  specialize (Hb (curId m) (ex_intro _ _ E)). lia.
Qed.

(** *** Dispatch *)

Lemma filter_key_unique (l : list (Z * Callback)) id cb :
  NoDup l.*1 -> (id, cb) ∈ l -> filter (fun p => p.1 = id) l = [(id, cb)].
Proof.
  induction l as [|[k c] l IH]; intros Hnd Hin; [inversion Hin|].
  cbn [fmap list_fmap fst] in Hnd. apply NoDup_cons in Hnd as [Hk Hnd].
  rewrite filter_cons. cbn [fst]. apply elem_of_cons in Hin as [Hin|Hin].
  - inversion Hin; subst k c. rewrite decide_True by reflexivity. f_equal.
    clear IH Hin Hnd. induction l as [|[k c] l IH]; [reflexivity|].
    rewrite filter_cons. cbn [fst]. cbn [fmap list_fmap fst] in Hk.
    apply not_elem_of_cons in Hk as [Hne Hk].
    rewrite decide_False by congruence. now apply IH.
  - rewrite decide_False.
    + now apply IH.
    + intros ->. apply Hk. apply list_elem_of_fmap. exists (id, cb). now split.
Qed.

Lemma filter_key_absent (l : list (Z * Callback)) id :
  id ∉ l.*1 -> filter (fun p => p.1 = id) l = [].
Proof.
  induction l as [|[k c] l IH]; intros Hk; [reflexivity|].
  cbn [fmap list_fmap fst] in Hk. apply not_elem_of_cons in Hk as [Hne Hk].
  rewrite filter_cons. cbn [fst]. rewrite decide_False by congruence. now apply IH.
Qed.

Lemma invocations_of_callCallbacks m id nl up n :
  invocations_of id (callCallbacks m nl up n) =
  (fun cb => {| inv_id := cb.1; inv_cb := cb.2; inv_type := nl; inv_up := up; inv_name := n |})
    <$> filter (fun p => p.1 = id) (in_key_order (callbacks m)).
Proof.
  unfold invocations_of, callCallbacks.
  induction (in_key_order (callbacks m)) as [|[k c] l IH]; [reflexivity|].
  cbn [fmap list_fmap]. rewrite !filter_cons. cbn [inv_id fst].
  destruct (decide (k = id)); cbn [fmap list_fmap]; now rewrite <- IH.
Qed.

Lemma in_key_order_perm (cbs : gmap Z Callback) : in_key_order cbs ≡ₚ map_to_list cbs.
Proof. apply merge_sort_Permutation. Qed.

(** A registered callback is invoked exactly once per event, with the
    event's triple. *)
Lemma callCallbacks_registered m id cb nl up n :
  callbacks m !! id = Some cb ->
  invocations_of id (callCallbacks m nl up n) =
  [{| inv_id := id; inv_cb := cb; inv_type := nl; inv_up := up; inv_name := n |}].
Proof.
  intros Hcb. rewrite invocations_of_callCallbacks.
  rewrite (filter_key_unique _ id cb); [reflexivity| |].
  - rewrite in_key_order_perm. apply NoDup_fst_map_to_list.
  - rewrite in_key_order_perm. now apply elem_of_map_to_list.
Qed.

(** An id that is not registered is never invoked. *)
Lemma callCallbacks_unregistered m id nl up n :
  callbacks m !! id = None -> invocations_of id (callCallbacks m nl up n) = [].
Proof.
  intros Hcb. rewrite invocations_of_callCallbacks.
  rewrite filter_key_absent; [reflexivity|].
  rewrite in_key_order_perm. intros Hin.
  apply list_elem_of_fmap in Hin as ([k c] & -> & Hin).
  apply elem_of_map_to_list in Hin. cbn in Hcb. congruence.
Qed.

(** Dispatch goes through the registry in ascending id order. *)
Lemma callCallbacks_ascending m nl up n :
  Sorted Z.le (inv_id <$> callCallbacks m nl up n).
Proof.
  unfold callCallbacks. rewrite <- list_fmap_compose.
  assert (Hs : Sorted key_le (in_key_order (callbacks m))).
  { apply Sorted_merge_sort. intros a b. unfold key_le. lia. }
  induction Hs as [|a l Hs IH Hhd]; cbn; constructor; [exact IH|].
  destruct Hhd; cbn; constructor. assumption.
Qed.

(** *** Decoding *)

Lemma handle_buffer_emit {Out} (emit : NetEventType -> Z -> string -> list Out) buf :
  handle_buffer emit buf =
  concat ((fun e : NetEventType * Z * string => emit e.1.1 e.1.2 e.2)
            <$> handle_buffer (fun nl up n => [(nl, up, n)]) buf).
Proof.
  induction buf as [|h buf IH]; [reflexivity|].
  cbn [handle_buffer]. unfold handle_msg.
  repeat (match goal with |- context [if ?c then _ else _] => destruct c end;
          cbn [fmap list_fmap concat app fst snd];
          rewrite ?app_nil_r, ?fmap_app, ?concat_app, <- ?IH); try reflexivity.
Qed.

(** The handler invokes the callbacks once for each event it decodes, in
    the order it decodes them. *)
Lemma poll_handler_decoded m reads :
  poll_handler m reads =
  concat ((fun e : NetEventType * Z * string => callCallbacks m e.1.1 e.1.2 e.2)
            <$> decoded_events reads).
Proof.
  unfold poll_handler, decoded_events, handle_reads.
  induction reads as [|buf reads IH]; [reflexivity|].
  cbn [fmap list_fmap concat]. rewrite fmap_app, concat_app.
  now rewrite <- IH, <- handle_buffer_emit.
Qed.

Lemma invocations_of_app id (t1 t2 : list Invocation) :
  invocations_of id (t1 ++ t2) = invocations_of id t1 ++ invocations_of id t2.
Proof. apply filter_app. Qed.

Lemma poll_handler_registered m id cb reads :
  callbacks m !! id = Some cb ->
  invocations_of id (poll_handler m reads) =
  (fun e : NetEventType * Z * string =>
     {| inv_id := id; inv_cb := cb; inv_type := e.1.1; inv_up := e.1.2; inv_name := e.2 |})
    <$> decoded_events reads.
Proof.
  intros Hcb. rewrite poll_handler_decoded.
  induction (decoded_events reads) as [|e es IH]; [reflexivity|].
  cbn [fmap list_fmap concat]. rewrite invocations_of_app.
  rewrite (callCallbacks_registered _ _ _ _ _ _ Hcb). cbn [app]. f_equal. exact IH.
Qed.

Lemma poll_handler_unregistered m id reads :
  callbacks m !! id = None -> invocations_of id (poll_handler m reads) = [].
Proof.
  intros Hcb. rewrite poll_handler_decoded.
  induction (decoded_events reads) as [|e es IH]; [reflexivity|].
  cbn [fmap list_fmap concat]. rewrite invocations_of_app.
  now rewrite (callCallbacks_unregistered _ _ _ _ _ Hcb).
Qed.

(** C9. [registerCallback] always returns, the id it returns was not in use,
    and the callback is stored under it.  From then on every event the
    handler decodes invokes that callback exactly once, with the event's
    kind, flag and interface name.  After [removeCallback id] no event
    invokes the callback of [id], and removing an unknown id leaves the
    monitor as it was. *)
Theorem registerCallback_dispatch_removeCallback
    (m : NetworkMonitor) (cb : Callback) (reads : list (list nlmsghdr)) :
  ids_below m ->
  INT_MIN <= curId m < INT_MAX ->
  let id := (registerCallback m cb).1 in
  let m1 := (registerCallback m cb).2 in
  callbacks m !! id = None /\
  callbacks m1 !! id = Some cb /\
  ids_below m1 /\
  (forall nl up n,
      invocations_of id (callCallbacks m1 nl up n) =
      [{| inv_id := id; inv_cb := cb; inv_type := nl; inv_up := up; inv_name := n |}]) /\
  invocations_of id (poll_handler m1 reads) =
    ((fun e : NetEventType * Z * string =>
        {| inv_id := id; inv_cb := cb; inv_type := e.1.1; inv_up := e.1.2; inv_name := e.2 |})
       <$> decoded_events reads) /\
  (forall m' reads', invocations_of id (poll_handler (removeCallback m' id) reads') = []) /\
  (forall m' k, callbacks m' !! k = None -> removeCallback m' k = m').
Proof.
  intros Hb Hc id m1.
  assert (Hreg : callbacks m1 !! id = Some cb).
  { unfold m1, id. cbn [registerCallback fst snd callbacks]. apply lookup_insert_eq. }
  split; [now apply registerCallback_fresh|].
  split; [exact Hreg|].
  split; [now apply ids_below_register|].
  split; [intros nl up n; now apply callCallbacks_registered|].
  split; [now apply poll_handler_registered|].
  split.
  - intros m' reads'. apply poll_handler_unregistered.
    cbn [removeCallback callbacks]. apply lookup_delete_eq.
  - intros m' k Hk. destruct m' as [cbs c]. unfold removeCallback. cbn in *.
    f_equal. now apply delete_id.
Qed.

(** *** Order and number of invocations *)

Lemma Sorted_le_NoDup_lt (l : list Z) : Sorted Z.le l -> NoDup l -> StronglySorted Z.lt l.
Proof.
  intros Hs Hnd. apply Sorted_StronglySorted in Hs; [|intros a b c; lia].
  induction Hs as [|a l Hs IH Hall]; [constructor|].
  apply NoDup_cons in Hnd as [Ha Hnd]. constructor; [now apply IH|].
  rewrite List.Forall_forall in *. intros b Hb.
  specialize (Hall b Hb). assert (a <> b); [|lia].
  intros ->. apply Ha. now apply list_elem_of_In.
Qed.

(** X16. One event reaches every registered callback exactly once: the
    calls [callCallbacks] makes are as many as there are registered
    callbacks, they go in strictly ascending id order, each carries the
    event's kind, flag and interface name, and the callback called for an id
    is the one registered under it.  The poll handler therefore makes as
    many calls as events decoded times callbacks registered. *)
Theorem callCallbacks_each_once_ascending
    (m : NetworkMonitor) (nl : NetEventType) (up : Z) (n : string)
    (reads : list (list nlmsghdr)) :
  let trace := callCallbacks m nl up n in
  length trace = size (callbacks m) /\
  StronglySorted Z.lt (inv_id <$> trace) /\
  (forall i, i ∈ trace <->
     callbacks m !! inv_id i = Some (inv_cb i) /\
     inv_type i = nl /\ inv_up i = up /\ inv_name i = n) /\
  length (poll_handler m reads) = (length (decoded_events reads) * size (callbacks m))%nat.
Proof.
  intros trace.
  assert (Hlen : forall nl up n, length (callCallbacks m nl up n) = size (callbacks m)).
  { intros nl' up' n'. unfold callCallbacks. rewrite length_fmap.
    rewrite (Permutation_length (in_key_order_perm (callbacks m))).
    apply length_map_to_list. }
  split; [apply Hlen|]. split; [|split].
  - apply Sorted_le_NoDup_lt; [apply callCallbacks_ascending|].
    unfold trace, callCallbacks. rewrite <- list_fmap_compose.
    change (NoDup ((in_key_order (callbacks m)).*1)).
    rewrite in_key_order_perm. apply NoDup_fst_map_to_list.
  - intros i. unfold trace, callCallbacks. rewrite list_elem_of_fmap. split.
    + intros ([k cb] & -> & Hin). cbn [inv_id inv_cb inv_type inv_up inv_name fst snd].
      rewrite in_key_order_perm in Hin. apply elem_of_map_to_list in Hin. auto.
    + intros (Hcb & <- & <- & <-). exists (inv_id i, inv_cb i). split; [now destruct i|].
      rewrite in_key_order_perm. now apply elem_of_map_to_list.
  - rewrite poll_handler_decoded.
    induction (decoded_events reads) as [|e es IH]; [reflexivity|].
    cbn [fmap list_fmap concat length]. rewrite length_app, IH, Hlen. lia.
Qed.

(** *** What the handler decodes *)

Lemma handle_msg_event h OK out e :
  handle_msg (fun nl up n => [(nl, up, n)]) h = (OK, out) -> In e out -> event_of h e.
Proof.
  unfold handle_msg. cbv zeta.
  destruct (Z.eqb_spec (nlmsg_type h) NLMSG_DONE); [intros [= <- <-] []|].
  destruct (Z.eqb_spec (nlmsg_type h) NLMSG_ERROR); [intros [= <- <-] []|].
  destruct (Z.eqb_spec (nlmsg_type h) RTM_NEWLINK) as [E1|E1].
  { cbn [orb]. intros [= <- <-] [<-|[]]. unfold event_of. cbn. auto. }
  destruct (Z.eqb_spec (nlmsg_type h) RTM_DELLINK) as [E2|E2].
  { cbn [orb]. intros [= <- <-] [<-|[]]. unfold event_of. cbn. auto. }
  cbn [orb].
  destruct (Z.eqb_spec (nlmsg_type h) RTM_NEWADDR) as [E3|E3].
  { cbn [orb]. destruct (Z.eqb_spec (ifa_family (nlmsg_addr h)) AF_INET).
    - intros [= <- <-] [<-|[]]. unfold event_of. cbn. auto.
    - intros [= <- <-] []. }
  destruct (Z.eqb_spec (nlmsg_type h) RTM_DELADDR) as [E4|E4].
  { cbn [orb]. destruct (Z.eqb_spec (ifa_family (nlmsg_addr h)) AF_INET).
    - intros [= <- <-] [<-|[]]. unfold event_of. cbn. auto.
    - intros [= <- <-] []. }
  cbn [orb]. intros [= <- <-] [].
Qed.

Lemma handle_msg_length h :
  (length (handle_msg (fun nl up n => [(nl, up, n)]) h).2 <= 1)%nat.
Proof.
  unfold handle_msg. cbv zeta.
  repeat match goal with |- context [if ?c then _ else _] => destruct c end; cbn; lia.
Qed.

Lemma handle_buffer_events buf e :
  In e (handle_buffer (fun nl up n => [(nl, up, n)]) buf) ->
  exists h, In h buf /\ event_of h e.
Proof.
  induction buf as [|h buf IH]; [intros []|].
  cbn [handle_buffer].
  destruct (handle_msg _ h) as [OK out] eqn:Eh.
  destruct OK.
  - intros Hin. apply in_app_iff in Hin as [Hin|Hin].
    + exists h. split; [now left|]. eapply handle_msg_event; eauto.
    + destruct (IH Hin) as (h' & Hh' & He). exists h'. split; [now right|exact He].
  - intros Hin. exists h. split; [now left|]. eapply handle_msg_event; eauto.
Qed.

Lemma handle_buffer_length buf :
  (length (handle_buffer (fun nl up n => [(nl, up, n)]) buf) <= length buf)%nat.
Proof.
  induction buf as [|h buf IH]; [reflexivity|].
  cbn [handle_buffer length]. pose proof (handle_msg_length h) as Hl.
  destruct (handle_msg _ h) as [OK out]. cbn [snd] in Hl.
  destruct OK; [rewrite length_app|]; lia.
Qed.

(** X17. Every event the handler decodes comes from one message of one
    datagram it read: a link event from an RTM_NEWLINK or RTM_DELLINK
    message, with flag 1 exactly when IFF_RUNNING is set in the interface
    flags; an address event from an RTM_NEWADDR or RTM_DELADDR message of
    family AF_INET, with flag 1 for a new address and 0 for a deleted one.
    The name is the interface's, or empty when the index has none.  A
    message yields at most one event, and the flag is always 0 or 1. *)
Theorem decoded_events_sound (reads : list (list nlmsghdr)) :
  (forall e, In e (decoded_events reads) ->
     (exists buf h, In buf reads /\ In h buf /\ event_of h e) /\
     (e.1.2 = 0 \/ e.1.2 = 1)) /\
  (length (decoded_events reads) <= length (concat reads))%nat.
Proof.
  split.
  - intros e Hin.
    assert (Hex : exists buf h, In buf reads /\ In h buf /\ event_of h e).
    { unfold decoded_events, handle_reads in Hin.
      apply in_concat in Hin as (l & Hl & Hel).
      apply in_map_iff in Hl as (buf & <- & Hbuf).
      apply handle_buffer_events in Hel as (h & Hh & He). eauto. }
    split; [exact Hex|].
    destruct Hex as (_ & h & _ & _ & He). unfold event_of in He.
    destruct e as [[nl up] n]. cbn [fst snd] in *.
    destruct nl; destruct He as (_ & He); try (destruct He as (_ & -> & _); auto).
    all: destruct He as (-> & _); destruct (_ =? 0); auto.
  - unfold decoded_events, handle_reads.
    induction reads as [|buf reads IH]; [reflexivity|].
    cbn [fmap list_fmap concat]. rewrite !length_app.
    pose proof (handle_buffer_length buf). lia.
Qed.

Lemma handle_buffer_stop {Out} (emit : NetEventType -> Z -> string -> list Out) pre h post :
  nlmsg_type h = NLMSG_DONE \/ nlmsg_type h = NLMSG_ERROR ->
  handle_buffer emit (pre ++ h :: post) = handle_buffer emit pre.
Proof.
  intros Hh. induction pre as [|a pre IH]; cbn [app handle_buffer].
  - unfold handle_msg. cbv zeta.
    destruct Hh as [-> | ->]; reflexivity.
  - destruct (handle_msg emit a) as [[|] out]; [now rewrite IH|reflexivity].
Qed.

(** X18. An NLMSG_DONE or NLMSG_ERROR message ends the scan of its
    datagram: it and the messages after it in that datagram set off
    nothing, whatever they are, while the datagrams read after it are
    scanned as usual. *)
Theorem done_or_error_ends_datagram
    (m : NetworkMonitor) (before after : list (list nlmsghdr))
    (pre post : list nlmsghdr) (h : nlmsghdr) :
  nlmsg_type h = NLMSG_DONE \/ nlmsg_type h = NLMSG_ERROR ->
  poll_handler m (before ++ (pre ++ h :: post) :: after) =
  poll_handler m (before ++ pre :: after) /\
  decoded_events (before ++ (pre ++ h :: post) :: after) =
  decoded_events before ++ decoded_events [pre] ++ decoded_events after.
Proof.
  intros Hh. unfold poll_handler, decoded_events, handle_reads.
  rewrite !fmap_app, !fmap_cons, !concat_app, !concat_cons.
  rewrite !(handle_buffer_stop _ pre h post Hh).
  split; [reflexivity|]. cbn [fmap list_fmap concat]. now rewrite app_nil_r.
Qed.

(** *** Ids over a run of registry calls *)

Lemma seqZ_cons_S (a : Z) (n : nat) :
  seqZ a (Z.of_nat (S n)) = a :: seqZ (a + 1) (Z.of_nat n).
Proof.
  rewrite seqZ_cons by lia. f_equal. f_equal; lia.
Qed.

(** X19. Ids are handed out in increasing order and never again: over any
    run of registrations and removals, the registrations return curId,
    curId + 1, curId + 2, ... whatever was removed in between, as long as
    the counter stays within [int].  When every id in use at the start is
    below the counter, none of the ids returned was in use at the start,
    and every id in use at the end is below the counter again. *)
Theorem registered_ids_increase (ops : list registry_op) :
  forall m : NetworkMonitor,
    INT_MIN <= curId m ->
    curId m + Z.of_nat (registrations ops) <= INT_MAX ->
    let r := run_registry m ops in
    r.1 = seqZ (curId m) (Z.of_nat (registrations ops)) /\
    curId r.2 = curId m + Z.of_nat (registrations ops) /\
    StronglySorted Z.lt r.1 /\
    (ids_below m -> ids_below r.2 /\ forall id, In id r.1 -> callbacks m !! id = None).
Proof.
  assert (Hsorted : forall a n, StronglySorted Z.lt (seqZ a (Z.of_nat n))).
  { intros a n. revert a. induction n as [|n IH]; intros a.
    - constructor.
    - rewrite seqZ_cons_S. constructor; [apply IH|].
      apply List.Forall_forall. intros x Hx.
      apply list_elem_of_In, elem_of_seqZ in Hx. lia. }
  induction ops as [|[cb|id] ops IH]; intros m Hlo Hhi r.
  - cbn. split; [reflexivity|]. split; [lia|]. split; [constructor|].
    intros Hb. split; [exact Hb|intros id []].
  - assert (Hn : registrations (OpRegister cb :: ops) = S (registrations ops)).
    { reflexivity. }
    rewrite Hn in *.
    assert (Hc : curId (registerCallback m cb).2 = curId m + 1).
    { cbn [registerCallback snd curId]. apply int32_id. unfold in_int. lia. }
    specialize (IH (registerCallback m cb).2).
    rewrite Hc in IH. specialize (IH ltac:(lia) ltac:(lia)). cbv zeta in IH.
    destruct IH as (I1 & I2 & _ & I4).
    assert (Er : r = (curId m :: (run_registry (registerCallback m cb).2 ops).1,
                      (run_registry (registerCallback m cb).2 ops).2)).
    { unfold r. cbn [run_registry registerCallback].
      destruct (run_registry _ ops) as [ids m']. reflexivity. }
    rewrite Er. cbn [fst snd]. rewrite I1, I2, seqZ_cons_S.
    split; [reflexivity|]. split; [lia|].
    split; [rewrite <- seqZ_cons_S; apply Hsorted|].
    intros Hb.
    destruct (I4 (ids_below_register m cb Hb ltac:(lia))) as [J1 J2].
    split; [exact J1|].
    intros id [<-|Hin].
    + apply (registerCallback_fresh m cb Hb).
    + specialize (J2 id). rewrite I1 in J2. specialize (J2 Hin).
      cbn [registerCallback snd callbacks] in J2.
      apply list_elem_of_In, elem_of_seqZ in Hin.
      rewrite lookup_insert_ne in J2 by lia. exact J2.
  - assert (Hn : registrations (OpRemove id :: ops) = registrations ops).
    { reflexivity. }
    rewrite Hn in *.
    specialize (IH (removeCallback m id) Hlo Hhi). cbv zeta in IH.
    destruct IH as (I1 & I2 & I3 & I4).
    unfold r. cbn [run_registry].
    split; [exact I1|]. split; [exact I2|]. split; [exact I3|].
    intros Hb. destruct (I4 (ids_below_remove m id Hb)) as [J1 J2].
    split; [exact J1|].
    intros k Hk. specialize (J2 k Hk). rewrite I1 in Hk.
    apply list_elem_of_In, elem_of_seqZ in Hk. cbn [removeCallback curId] in Hk.
    destruct (callbacks m !! k) eqn:E; [|reflexivity].
    specialize (Hb k (ex_intro _ _ E)). lia.
Qed.

End Monitor.

(** *** A concrete run: callbacks are named by strings *)

Definition interfaces : Z -> option string :=
  fun index => if index =? 1 then Some "lo" else if index =? 2 then Some "eth0" else None.

Definition monitor0 : @NetworkMonitor string := {| callbacks := ∅; curId := 0 |}.

(** RTM_NEWLINK for interface 2 with IFF_UP | IFF_BROADCAST | IFF_RUNNING |
    IFF_MULTICAST. *)
Definition link_up_eth0 : nlmsghdr :=
  {| nlmsg_type := RTM_NEWLINK;
     nlmsg_link := {| ifi_index := 2; ifi_flags := 0x1043 |};
     nlmsg_addr := {| ifa_family := 0; ifa_index := 2 |} |}.

Example link_up_decoded :
  decoded_events interfaces [[link_up_eth0]] = [(NEW_LINK, 1, "eth0")].
Proof. reflexivity. Qed.

Example link_up_invokes_callback :
  let '(id, m1) := registerCallback monitor0 "first" in
  let '(id2, m2) := registerCallback m1 "second" in
  poll_handler interfaces m2 [[link_up_eth0]] =
    [{| inv_id := 0; inv_cb := "first"; inv_type := NEW_LINK; inv_up := 1; inv_name := "eth0" |};
     {| inv_id := 1; inv_cb := "second"; inv_type := NEW_LINK; inv_up := 1; inv_name := "eth0" |}] /\
  poll_handler interfaces (removeCallback m2 id) [[link_up_eth0]] =
    [{| inv_id := 1; inv_cb := "second"; inv_type := NEW_LINK; inv_up := 1; inv_name := "eth0" |}] /\
  removeCallback m2 7 = m2.
Proof. vm_compute. repeat split; reflexivity. Qed.

Lemma registerCallback_dispatch_removeCallback_witness :
  let cb := "first" in
  let reads := [[link_up_eth0]] in
  let id := (registerCallback monitor0 cb).1 in
  let m1 := (registerCallback monitor0 cb).2 in
  callbacks monitor0 !! id = None /\
  callbacks m1 !! id = Some cb /\
  ids_below m1 /\
  (forall nl up n,
      invocations_of id (callCallbacks m1 nl up n) =
      [{| inv_id := id; inv_cb := cb; inv_type := nl; inv_up := up; inv_name := n |}]) /\
  invocations_of id (poll_handler interfaces m1 reads) =
    ((fun e : NetEventType * Z * string =>
        {| inv_id := id; inv_cb := cb; inv_type := e.1.1; inv_up := e.1.2; inv_name := e.2 |})
       <$> decoded_events interfaces reads) /\
  (forall (m' : @NetworkMonitor string) reads',
      invocations_of id (poll_handler interfaces (removeCallback m' id) reads') = []) /\
  (forall (m' : @NetworkMonitor string) k,
      callbacks m' !! k = None -> removeCallback m' k = m').
Proof.
  apply (registerCallback_dispatch_removeCallback interfaces monitor0 "first" [[link_up_eth0]]).
  - apply ids_below_empty.
  - vm_compute. split; [intro; discriminate | reflexivity].
Defined.

(** NLMSG_DONE, the end of a multipart message. *)
Definition done_msg : nlmsghdr :=
  {| nlmsg_type := NLMSG_DONE;
     nlmsg_link := {| ifi_index := 0; ifi_flags := 0 |};
     nlmsg_addr := {| ifa_family := 0; ifa_index := 0 |} |}.

Example done_hides_the_rest :
  decoded_events interfaces [[link_up_eth0; done_msg; link_up_eth0]; [link_up_eth0]]
  = [(NEW_LINK, 1, "eth0"); (NEW_LINK, 1, "eth0")].
Proof. reflexivity. Qed.

Lemma done_or_error_ends_datagram_witness :
  let m := (registerCallback monitor0 "first").2 in
  poll_handler interfaces m ([] ++ ([link_up_eth0] ++ done_msg :: [link_up_eth0]) :: [[link_up_eth0]]) =
  poll_handler interfaces m ([] ++ [link_up_eth0] :: [[link_up_eth0]]) /\
  decoded_events interfaces ([] ++ ([link_up_eth0] ++ done_msg :: [link_up_eth0]) :: [[link_up_eth0]]) =
  decoded_events interfaces [] ++ decoded_events interfaces [[link_up_eth0]]
    ++ decoded_events interfaces [[link_up_eth0]].
Proof.
  apply (done_or_error_ends_datagram interfaces (registerCallback monitor0 "first").2
           [] [[link_up_eth0]] [link_up_eth0] [link_up_eth0] done_msg).
  left. reflexivity.
Defined.

Lemma registered_ids_increase_witness :
  let ops := [OpRegister "first"; OpRemove 0; OpRegister "second"] in
  let r := run_registry monitor0 ops in
  r.1 = seqZ (curId monitor0) (Z.of_nat (registrations ops)) /\
  curId r.2 = curId monitor0 + Z.of_nat (registrations ops) /\
  StronglySorted Z.lt r.1 /\
  (ids_below monitor0 ->
   ids_below r.2 /\ forall id, In id r.1 -> callbacks monitor0 !! id = None).
Proof.
  apply (registered_ids_increase [OpRegister "first"; OpRemove 0; OpRegister "second"] monitor0).
  - vm_compute. intro. discriminate.
  - vm_compute. intro. discriminate.
Defined.

End NetworkMonitor.

(** ** Framebuffer matrix sink (src/channeloutput/FBMatrix.cpp) *)

Module FBMatrix.
Import CInt.

Inductive ScalingType : Type := HARDWARE | SOFTWARE | NONE.

(** <linux/fb.h> *)
Record fb_bitfield : Type := { bf_offset : Z; bf_length : Z }.

Record fb_var_screeninfo : Type := {
  xres : Z;
  yres : Z;
  xres_virtual : Z;
  yres_virtual : Z;
  yoffset : Z;
  bits_per_pixel : Z;
  red : fb_bitfield;
  green : fb_bitfield;
  blue : fb_bitfield;
  transp : fb_bitfield
}.

Record fb_fix_screeninfo : Type := { line_length : Z }.

Definition set_yoffset (v : fb_var_screeninfo) (y : Z) : fb_var_screeninfo :=
  {| xres := xres v; yres := yres v; xres_virtual := xres_virtual v;
     yres_virtual := yres_virtual v; yoffset := y; bits_per_pixel := bits_per_pixel v;
     red := red v; green := green v; blue := blue v; transp := transp v |}.

Definition set_geometry (v : fb_var_screeninfo) (x y xv yv : Z) : fb_var_screeninfo :=
  {| xres := x; yres := y; xres_virtual := xv; yres_virtual := yv;
     yoffset := yoffset v; bits_per_pixel := bits_per_pixel v;
     red := red v; green := green v; blue := blue v; transp := transp v |}.

Definition set_rgb565 (v : fb_var_screeninfo) : fb_var_screeninfo :=
  {| xres := xres v; yres := yres v; xres_virtual := xres_virtual v;
     yres_virtual := yres_virtual v; yoffset := yoffset v;
     bits_per_pixel := bits_per_pixel v;
     red := {| bf_offset := 11; bf_length := 5 |};
     green := {| bf_offset := 5; bf_length := 6 |};
     blue := {| bf_offset := 0; bf_length := 5 |};
     transp := {| bf_offset := 0; bf_length := 0 |} |}.

(** *** The operating system and the display *)

Inductive console_mode : Type := KD_TEXT | KD_GRAPHICS.

(** System calls the sink makes, with their outcome where the code or the
    display depends on it. *)
Inductive sys_op : Type :=
| SysOpen (path : string) (fd : Z)
| SysClose (fd : Z)
| SysGetVar (fd : Z) (ok : bool)
| SysPutVar (fd : Z) (v : fb_var_screeninfo) (ok : bool)
| SysGetFix (fd : Z) (ok : bool)
| SysSetConsole (fd : Z) (mode : console_mode)
| SysMmap (fd : Z) (len : Z) (ok : bool)
| SysMunmap (len : Z)
| SysMemcpy (dst : Z) (data : list Z)      (* memcpy(m_fbp + dst, data, |data|) *)
| SysPan (fd : Z) (v : fb_var_screeninfo) (ok : bool).

(** How the system answers: what [open] returns for a path, which
    requests the framebuffer driver accepts, and the byte that memory
    obtained with [new char[n]], which the code does not initialise, holds
    at each offset. *)
Record Driver : Type := {
  drv_open : string -> Z;
  drv_get_var : Z -> bool;
  drv_put_var : Z -> fb_var_screeninfo -> bool;
  drv_get_fix : Z -> fb_var_screeninfo -> option fb_fix_screeninfo;
  drv_mmap : Z -> Z -> bool;
  drv_pan : Z -> fb_var_screeninfo -> bool;
  drv_heap : nat -> Z
}.

(** The display: the mode it is in ([yoffset] is the first line it scans
    out) and the calls made so far, oldest first. *)
Record Display : Type := {
  disp_var : fb_var_screeninfo;
  disp_log : list sys_op
}.

Definition log (d : Display) (op : sys_op) : Display :=
  {| disp_var := disp_var d; disp_log := disp_log d ++ [op] |}.

(** *** Configuration *)

Record Config : Type := {
  cfg_width : Z;
  cfg_height : Z;
  cfg_colorOrder : string;
  cfg_invert : Z;
  cfg_device : string;
  cfg_scaling : option string         (* None: no "scaling" member *)
}.

(** *** The sink *)

Inductive mapping : Type :=
| MapNull                              (* nullptr *)
| MapFailed                            (* (char* )-1 *)
| Mapped (len : Z).

Record FBMatrixOutput : Type := {
  m_startChannel : Z;
  m_channelCount : Z;                  (* unsigned int *)
  m_scaling : ScalingType;
  m_fbFd : Z;
  m_ttyFd : Z;
  m_width : Z;
  m_height : Z;
  m_useRGB : bool;
  m_inverted : Z;
  m_bpp : Z;
  m_device : string;
  m_fbp : mapping;
  m_frame : option (list Z);
  m_screenSize : Z;
  m_lineLength : Z;
  m_rgb565map : option (Z -> Z -> Z -> Z);
  m_isDoubleBuffered : bool;
  m_topFrame : bool;
  m_vInfo : fb_var_screeninfo;
  m_vInfoOrig : fb_var_screeninfo;
  m_fInfo : fb_fix_screeninfo
}.

Definition zero_bitfield : fb_bitfield := {| bf_offset := 0; bf_length := 0 |}.

Definition zero_var : fb_var_screeninfo :=
  {| xres := 0; yres := 0; xres_virtual := 0; yres_virtual := 0; yoffset := 0;
     bits_per_pixel := 0; red := zero_bitfield; green := zero_bitfield;
     blue := zero_bitfield; transp := zero_bitfield |}.

(** [FBMatrixOutput::FBMatrixOutput(startChannel, channelCount)]. *)
Definition FBMatrixOutput_new (startChannel channelCount : Z) : FBMatrixOutput :=
  {| m_startChannel := uint32 startChannel;
     m_channelCount := uint32 channelCount;
     m_scaling := HARDWARE;
     m_fbFd := 0; m_ttyFd := 0; m_width := 0; m_height := 0;
     m_useRGB := false; m_inverted := 0; m_bpp := 24;
     m_device := "/dev/fb0";
     m_fbp := MapNull; m_frame := None; m_screenSize := 0; m_lineLength := 0;
     m_rgb565map := None;
     m_isDoubleBuffered := false; m_topFrame := true;
     m_vInfo := zero_var; m_vInfoOrig := zero_var;
     m_fInfo := {| line_length := 0 |} |}.

(** One entry [m_rgb565map[b][g][r]] of the 16-bit colour cube. *)
Definition rgb565_entry (v : fb_var_screeninfo) (b g r : Z) : Z :=
  let shift (f : fb_bitfield) := int32 (bf_offset f - (8 + (8 - bf_length f))) in
  let put (o c sh : Z) :=
    (Z.lor o (if 0 <=? sh then Z.shiftr c sh else Z.shiftl c (Z.abs sh))) mod 65536 in
  put (put (put 0 r (shift (red v))) g (shift (green v))) b (shift (blue v)).

(** *** Field updates *)

(** The members [Init] reads from the configuration. *)
Definition with_config (s : FBMatrixOutput) (width height : Z) (useRGB : bool) (inverted : Z) (device : string)
    (scaling : ScalingType) : FBMatrixOutput :=
  {| m_startChannel := m_startChannel s; m_channelCount := m_channelCount s;
     m_scaling := scaling; m_fbFd := m_fbFd s; m_ttyFd := m_ttyFd s; m_width := width;
     m_height := height; m_useRGB := useRGB; m_inverted := inverted; m_bpp := m_bpp s;
     m_device := device; m_fbp := m_fbp s; m_frame := m_frame s;
     m_screenSize := m_screenSize s; m_lineLength := m_lineLength s;
     m_rgb565map := m_rgb565map s; m_isDoubleBuffered := m_isDoubleBuffered s;
     m_topFrame := m_topFrame s; m_vInfo := m_vInfo s; m_vInfoOrig := m_vInfoOrig s;
     m_fInfo := m_fInfo s |}.

(** [m_fbFd = open(...)]. *)
Definition with_fbFd (s : FBMatrixOutput) (fd : Z) : FBMatrixOutput :=
  {| m_startChannel := m_startChannel s; m_channelCount := m_channelCount s;
     m_scaling := m_scaling s; m_fbFd := fd; m_ttyFd := m_ttyFd s; m_width := m_width s;
     m_height := m_height s; m_useRGB := m_useRGB s; m_inverted := m_inverted s;
     m_bpp := m_bpp s; m_device := m_device s; m_fbp := m_fbp s; m_frame := m_frame s;
     m_screenSize := m_screenSize s; m_lineLength := m_lineLength s;
     m_rgb565map := m_rgb565map s; m_isDoubleBuffered := m_isDoubleBuffered s;
     m_topFrame := m_topFrame s; m_vInfo := m_vInfo s; m_vInfoOrig := m_vInfoOrig s;
     m_fInfo := m_fInfo s |}.

(** [m_vInfo] as read, and its copy [m_vInfoOrig]. *)
Definition with_vInfo (s : FBMatrixOutput) (v orig : fb_var_screeninfo) : FBMatrixOutput :=
  {| m_startChannel := m_startChannel s; m_channelCount := m_channelCount s;
     m_scaling := m_scaling s; m_fbFd := m_fbFd s; m_ttyFd := m_ttyFd s;
     m_width := m_width s; m_height := m_height s; m_useRGB := m_useRGB s;
     m_inverted := m_inverted s; m_bpp := m_bpp s; m_device := m_device s;
     m_fbp := m_fbp s; m_frame := m_frame s; m_screenSize := m_screenSize s;
     m_lineLength := m_lineLength s; m_rgb565map := m_rgb565map s;
     m_isDoubleBuffered := m_isDoubleBuffered s; m_topFrame := m_topFrame s; m_vInfo := v;
     m_vInfoOrig := orig; m_fInfo := m_fInfo s |}.

(** [m_bpp = m_vInfo.bits_per_pixel]. *)
Definition with_bpp (s : FBMatrixOutput) (bpp : Z) : FBMatrixOutput :=
  {| m_startChannel := m_startChannel s; m_channelCount := m_channelCount s;
     m_scaling := m_scaling s; m_fbFd := m_fbFd s; m_ttyFd := m_ttyFd s;
     m_width := m_width s; m_height := m_height s; m_useRGB := m_useRGB s;
     m_inverted := m_inverted s; m_bpp := bpp; m_device := m_device s; m_fbp := m_fbp s;
     m_frame := m_frame s; m_screenSize := m_screenSize s; m_lineLength := m_lineLength s;
     m_rgb565map := m_rgb565map s; m_isDoubleBuffered := m_isDoubleBuffered s;
     m_topFrame := m_topFrame s; m_vInfo := m_vInfo s; m_vInfoOrig := m_vInfoOrig s;
     m_fInfo := m_fInfo s |}.

(** The requested mode and whether it is double buffered. *)
Definition with_mode (s : FBMatrixOutput) (v : fb_var_screeninfo) (db : bool) : FBMatrixOutput :=
  {| m_startChannel := m_startChannel s; m_channelCount := m_channelCount s;
     m_scaling := m_scaling s; m_fbFd := m_fbFd s; m_ttyFd := m_ttyFd s;
     m_width := m_width s; m_height := m_height s; m_useRGB := m_useRGB s;
     m_inverted := m_inverted s; m_bpp := m_bpp s; m_device := m_device s;
     m_fbp := m_fbp s; m_frame := m_frame s; m_screenSize := m_screenSize s;
     m_lineLength := m_lineLength s; m_rgb565map := m_rgb565map s;
     m_isDoubleBuffered := db; m_topFrame := m_topFrame s; m_vInfo := v;
     m_vInfoOrig := m_vInfoOrig s; m_fInfo := m_fInfo s |}.

(** [m_fInfo] as read. *)
Definition with_fInfo (s : FBMatrixOutput) (f : fb_fix_screeninfo) : FBMatrixOutput :=
  {| m_startChannel := m_startChannel s; m_channelCount := m_channelCount s;
     m_scaling := m_scaling s; m_fbFd := m_fbFd s; m_ttyFd := m_ttyFd s;
     m_width := m_width s; m_height := m_height s; m_useRGB := m_useRGB s;
     m_inverted := m_inverted s; m_bpp := m_bpp s; m_device := m_device s;
     m_fbp := m_fbp s; m_frame := m_frame s; m_screenSize := m_screenSize s;
     m_lineLength := m_lineLength s; m_rgb565map := m_rgb565map s;
     m_isDoubleBuffered := m_isDoubleBuffered s; m_topFrame := m_topFrame s;
     m_vInfo := m_vInfo s; m_vInfoOrig := m_vInfoOrig s; m_fInfo := f |}.

(** [m_ttyFd = open(...)]. *)
Definition with_ttyFd (s : FBMatrixOutput) (fd : Z) : FBMatrixOutput :=
  {| m_startChannel := m_startChannel s; m_channelCount := m_channelCount s;
     m_scaling := m_scaling s; m_fbFd := m_fbFd s; m_ttyFd := fd; m_width := m_width s;
     m_height := m_height s; m_useRGB := m_useRGB s; m_inverted := m_inverted s;
     m_bpp := m_bpp s; m_device := m_device s; m_fbp := m_fbp s; m_frame := m_frame s;
     m_screenSize := m_screenSize s; m_lineLength := m_lineLength s;
     m_rgb565map := m_rgb565map s; m_isDoubleBuffered := m_isDoubleBuffered s;
     m_topFrame := m_topFrame s; m_vInfo := m_vInfo s; m_vInfoOrig := m_vInfoOrig s;
     m_fInfo := m_fInfo s |}.

(** The mapping, the offscreen frame and their sizes. *)
Definition with_map (s : FBMatrixOutput) (lineLength screenSize : Z) (fbp : mapping) (frame : option (list Z))
    (db : bool) : FBMatrixOutput :=
  {| m_startChannel := m_startChannel s; m_channelCount := m_channelCount s;
     m_scaling := m_scaling s; m_fbFd := m_fbFd s; m_ttyFd := m_ttyFd s;
     m_width := m_width s; m_height := m_height s; m_useRGB := m_useRGB s;
     m_inverted := m_inverted s; m_bpp := m_bpp s; m_device := m_device s; m_fbp := fbp;
     m_frame := frame; m_screenSize := screenSize; m_lineLength := lineLength;
     m_rgb565map := m_rgb565map s; m_isDoubleBuffered := db; m_topFrame := m_topFrame s;
     m_vInfo := m_vInfo s; m_vInfoOrig := m_vInfoOrig s; m_fInfo := m_fInfo s |}.

(** [m_rgb565map]. *)
Definition with_rgb565map (s : FBMatrixOutput) (t : option (Z -> Z -> Z -> Z)) : FBMatrixOutput :=
  {| m_startChannel := m_startChannel s; m_channelCount := m_channelCount s;
     m_scaling := m_scaling s; m_fbFd := m_fbFd s; m_ttyFd := m_ttyFd s;
     m_width := m_width s; m_height := m_height s; m_useRGB := m_useRGB s;
     m_inverted := m_inverted s; m_bpp := m_bpp s; m_device := m_device s;
     m_fbp := m_fbp s; m_frame := m_frame s; m_screenSize := m_screenSize s;
     m_lineLength := m_lineLength s; m_rgb565map := t;
     m_isDoubleBuffered := m_isDoubleBuffered s; m_topFrame := m_topFrame s;
     m_vInfo := m_vInfo s; m_vInfoOrig := m_vInfoOrig s; m_fInfo := m_fInfo s |}.

(** [m_vInfo.yoffset] and [m_topFrame] as [SendData] leaves them. *)
Definition with_flip (s : FBMatrixOutput) (v : fb_var_screeninfo) (top : bool) : FBMatrixOutput :=
  {| m_startChannel := m_startChannel s; m_channelCount := m_channelCount s;
     m_scaling := m_scaling s; m_fbFd := m_fbFd s; m_ttyFd := m_ttyFd s;
     m_width := m_width s; m_height := m_height s; m_useRGB := m_useRGB s;
     m_inverted := m_inverted s; m_bpp := m_bpp s; m_device := m_device s;
     m_fbp := m_fbp s; m_frame := m_frame s; m_screenSize := m_screenSize s;
     m_lineLength := m_lineLength s; m_rgb565map := m_rgb565map s;
     m_isDoubleBuffered := m_isDoubleBuffered s; m_topFrame := top; m_vInfo := v;
     m_vInfoOrig := m_vInfoOrig s; m_fInfo := m_fInfo s |}.

Section Sink.

Variable drv : Driver.

(** [ChannelOutputBase::Init(config)] (not part of the sources): the value
    the base class returns at the end of [Init]. *)
Variable ChannelOutputBase_Init : Config -> Z.

(** *** ioctl requests *)

(** [ioctl(fd, FBIOPUT_VSCREENINFO, &v)]: an accepted request puts the
    display into mode [v].  The driver is taken to set the mode exactly as
    requested and to leave the structure [v] as it was passed; a driver that
    adjusts the mode and writes the result back is not modelled. *)
Definition put_var (d : Display) (fd : Z) (v : fb_var_screeninfo) : bool * Display :=
  let ok := drv_put_var drv fd v in
  (ok, {| disp_var := if ok then v else disp_var d;
          disp_log := disp_log d ++ [SysPutVar fd v ok] |}).

(** [ioctl(fd, FBIOPAN_DISPLAY, &v)]: an accepted request moves the first
    scanned-out line to [v.yoffset]. *)
Definition pan_display (d : Display) (fd : Z) (v : fb_var_screeninfo) : Display :=
  let ok := drv_pan drv fd v in
  {| disp_var := if ok then set_yoffset (disp_var d) (yoffset v) else disp_var d;
     disp_log := disp_log d ++ [SysPan fd v ok] |}.

(** [ioctl(m_fbFd, FBIOPUT_VSCREENINFO, &m_vInfoOrig); close(m_fbFd);]. *)
Definition restore_and_close (s : FBMatrixOutput) (d : Display) : Display :=
  log (put_var d (m_fbFd s) (m_vInfoOrig s)).2 (SysClose (m_fbFd s)).

(** *** Init *)

Definition scaling_of (config : Config) (old : ScalingType) : ScalingType :=
  let sc := default "Hardware" (cfg_scaling config) in
  if String.eqb sc "Hardware" then HARDWARE
  else if String.eqb sc "Software" then SOFTWARE
  else if String.eqb sc "None" then NONE
  else old.

(** The mode [Init] asks for: RGB565 bit fields at 16 bits per pixel, the
    configured size under hardware scaling, and a virtual height of two
    frames. *)
Definition requested_mode (s : FBMatrixOutput) : fb_var_screeninfo :=
  let v := if m_bpp s =? 16 then set_rgb565 (m_vInfo s) else m_vInfo s in
  let v := match m_scaling s with
           | HARDWARE => set_geometry v (uint32 (m_width s)) (uint32 (m_height s))
                           (xres_virtual v) (yres_virtual v)
           | _ => v
           end in
  set_geometry v (xres v) (yres v) (xres v) (uint32 (yres v * 2)).

(** [FBIOPUT_VSCREENINFO] with the double-height mode, then with the
    single-height one if the driver refuses; [return 0] if it refuses both. *)
Definition negotiate_mode (s : FBMatrixOutput) (d : Display)
  : (Z * FBMatrixOutput * Display) + (FBMatrixOutput * Display) :=
  let fd := m_fbFd s in
  let v := requested_mode s in
  let '(ok, d) := put_var d fd v in
  if ok then inr (with_mode s v true, d)
  else
    let v := set_geometry v (xres v) (yres v) (xres_virtual v) (yres v) in
    let '(ok, d) := put_var d fd v in
    if ok then inr (with_mode s v false, d)
    else inl (0, with_mode s v false, log d (SysClose fd)).

(** [Init] from its start to the read of the fixed screen info: either an
    early [return 0] with the state it leaves, or the sink and the display
    that reach the channel-count check. *)
Definition Init_open (config : Config) (s : FBMatrixOutput) (d : Display)
  : (Z * FBMatrixOutput * Display) + (FBMatrixOutput * Display) :=
  let s := with_config s (cfg_width config) (cfg_height config)
             (String.eqb (cfg_colorOrder config) "RGB") (cfg_invert config)
             ("/dev/" +:+ cfg_device config) (scaling_of config (m_scaling s)) in
  let fd := drv_open drv (m_device s) in
  let s := with_fbFd s fd in
  let d := log d (SysOpen (m_device s) fd) in
  if fd =? 0 then inl (0, s, d) else
  let ok := drv_get_var drv fd in
  let d := log d (SysGetVar fd ok) in
  if negb ok then inl (0, s, log d (SysClose fd)) else
  let s := with_vInfo s (disp_var d) (disp_var d) in
  let s := with_bpp s (bits_per_pixel (m_vInfo s)) in
  if negb (m_bpp s =? 32) && negb (m_bpp s =? 24) && negb (m_bpp s =? 16)
  then inl (0, s, log d (SysClose fd)) else
  match negotiate_mode s d with
  | inl failed => inl failed
  | inr (s, d) =>
      match drv_get_fix drv fd (disp_var d) with
      | None => inl (0, s, log (log d (SysGetFix fd false)) (SysClose fd))
      | Some f => inr (with_fInfo s f, log d (SysGetFix fd true))
      end
  end.

(** [m_channelCount != (m_width * m_height * 3)]: the product is computed in
    [int] and converted to [unsigned int] for the comparison. *)
Definition channel_count_incorrect (s : FBMatrixOutput) : bool :=
  negb (m_channelCount s =? uint32 (int32 (int32 (m_width s * m_height s) * 3))).

(** [FBMatrixOutput::Init]: [Init_open], then the channel-count check, the
    console, the mapping, the frame and the colour cube.
    [m_frame = new char[m_screenSize]] is not initialised: its bytes are
    those the heap holds.  A negative [m_screenSize], for which [new]
    throws, gives the empty frame here. *)
Definition Init (config : Config) (s : FBMatrixOutput) (d : Display)
  : Z * FBMatrixOutput * Display :=
  match Init_open config s d with
  | inl failed => failed
  | inr (s, d) =>
      if channel_count_incorrect s then (0, s, restore_and_close s d) else
      let after_console :=
        if String.eqb (m_device s) "/dev/fb0" then
          let tty := drv_open drv "/dev/console" in
          let s := with_ttyFd s tty in
          let d := log d (SysOpen "/dev/console" tty) in
          if tty =? 0 then inl (0, s, restore_and_close s d)
          else inr (s, log d (SysSetConsole tty KD_GRAPHICS))
        else inr (s, d) in
      match after_console with
      | inl failed => failed
      | inr (s, d) =>
          let lineLength := int32 (line_length (m_fInfo s)) in
          let screenSize := int32 (uint32 (line_length (m_fInfo s) * yres (m_vInfo s))) in
          let len := size_t (int32 (screenSize * (if m_isDoubleBuffered s then 2 else 1))) in
          let ok := drv_mmap drv (m_fbFd s) len in
          let d := log d (SysMmap (m_fbFd s) len ok) in
          let '(fbp, db, d) :=
            if ok then (Mapped len, m_isDoubleBuffered s, d)
            else
              let ok := drv_mmap drv (m_fbFd s) (size_t screenSize) in
              (if ok then Mapped (size_t screenSize) else MapFailed, false,
               log d (SysMmap (m_fbFd s) (size_t screenSize) ok)) in
          let s := with_map s lineLength screenSize fbp
                     (Some (drv_heap drv <$> seq 0 (Z.to_nat screenSize))) db in
          match fbp with
          | MapFailed => (0, s, restore_and_close s d)
          | _ =>
              let s := if m_bpp s =? 16
                       then with_rgb565map s (Some (rgb565_entry (m_vInfo s)))
                       else s in
              (ChannelOutputBase_Init config, s, d)
          end
      end
  end.

(** *** SendData *)

(** Where [SendData] copies the frame to, as an offset from [m_fbp]. *)
Definition SendData_target (s : FBMatrixOutput) : Z :=
  if m_isDoubleBuffered s && negb (m_topFrame s) then m_screenSize s else 0.

Definition SendData (s : FBMatrixOutput) (d : Display) : Z * FBMatrixOutput * Display :=
  let dst := SendData_target s in
  let v :=
    if m_isDoubleBuffered s && negb (m_topFrame s)
    then set_yoffset (m_vInfo s) (yres (m_vInfo s))
    else set_yoffset (m_vInfo s) 0 in
  let s' := with_flip s v (negb (m_topFrame s)) in
  let d := log d (SysMemcpy dst (take (Z.to_nat (m_screenSize s)) (default [] (m_frame s)))) in
  let d := if m_isDoubleBuffered s then pan_display d (m_fbFd s) v else d in
  (int32 (m_channelCount s), s', d).

(** [n] consecutive [SendData] calls. *)
Fixpoint send_frames (n : nat) (s : FBMatrixOutput) (d : Display) : FBMatrixOutput * Display :=
  match n with
  | O => (s, d)
  | S n => let '(_, s, d) := SendData s d in send_frames n s d
  end.

(** Offset from the start of the mapping of the first byte the display
    scans out. *)
Definition displayed_offset (s : FBMatrixOutput) (d : Display) : Z :=
  yoffset (disp_var d) * m_lineLength s.

(** *** Close *)

(** [m_vInfoOrig] and the freed [m_frame] as [Close] leaves them. *)
Definition with_closed (s : FBMatrixOutput) (orig : fb_var_screeninfo) : FBMatrixOutput :=
  {| m_startChannel := m_startChannel s; m_channelCount := m_channelCount s;
     m_scaling := m_scaling s; m_fbFd := m_fbFd s; m_ttyFd := m_ttyFd s;
     m_width := m_width s; m_height := m_height s; m_useRGB := m_useRGB s;
     m_inverted := m_inverted s; m_bpp := m_bpp s; m_device := m_device s;
     m_fbp := m_fbp s; m_frame := None; m_screenSize := m_screenSize s;
     m_lineLength := m_lineLength s; m_rgb565map := m_rgb565map s;
     m_isDoubleBuffered := m_isDoubleBuffered s; m_topFrame := m_topFrame s;
     m_vInfo := m_vInfo s; m_vInfoOrig := orig; m_fInfo := m_fInfo s |}.

(** [ChannelOutputBase::Close()] (not part of the sources): the value the
    base class returns at the end of [Close]. *)
Variable ChannelOutputBase_Close : Z.

Definition Close (s : FBMatrixOutput) (d : Display) : Z * FBMatrixOutput * Display :=
  let d := log d (SysMunmap
                    (size_t (int32 (m_screenSize s * (if m_isDoubleBuffered s then 2 else 1))))) in
  let d :=
    if String.eqb (m_device s) "/dev/fb0"
    then log (log d (SysSetConsole (m_ttyFd s) KD_TEXT)) (SysClose (m_ttyFd s))
    else d in
  let '(orig, d) :=
    if String.eqb (m_device s) "/dev/fb0" then
      let orig := m_vInfoOrig s in
      let orig := set_geometry orig (xres orig) (yres orig) (xres orig) (yres orig) in
      (orig, (put_var d (m_fbFd s) orig).2)
    else (m_vInfoOrig s, d) in
  let d := log d (SysClose (m_fbFd s)) in
  (ChannelOutputBase_Close, with_closed s orig, d).

(** *** GetRequiredChannelRanges *)

(** The one range [addRange] is called with: the sum is computed in
    [unsigned int] and passed as [int]. *)
Definition GetRequiredChannelRanges (s : FBMatrixOutput) : Z * Z :=
  (int32 (m_startChannel s),
   int32 (uint32 (uint32 (m_startChannel s
                          + uint32 (int32 (int32 (m_width s * m_height s) * 3))) - 1))).

(** *** PrepData *)

(** [m_frame] with new contents. *)
Definition with_frame (s : FBMatrixOutput) (frame : list Z) : FBMatrixOutput :=
  {| m_startChannel := m_startChannel s; m_channelCount := m_channelCount s;
     m_scaling := m_scaling s; m_fbFd := m_fbFd s; m_ttyFd := m_ttyFd s;
     m_width := m_width s; m_height := m_height s; m_useRGB := m_useRGB s;
     m_inverted := m_inverted s; m_bpp := m_bpp s; m_device := m_device s;
     m_fbp := m_fbp s; m_frame := Some frame; m_screenSize := m_screenSize s;
     m_lineLength := m_lineLength s; m_rgb565map := m_rgb565map s;
     m_isDoubleBuffered := m_isDoubleBuffered s; m_topFrame := m_topFrame s;
     m_vInfo := m_vInfo s; m_vInfoOrig := m_vInfoOrig s; m_fInfo := m_fInfo s |}.

(** [channelData[off]]; the channel buffer is taken to be long enough: a
    read past the list gives the default value of the total lookup, 1. *)
Definition read (channelData : list Z) (off : Z) : Z := channelData !!! Z.to_nat off.

(** [*(m_frame + off) = b].  A store outside the frame has no defined
    result: [None]. *)
Definition store (frame : list Z) (off b : Z) : option (list Z) :=
  if (0 <=? off) && (off <? Z.of_nat (length frame))
  then Some (<[Z.to_nat off := b]> frame) else None.

(** Stores made one after the other. *)
Fixpoint stores (frame : list Z) (ws : list (Z * Z)) : option (list Z) :=
  match ws with
  | [] => Some frame
  | (off, b) :: ws => frame ← store frame off b; stores frame ws
  end.

(** [*((uint16_t* )(m_frame + off)) = v], low byte first. *)
Definition store16 (off v : Z) : list (Z * Z) :=
  [(off, v mod 256); (off + 1, v / 256 mod 256)].

(** [memcpy(m_frame + dst, channelData + src, n)]; [n] is an [int] passed as
    [size_t]. *)
Definition copy_in (frame : list Z) (dst : Z) (channelData : list Z) (src n : Z)
  : option (list Z) :=
  if n <? 0 then None
  else stores frame ((fun i => (dst + i, read channelData (src + i))) <$> seqZ 0 n).

(** [memcpy(m_frame + dst, m_frame + src, n)] between two regions of the
    frame that do not overlap. *)
Definition copy_within (frame : list Z) (dst src n : Z) : option (list Z) :=
  if (0 <=? n) && (0 <=? src) && (src + n <=? Z.of_nat (length frame))
     && (0 <=? dst) && (dst + n <=? Z.of_nat (length frame))
     && ((src + n <=? dst) || (dst + n <=? src))
  then Some (take (Z.to_nat dst) frame ++ bytes_at frame src n
             ++ drop (Z.to_nat (dst + n)) frame)
  else None.

(** [m_inverted ? -1 : 1]. *)
Definition row_step (s : FBMatrixOutput) : Z := if m_inverted s =? 0 then 1 else -1.

(** The three source pointers [sR], [sG], [sB] move together, one, two
    bytes apart: [src] is [sR - channelData]. *)
Definition cube_index (s : FBMatrixOutput) (channelData : list Z) (src : Z) : Z * Z * Z :=
  let R := read channelData src in
  let G := read channelData (src + 1) in
  let B := read channelData (src + 2) in
  if m_useRGB s
  then (Z.shiftr R 3, Z.shiftr G 2, Z.shiftr B 3)
  else (Z.shiftr B 3, Z.shiftr G 2, Z.shiftr R 3).

(** 16 bits per pixel: body of [for (int x = 0; x < m_width; x++)]; the
    state is [sR], [d] and the frame. *)
Definition PrepData16_pixel (s : FBMatrixOutput) (cube : Z -> Z -> Z -> Z)
    (channelData : list Z) (x : nat) (st : Z * Z * option (list Z))
  : Z * Z * option (list Z) :=
  let '(src, d, frame) := st in
  let '(i, j, k) := cube_index s channelData src in
  (src + 3, d + 2, frame ← frame; stores frame (store16 d (cube i j k))).

(** Body of [for (int y = 0; y < m_height; y++)]; the state is [drow], [sR]
    and the frame. *)
Definition PrepData16_row (s : FBMatrixOutput) (cube : Z -> Z -> Z -> Z)
    (channelData : list Z) (y : nat) (st : Z * Z * option (list Z))
  : Z * Z * option (list Z) :=
  let '(drow, src, frame) := st in
  let d := int32 (drow * m_lineLength s) in
  let '(src, _, frame) :=
    for_loop (PrepData16_pixel s cube channelData) 0 (Z.to_nat (m_width s)) (src, d, frame) in
  (int32 (drow + row_step s), src, frame).

(** [xpos[vx] = vx * m_width / width] and [ypos[vy] = vy * m_height / height]. *)
Definition xpos (s : FBMatrixOutput) (width vx : Z) : Z :=
  int32 (Z.quot (int32 (vx * m_width s)) width).
Definition ypos (s : FBMatrixOutput) (height vy : Z) : Z :=
  int32 (Z.quot (int32 (vy * m_height s)) height).

(** [new int[n + 1]] filled by [for (v = 0; v < n + 1; v++) ... / n]: a
    negative size and a division by zero have no defined result. *)
Definition table_fault (n : Z) : bool := (n =? 0) || (int32 (n + 1) <? 0).

(** 24 and 32 bits per pixel with reordering or scaling: body of
    [for (int vx = 0; vx < width; vx++)].  The three destination pointers
    move together; [d] is the offset of the pixel's first byte. *)
Definition PrepData24_pixel (s : FBMatrixOutput) (channelData : list Z) (width : Z)
    (vx : nat) (st : Z * Z * option (list Z)) : Z * Z * option (list Z) :=
  let '(src, d, frame) := st in
  let '(oR, oG, oB) := if m_useRGB s then (2, 1, 0) else (0, 1, 2) in
  let frame :=
    frame ← frame;
    stores frame [(d + oR, read channelData src);
                  (d + oG, read channelData (src + 1));
                  (d + oB, read channelData (src + 2))] in
  let src :=
    match m_scaling s with
    | SOFTWARE =>
        if xpos s width (Z.of_nat vx) =? xpos s width (Z.of_nat vx + 1) then src else src + 3
    | _ => src + 3
    end in
  (src, d + Z.quot (m_bpp s) 8, frame).

(** [while ((ypos[vy] == ypos[vy+1]) && vy < height)]: rows of the display
    that show the same matrix row are copies of the one just written.  Each
    round raises [vy] and none starts with [vy >= height], so [height - vy]
    rounds are all there can be ([n] counts them down); the comparison made
    at [vy = height] reads one element past [ypos] and decides nothing. *)
Fixpoint dup_rows (n : nat) (s : FBMatrixOutput) (height vy drow : Z)
    (frame : option (list Z)) : Z * Z * option (list Z) :=
  match n with
  | O => (vy, drow, frame)
  | S n =>
      if (ypos s height vy =? ypos s height (vy + 1)) && (vy <? height) then
        let src := int32 (drow * m_lineLength s) in
        let drow := int32 (drow + row_step s) in
        let vy := int32 (vy + 1) in
        let dst := int32 (drow * m_lineLength s) in
        dup_rows n s height vy drow
          (frame ← frame; copy_within frame dst src (m_lineLength s))
      else (vy, drow, frame)
  end.

(** [for (int vy = 0; vy < height; vy++)] with the inner [while] moving
    [vy] as well: every round raises [vy], so [n], the rounds left, starts
    at [height]. *)
Fixpoint PrepData24_rows (n : nat) (s : FBMatrixOutput) (channelData : list Z)
    (width height vy drow src : Z) (frame : option (list Z)) : option (list Z) :=
  match n with
  | O => frame
  | S n =>
      if vy <? height then
        let d := int32 (drow * m_lineLength s) in
        let '(src, _, frame) :=
          for_loop (PrepData24_pixel s channelData width) 0 (Z.to_nat width) (src, d, frame) in
        let '(vy, drow, frame) :=
          match m_scaling s with
          | SOFTWARE => dup_rows (Z.to_nat (height - vy)) s height vy drow frame
          | _ => (vy, drow, frame)
          end in
        PrepData24_rows n s channelData width height
          (int32 (vy + 1)) (int32 (drow + row_step s)) src frame
      else frame
  end.

(** Plain 24 bits per pixel: body of [for (int y = 0; y < m_height; y++)],
    one [memcpy] per row; the state is [src], [dst] and the frame. *)
Definition PrepData_copy_row (s : FBMatrixOutput) (channelData : list Z)
    (y : nat) (st : Z * Z * option (list Z)) : Z * Z * option (list Z) :=
  let '(src, dst, frame) := st in
  let istride := int32 (m_width s * 3) in
  (src + istride,
   (if m_inverted s =? 0 then dst + m_lineLength s else dst - m_lineLength s),
   frame ← frame; copy_in frame dst channelData src istride).

(** The contents of [m_frame] after [PrepData]; [None] where the C++ has no
    defined result (a store outside the frame, no frame or no colour cube,
    a division by zero). *)
Definition PrepData_frame (s : FBMatrixOutput) (channelData : list Z) : option (list Z) :=
  let src := m_startChannel s in
  let height := match m_scaling s with SOFTWARE => int32 (yres (m_vInfo s)) | _ => m_height s end in
  let width := match m_scaling s with SOFTWARE => int32 (xres (m_vInfo s)) | _ => m_width s end in
  let drow := if m_inverted s =? 0 then 0 else int32 (height - 1) in
  if m_bpp s =? 16 then
    cube ← m_rgb565map s;
    (for_loop (PrepData16_row s cube channelData) 0 (Z.to_nat (m_height s))
       (drow, src, m_frame s)).2
  else if m_useRGB s || (m_bpp s =? 32)
          || match m_scaling s with SOFTWARE => true | _ => false end then
    if table_fault width || table_fault height then None
    else PrepData24_rows (Z.to_nat height) s channelData width height 0 drow src (m_frame s)
  else
    let dst := if m_inverted s =? 0 then 0
               else int32 (m_lineLength s * int32 (m_height s - 1)) in
    (for_loop (PrepData_copy_row s channelData) 0 (Z.to_nat (m_height s))
       (src, dst, m_frame s)).2.

Definition PrepData (s : FBMatrixOutput) (channelData : list Z) : option FBMatrixOutput :=
  with_frame s <$> PrepData_frame s channelData.

(** The row of the frame that matrix row [y] goes to. *)
Definition frame_row (s : FBMatrixOutput) (y : Z) : Z :=
  if m_inverted s =? 0 then y else m_height s - 1 - y.

(** *** Notions the properties of PrepData are stated with *)

(** The stores of a loop nest: [rows] rows of [cells] cells, in order. *)
Definition grid_writes (rows cells : nat) (cell : nat -> nat -> list (Z * Z)) : list (Z * Z) :=
  concat ((fun y => concat (cell y <$> seq 0 cells)) <$> seq 0 rows).

(** The stores of the row-by-row copy: one byte per cell. *)
Definition copy_cell (s : FBMatrixOutput) (channelData : list Z) (y x : nat) : list (Z * Z) :=
  [(frame_row s (Z.of_nat y) * m_lineLength s + Z.of_nat x,
    read channelData (m_startChannel s + Z.of_nat y * (3 * m_width s) + Z.of_nat x))].

(** The stores for one pixel where the three channels are placed one by
    one: red, green and blue at their offsets in a cell of [add] bytes. *)
Definition pixel_cell (s : FBMatrixOutput) (channelData : list Z) (add : Z) (y x : nat)
  : list (Z * Z) :=
  let d := frame_row s (Z.of_nat y) * m_lineLength s + Z.of_nat x * add in
  let src := m_startChannel s + (Z.of_nat y * m_width s + Z.of_nat x) * 3 in
  let '(oR, oG, oB) := if m_useRGB s then (2, 1, 0) else (0, 1, 2) in
  [(d + oR, read channelData src);
   (d + oG, read channelData (src + 1));
   (d + oB, read channelData (src + 2))].

(** The colour-cube entry for the pixel read at [src]. *)
Definition cube_value (s : FBMatrixOutput) (cube : Z -> Z -> Z -> Z)
    (channelData : list Z) (src : Z) : Z :=
  let '(i, j, k) := cube_index s channelData src in cube i j k.

(** The two stores for one 16-bit pixel. *)
Definition pixel16_cell (s : FBMatrixOutput) (cube : Z -> Z -> Z -> Z)
    (channelData : list Z) (y x : nat) : list (Z * Z) :=
  store16 (frame_row s (Z.of_nat y) * m_lineLength s + Z.of_nat x * 2)
    (cube_value s cube channelData
       (m_startChannel s + (Z.of_nat y * m_width s + Z.of_nat x) * 3)).

(** A frame state that, if defined, has [len] bytes. *)
Definition keeps (len : nat) (fr : option (list Z)) : Prop :=
  forall f, fr = Some f -> length f = len.

(** *** Init and the channel count *)

Ltac case_if :=
  match goal with
  | |- context [if ?c then _ else _] => destruct c eqn:?
  | |- context [match ?c with _ => _ end] => destruct c eqn:?
  end.

Lemma negotiate_mode_inl s d failed :
  negotiate_mode s d = inl failed -> failed.1.1 = 0.
Proof.
  unfold negotiate_mode, put_var. cbv zeta.
  destruct (drv_put_var drv (m_fbFd s) (requested_mode s)); [discriminate|].
  destruct (drv_put_var drv (m_fbFd s) _); [discriminate|].
  now intros [= <-].
Qed.

Lemma requested_mode_yoffset s : yoffset (requested_mode s) = yoffset (m_vInfo s).
Proof.
  unfold requested_mode. cbv zeta.
  destruct (m_bpp s =? 16), (m_scaling s); reflexivity.
Qed.

Lemma negotiate_mode_inr s d s1 d1 :
  negotiate_mode s d = inr (s1, d1) ->
  (exists v db, s1 = with_mode s v db) /\
  yoffset (disp_var d1) = yoffset (m_vInfo s).
Proof.
  unfold negotiate_mode, put_var. cbv zeta.
  destruct (drv_put_var drv (m_fbFd s) (requested_mode s)).
  - intros [= <- <-]. split; [eauto|]. apply requested_mode_yoffset.
  - destruct (drv_put_var drv (m_fbFd s) _); [|discriminate].
    intros [= <- <-]. split; [eauto|]. cbn. apply requested_mode_yoffset.
Qed.

Lemma Init_open_inl config s d failed :
  Init_open config s d = inl failed -> failed.1.1 = 0.
Proof.
  unfold Init_open. cbv zeta.
  destruct (_ =? 0); [now intros [= <-]|].
  destruct (negb _); [now intros [= <-]|].
  destruct (_ && _); [now intros [= <-]|].
  destruct (negotiate_mode _ _) as [f|[s1 d1]] eqn:En.
  - intros [= <-]. now apply negotiate_mode_inl in En.
  - destruct (drv_get_fix _ _ _); [discriminate|]. now intros [= <-].
Qed.

Lemma Init_open_reaches config s d s1 d1 :
  Init_open config s d = inr (s1, d1) ->
  m_channelCount s1 = m_channelCount s /\
  m_width s1 = cfg_width config /\
  m_height s1 = cfg_height config /\
  m_fbFd s1 = drv_open drv ("/dev/" +:+ cfg_device config) /\
  m_vInfoOrig s1 = disp_var d /\
  m_topFrame s1 = m_topFrame s /\
  yoffset (disp_var d1) = yoffset (disp_var d).
Proof.
  unfold Init_open. cbv zeta.
  destruct (_ =? 0); [discriminate|].
  destruct (negb _); [discriminate|].
  destruct (_ && _); [discriminate|].
  destruct (negotiate_mode _ _) as [f|[s2 d2]] eqn:En; [discriminate|].
  destruct (drv_get_fix _ _ _); [|discriminate].
  intros [= <- <-]. apply negotiate_mode_inr in En as ((v & db & ->) & Hy).
  cbn in *. repeat split; try reflexivity. exact Hy.
Qed.

Lemma channel_count_exact s :
  0 <= m_channelCount s < 4294967296 ->
  0 <= m_width s * m_height s * 3 <= INT_MAX ->
  channel_count_incorrect s = negb (m_channelCount s =? m_width s * m_height s * 3).
Proof.
  intros Hc Hmax. unfold channel_count_incorrect. do 2 f_equal.
  unfold INT_MAX in Hmax.
  rewrite (int32_id (m_width s * m_height s)) by (unfold in_int, INT_MIN, INT_MAX; lia).
  rewrite int32_id by (unfold in_int, INT_MIN, INT_MAX; lia).
  apply uint32_id. lia.
Qed.

Lemma Init_result config s d :
  match Init_open config s d with
  | inl failed => Init config s d = failed /\ failed.1.1 = 0
  | inr (s1, d1) =>
      (channel_count_incorrect s1 = true /\
       Init config s d = (0, s1, restore_and_close s1 d1)) \/
      (channel_count_incorrect s1 = false /\
       ((Init config s d).1.1 = 0 \/
        (m_channelCount (Init config s d).1.2 = m_channelCount s1 /\
         m_width (Init config s d).1.2 = m_width s1 /\
         m_height (Init config s d).1.2 = m_height s1 /\
         m_topFrame (Init config s d).1.2 = m_topFrame s1 /\
         disp_var (Init config s d).2 = disp_var d1)))
  end.
Proof.
  unfold Init. destruct (Init_open config s d) as [failed|[s1 d1]] eqn:Eo.
  - split; [reflexivity|]. now apply Init_open_inl in Eo.
  - destruct (channel_count_incorrect s1) eqn:Ec; [left; split; reflexivity|].
    right. split; [reflexivity|].
    repeat case_if; cbn; auto;
      try (right; repeat split; reflexivity).
Qed.


(** *** SendData and the two halves of the mapping *)

Lemma SendData_fields s d :
  let s' := (SendData s d).1.2 in
  m_isDoubleBuffered s' = m_isDoubleBuffered s /\
  m_screenSize s' = m_screenSize s /\
  m_lineLength s' = m_lineLength s /\
  m_fbFd s' = m_fbFd s /\
  yres (m_vInfo s') = yres (m_vInfo s) /\
  m_topFrame s' = negb (m_topFrame s).
Proof.
  unfold SendData. cbv zeta.
  destruct (m_isDoubleBuffered s) eqn:E1, (m_topFrame s) eqn:E2; cbn;
    rewrite ?E1, ?E2; repeat split; reflexivity.
Qed.

Lemma send_frames_S n s d :
  send_frames (S n) s d =
  ((SendData (send_frames n s d).1 (send_frames n s d).2).1.2,
   (SendData (send_frames n s d).1 (send_frames n s d).2).2).
Proof.
  revert s d. induction n as [|n IH]; intros s d.
  - cbn [send_frames fst snd]. now destruct (SendData s d) as [[r s'] d'].
  - change (send_frames (S (S n)) s d)
      with (let '(_, s1, d1) := SendData s d in send_frames (S n) s1 d1).
    change (send_frames (S n) s d)
      with (let '(_, s1, d1) := SendData s d in send_frames n s1 d1).
    destruct (SendData s d) as [[r s1] d1]. apply IH.
Qed.

Lemma send_frames_fields n s d :
  let sn := (send_frames n s d).1 in
  m_isDoubleBuffered sn = m_isDoubleBuffered s /\
  m_screenSize sn = m_screenSize s /\
  m_lineLength sn = m_lineLength s /\
  m_fbFd sn = m_fbFd s /\
  yres (m_vInfo sn) = yres (m_vInfo s) /\
  m_topFrame sn = (if Nat.even n then m_topFrame s else negb (m_topFrame s)).
Proof.
  induction n as [|n IH].
  - cbn. repeat split; reflexivity.
  - rewrite send_frames_S. cbn [fst snd].
    destruct IH as (A & B & C & D & E & F).
    destruct (SendData_fields (send_frames n s d).1 (send_frames n s d).2)
      as (A' & B' & C' & D' & E' & F').
    cbv zeta in *. rewrite A', B', C', D', E', F', A, B, C, D, E, F.
    repeat split; try reflexivity.
    rewrite Nat.even_succ, <- Nat.negb_even.
    destruct (Nat.even n), (m_topFrame s); reflexivity.
Qed.

Lemma SendData_target_cases s :
  SendData_target s =
  if m_isDoubleBuffered s then (if m_topFrame s then 0 else m_screenSize s) else 0.
Proof. unfold SendData_target. destruct (m_isDoubleBuffered s), (m_topFrame s); reflexivity. Qed.

Lemma SendData_log s d :
  disp_log (SendData s d).2 =
  disp_log d ++
  SysMemcpy (SendData_target s) (take (Z.to_nat (m_screenSize s)) (default [] (m_frame s)))
  :: (if m_isDoubleBuffered s
      then [SysPan (m_fbFd s)
              (set_yoffset (m_vInfo s) (if m_topFrame s then 0 else yres (m_vInfo s)))
              (drv_pan drv (m_fbFd s)
                 (set_yoffset (m_vInfo s) (if m_topFrame s then 0 else yres (m_vInfo s))))]
      else []).
Proof.
  unfold SendData, pan_display, log. cbn.
  destruct (m_isDoubleBuffered s), (m_topFrame s); cbn; now rewrite <- ?app_assoc.
Qed.

Lemma SendData_displayed s d :
  m_isDoubleBuffered s = true ->
  (forall fd v, drv_pan drv fd v = true) ->
  yoffset (disp_var (SendData s d).2) = if m_topFrame s then 0 else yres (m_vInfo s).
Proof.
  intros Hdb Hpan. unfold SendData, pan_display, log. rewrite Hdb, !Hpan. cbn.
  destruct (m_topFrame s); reflexivity.
Qed.

(** C7, as the code has it.  With double buffering, the call after [n]
    earlier calls copies the frame to the top half (offset 0) or the bottom
    half (offset [m_screenSize]) of the mapping, the top half first when
    [m_topFrame] holds as after [Init], and the call after it copies to the
    other half; each call then asks the display to pan to the half it has
    just written, so when the driver pans, the next call does not write the
    half on display.  Without double buffering every call copies to offset
    0 and none pans. *)
Theorem SendData_alternates_halves (s : FBMatrixOutput) (d : Display) (n : nat) :
  let sn := (send_frames n s d).1 in
  let dn := (send_frames n s d).2 in
  let s' := (SendData sn dn).1.2 in
  let d' := (SendData sn dn).2 in
  (m_isDoubleBuffered s = true ->
   0 < m_screenSize s ->
   SendData_target sn
     = (if Bool.eqb (Nat.even n) (m_topFrame s) then 0 else m_screenSize s) /\
   SendData_target s' <> SendData_target sn /\
   (exists data v ok,
       disp_log d' =
       disp_log dn ++ [SysMemcpy (SendData_target sn) data; SysPan (m_fbFd s) v ok]) /\
   ((forall fd v, drv_pan drv fd v = true) ->
    m_screenSize s = yres (m_vInfo s) * m_lineLength s ->
    displayed_offset s' d' = SendData_target sn /\
    SendData_target s' <> displayed_offset s' d')) /\
  (m_isDoubleBuffered s = false ->
   SendData_target sn = 0 /\
   SendData_target s' = 0 /\
   exists data, disp_log d' = disp_log dn ++ [SysMemcpy 0 data]).
Proof.
  intros sn dn s' d'.
  destruct (send_frames_fields n s d) as (A & B & C & D & E & F). fold sn in A, B, C, D, E, F.
  destruct (SendData_fields sn dn) as (A' & B' & C' & D' & E' & F').
  fold s' in A', B', C', D', E', F'.
  assert (Hlog := SendData_log sn dn). fold d' in Hlog.
  split.
  - intros Hdb Hpos.
    assert (T : SendData_target sn
                = if Bool.eqb (Nat.even n) (m_topFrame s) then 0 else m_screenSize s).
    { rewrite SendData_target_cases, A, Hdb, B, F.
      destruct (Nat.even n), (m_topFrame s); reflexivity. }
    assert (T' : SendData_target s'
                 = if Bool.eqb (Nat.even n) (m_topFrame s) then m_screenSize s else 0).
    { rewrite SendData_target_cases, A', A, Hdb, B', B, F', F.
      destruct (Nat.even n), (m_topFrame s); reflexivity. }
    split; [exact T|]. split.
    { rewrite T, T'. destruct (Bool.eqb _ _); lia. }
    split.
    { rewrite Hlog, A, Hdb, D. eauto. }
    intros Hpan Hsize.
    assert (Hd : displayed_offset s' d' = SendData_target sn).
    { unfold displayed_offset, d'. rewrite SendData_displayed by (auto; congruence).
      rewrite C', C, E, F, T, Hsize.
      destruct (Nat.even n), (m_topFrame s); cbn; lia. }
    split; [exact Hd|]. rewrite Hd, T, T'. destruct (Bool.eqb _ _); lia.
  - intros Hdb.
    split; [now rewrite SendData_target_cases, A, Hdb|].
    split; [now rewrite SendData_target_cases, A', A, Hdb|].
    rewrite Hlog, A, Hdb, SendData_target_cases, A, Hdb. eauto.
Qed.

(** The first [SendData] after a successful [Init].  [Init] leaves the scan
    origin where it found it and [m_topFrame] as the constructor set it, so
    on a display that scanned out from line 0 the first frame is copied to
    offset 0, the very lines on display, whether or not double buffering was
    obtained. *)
Theorem first_SendData_after_Init
    (config : Config) (startChannel channelCount : Z) (d : Display) :
  let r := Init config (FBMatrixOutput_new startChannel channelCount) d in
  r.1.1 <> 0 ->
  yoffset (disp_var d) = 0 ->
  m_topFrame r.1.2 = true /\
  SendData_target r.1.2 = 0 /\
  displayed_offset r.1.2 r.2 = 0.
Proof.
  intros r Hok Hy.
  pose proof (Init_result config (FBMatrixOutput_new startChannel channelCount) d) as HR.
  fold r in HR.
  destruct (Init_open _ _ _) as [failed|[s1 d1]] eqn:Eo.
  - destruct HR as [-> H0]. contradiction.
  - destruct (Init_open_reaches _ _ _ _ _ Eo) as (_ & _ & _ & _ & _ & Et & Ey).
    destruct HR as [[_ E]|[_ [H0|(_ & _ & _ & Ft & Fd)]]].
    + rewrite E in Hok. cbn in Hok. contradiction.
    + contradiction.
    + assert (Htop : m_topFrame r.1.2 = true) by (rewrite Ft, Et; reflexivity).
      split; [exact Htop|]. split.
      * rewrite SendData_target_cases, Htop. now destruct (m_isDoubleBuffered _).
      * unfold displayed_offset. rewrite Fd, Ey, Hy. reflexivity.
Qed.

(** *** What a successful Init leaves behind *)

Lemma negotiate_mode_state s d s1 d1 :
  negotiate_mode s d = inr (s1, d1) ->
  exists v db,
    s1 = with_mode s v db /\ disp_var d1 = v /\
    red v = red (requested_mode s) /\ green v = green (requested_mode s) /\
    blue v = blue (requested_mode s).
Proof.
  unfold negotiate_mode, put_var. cbv zeta.
  destruct (drv_put_var drv (m_fbFd s) (requested_mode s)) eqn:E1.
  - intros [= <- <-]. exists (requested_mode s), true.
    repeat (split; [reflexivity|]). reflexivity.
  - match goal with |- (if ?c then _ else _) = _ -> _ => destruct c eqn:E2 end;
      [|discriminate].
    intros [= <- <-].
    exists (set_geometry (requested_mode s) (xres (requested_mode s))
              (yres (requested_mode s)) (xres_virtual (requested_mode s))
              (yres (requested_mode s))), false.
    repeat (split; [reflexivity|]). reflexivity.
Qed.

Lemma requested_mode_bitfields s :
  m_bpp s = 16 ->
  red (requested_mode s) = {| bf_offset := 11; bf_length := 5 |} /\
  green (requested_mode s) = {| bf_offset := 5; bf_length := 6 |} /\
  blue (requested_mode s) = {| bf_offset := 0; bf_length := 5 |}.
Proof.
  intros E. unfold requested_mode. rewrite E. cbv zeta. cbn [Z.eqb Pos.eqb].
  destruct (m_scaling s); cbn; repeat split; reflexivity.
Qed.

Lemma Init_open_state config s d s1 d1 :
  Init_open config s d = inr (s1, d1) ->
  m_startChannel s1 = m_startChannel s /\
  m_device s1 = "/dev/" +:+ cfg_device config /\
  m_vInfo s1 = disp_var d1 /\
  m_bpp s1 = bits_per_pixel (disp_var d) /\
  m_rgb565map s1 = m_rgb565map s /\
  (bits_per_pixel (disp_var d) = 16 ->
   red (m_vInfo s1) = {| bf_offset := 11; bf_length := 5 |} /\
   green (m_vInfo s1) = {| bf_offset := 5; bf_length := 6 |} /\
   blue (m_vInfo s1) = {| bf_offset := 0; bf_length := 5 |}).
Proof.
  unfold Init_open. cbv zeta.
  destruct (_ =? 0); [discriminate|].
  destruct (negb _); [discriminate|].
  destruct (_ && _); [discriminate|].
  destruct (negotiate_mode _ _) as [f|[s2 d2]] eqn:En; [discriminate|].
  destruct (drv_get_fix _ _ _); [|discriminate].
  intros [= <- <-].
  apply negotiate_mode_state in En as (v & db & -> & Ev & Er & Eg & Eb).
  cbn [m_startChannel m_device m_vInfo m_bpp m_rgb565map with_fInfo with_mode with_bpp
       with_vInfo with_fbFd with_config disp_var log] in *.
  repeat (split; [first [reflexivity | symmetry; exact Ev]|]).
  intros H16. rewrite Er, Eg, Eb. apply requested_mode_bitfields. exact H16.
Qed.

Lemma Init_tail_state config s d s1 d1 :
  Init_open config s d = inr (s1, d1) ->
  (Init config s d).1.1 <> 0 ->
  let r := Init config s d in
  m_startChannel r.1.2 = m_startChannel s1 /\
  m_device r.1.2 = m_device s1 /\
  m_fbFd r.1.2 = m_fbFd s1 /\
  m_vInfo r.1.2 = m_vInfo s1 /\
  m_vInfoOrig r.1.2 = m_vInfoOrig s1 /\
  disp_var r.2 = disp_var d1 /\
  m_rgb565map r.1.2 =
    (if m_bpp s1 =? 16 then Some (rgb565_entry (m_vInfo s1)) else m_rgb565map s1).
Proof.
  intros Eo. unfold Init. rewrite Eo. clear Eo.
  destruct (channel_count_incorrect s1); [cbn; contradiction|].
  destruct (m_bpp s1 =? 16) eqn:Eb;
    repeat case_if; cbn in *; try congruence; intros H; try contradiction;
    repeat (split; [reflexivity|]); reflexivity.
Qed.

Lemma device_is_fb0 dev :
  String.eqb ("/dev/" +:+ dev) "/dev/fb0" = String.eqb dev "fb0".
Proof. reflexivity. Qed.

(** X9. [Init] followed by [Close].  After a successful [Init], [Close]
    unmaps, closes the framebuffer descriptor last and frees the frame.  On
    /dev/fb0 it first asks for the mode the display had before [Init], with
    the virtual size set to the visible size, and a driver that accepts
    leaves the display in exactly that mode.  On any other device [Close]
    makes no such request: the display stays in the mode [Init] put it
    in. *)
Theorem Init_then_Close (config : Config) (startChannel channelCount : Z) (d : Display) :
  let r := Init config (FBMatrixOutput_new startChannel channelCount) d in
  let c := Close r.1.2 r.2 in
  let orig := disp_var d in
  let fd := drv_open drv ("/dev/" +:+ cfg_device config) in
  r.1.1 <> 0 ->
  c.1.1 = ChannelOutputBase_Close /\
  m_frame c.1.2 = None /\
  (exists l, disp_log c.2 = disp_log r.2 ++ SysMunmap l.1 :: l.2 ++ [SysClose fd]) /\
  (cfg_device config = "fb0" ->
   let restored := set_geometry orig (xres orig) (yres orig) (xres orig) (yres orig) in
   In (SysPutVar fd restored (drv_put_var drv fd restored)) (disp_log c.2) /\
   (drv_put_var drv fd restored = true -> disp_var c.2 = restored)) /\
  (cfg_device config <> "fb0" ->
   disp_var c.2 = disp_var r.2 /\
   disp_var r.2 = m_vInfo r.1.2 /\
   forall v ok, ~ In (SysPutVar fd v ok) (drop (length (disp_log r.2)) (disp_log c.2))).
Proof.
  intros r c orig fd Hok.
  pose proof (Init_result config (FBMatrixOutput_new startChannel channelCount) d) as HR.
  destruct (Init_open config _ d) as [failed|[s1 d1]] eqn:Eo.
  { destruct HR as [E H0]. fold r in E. rewrite E in Hok. contradiction. }
  clear HR.
  destruct (Init_open_reaches _ _ _ _ _ Eo) as (_ & _ & _ & Efd & Eorig & _ & _).
  destruct (Init_open_state _ _ _ _ _ Eo) as (_ & Edev & Ev & _).
  destruct (Init_tail_state _ _ _ _ _ Eo Hok) as (_ & Tdev & Tfd & Tv & Torig & Td & _).
  fold r in Tdev, Tfd, Tv, Torig, Td.
  assert (Hdev : String.eqb (m_device r.1.2) "/dev/fb0" = String.eqb (cfg_device config) "fb0").
  { rewrite Tdev, Edev. apply device_is_fb0. }
  assert (Hfd : m_fbFd r.1.2 = fd) by (rewrite Tfd; exact Efd).
  assert (Horig : m_vInfoOrig r.1.2 = orig) by (rewrite Torig; exact Eorig).
  unfold c, Close. rewrite Hdev, Hfd, Horig. cbv zeta.
  destruct (String.eqb_spec (cfg_device config) "fb0") as [Ed|Ed].
  - unfold put_var, log. cbn [fst snd disp_log disp_var m_frame with_closed].
    split; [reflexivity|]. split; [reflexivity|]. split.
    + eexists (_, [_; _; _]). cbn [fst snd]. rewrite <- !app_assoc. reflexivity.
    + split; [|intros H; contradiction].
      intros _. cbv zeta. split.
      * rewrite !in_app_iff. left. right. left. reflexivity.
      * intros ->. reflexivity.
  - unfold log. cbn [fst snd disp_log disp_var m_frame with_closed].
    split; [reflexivity|]. split; [reflexivity|]. split.
    + eexists (_, []). cbn [fst snd app]. rewrite <- !app_assoc. reflexivity.
    + split; [intros H; contradiction|].
      intros _. split; [reflexivity|]. split; [rewrite Td, Tv; symmetry; exact Ev|].
      intros v ok. rewrite <- app_assoc, drop_app_length. cbn. intros [H|[H|[]]]; discriminate.
Qed.

(** X10. After a successful [Init] the required range starts at the sink's
    start channel and ends [channelCount] - 1 channels later: it holds
    exactly as many channels as the sink was given, width*height*3.
    Stated for sizes that fit an [int]. *)
Theorem Init_then_GetRequiredChannelRanges
    (config : Config) (s : FBMatrixOutput) (d : Display) :
  0 <= m_channelCount s < 4294967296 ->
  0 <= cfg_width config * cfg_height config * 3 <= INT_MAX ->
  0 <= m_startChannel s ->
  m_startChannel s + cfg_width config * cfg_height config * 3 <= INT_MAX ->
  let r := Init config s d in
  r.1.1 <> 0 ->
  0 < m_channelCount s ->
  GetRequiredChannelRanges r.1.2 =
    (m_startChannel s, m_startChannel s + m_channelCount s - 1) /\
  (GetRequiredChannelRanges r.1.2).2 - (GetRequiredChannelRanges r.1.2).1 + 1
    = cfg_width config * cfg_height config * 3.
Proof.
  intros Hc Hmax Hs Hsum r Hok Hpos.
  pose proof (Init_result config s d) as HR.
  destruct (Init_open config s d) as [failed|[s1 d1]] eqn:Eo.
  { destruct HR as [E H0]. fold r in E. rewrite E in Hok. contradiction. }
  destruct (Init_open_reaches _ _ _ _ _ Eo) as (E1 & E2 & E3 & _).
  destruct (Init_open_state _ _ _ _ _ Eo) as (Es & _).
  destruct (Init_tail_state _ _ _ _ _ Eo Hok) as (Ts & _). fold r in Ts.
  assert (Hcc : m_channelCount s = cfg_width config * cfg_height config * 3).
  { destruct HR as [[Hi E]|[Hi _]].
    - fold r in E. rewrite E in Hok. cbn in Hok. contradiction.
    - rewrite channel_count_exact in Hi by (rewrite ?E1, ?E2, ?E3; auto).
      rewrite E1, E2, E3 in Hi. apply negb_false_iff, Z.eqb_eq in Hi. exact Hi. }
  assert (Hw : m_width r.1.2 = cfg_width config /\ m_height r.1.2 = cfg_height config).
  { destruct HR as [[Hi E]|[Hi [H0|(_ & F2 & F3 & _)]]].
    - fold r in E. rewrite E in Hok. cbn in Hok. contradiction.
    - fold r in H0. contradiction.
    - fold r in F2, F3. rewrite F2, F3, E2, E3. auto. }
  destruct Hw as [Ew Eh].
  assert (G : GetRequiredChannelRanges r.1.2 =
              (m_startChannel s, m_startChannel s + m_channelCount s - 1)).
  { unfold GetRequiredChannelRanges. rewrite Ts, Es, Ew, Eh.
    unfold INT_MAX in *.
    rewrite (int32_id (cfg_width config * cfg_height config))
      by (unfold in_int, INT_MIN, INT_MAX; lia).
    rewrite (int32_id (cfg_width config * cfg_height config * 3))
      by (unfold in_int, INT_MIN, INT_MAX; lia).
    rewrite (uint32_id (cfg_width config * cfg_height config * 3)) by lia.
    rewrite (uint32_id (m_startChannel s + _)) by lia.
    rewrite uint32_id by lia.
    rewrite !int32_id by (unfold in_int, INT_MIN, INT_MAX; lia).
    rewrite Hcc. reflexivity. }
  split; [exact G|]. rewrite G. cbn [fst snd]. lia.
Qed.

(** *** The 16-bit colour cube *)

Lemma rgb565_entry_bitfields v b g r :
  red v = {| bf_offset := 11; bf_length := 5 |} ->
  green v = {| bf_offset := 5; bf_length := 6 |} ->
  blue v = {| bf_offset := 0; bf_length := 5 |} ->
  rgb565_entry v b g r = rgb565_entry (set_rgb565 zero_var) b g r.
Proof. intros Hr Hg Hb. unfold rgb565_entry. rewrite Hr, Hg, Hb. reflexivity. Qed.

Lemma forallb_seqZ (f : Z -> bool) m n x :
  forallb f (seqZ m n) = true -> m <= x < m + n -> f x = true.
Proof.
  intros H Hx. rewrite forallb_forall in H. apply H, list_elem_of_In, elem_of_seqZ. lia.
Qed.

Lemma rgb565_cube_packed :
  forallb (fun b =>
    forallb (fun g =>
      forallb (fun r => rgb565_entry (set_rgb565 zero_var) b g r =? b * 2048 + g * 32 + r)
              (seqZ 0 32))
            (seqZ 0 64))
          (seqZ 0 32) = true.
Proof. vm_compute. reflexivity. Qed.

Lemma rgb565_entry_packed v b g r :
  red v = {| bf_offset := 11; bf_length := 5 |} ->
  green v = {| bf_offset := 5; bf_length := 6 |} ->
  blue v = {| bf_offset := 0; bf_length := 5 |} ->
  0 <= b < 32 -> 0 <= g < 64 -> 0 <= r < 32 ->
  rgb565_entry v b g r = b * 2048 + g * 32 + r.
Proof.
  intros Hr Hg Hb Bb Bg Br. rewrite rgb565_entry_bitfields by assumption.
  pose proof (forallb_seqZ _ 0 32 b rgb565_cube_packed ltac:(lia)) as H1. cbv beta in H1.
  pose proof (forallb_seqZ _ 0 64 g H1 ltac:(lia)) as H2. cbv beta in H2.
  pose proof (forallb_seqZ _ 0 32 r H2 ltac:(lia)) as H3. cbv beta in H3.
  apply Z.eqb_eq. exact H3.
Qed.

Lemma Init_open_bpp config s d s1 d1 :
  Init_open config s d = inr (s1, d1) ->
  bits_per_pixel (disp_var d) = 32 \/ bits_per_pixel (disp_var d) = 24 \/
  bits_per_pixel (disp_var d) = 16.
Proof.
  unfold Init_open. cbv zeta.
  destruct (_ =? 0); [discriminate|].
  destruct (negb _); [discriminate|].
  cbn [m_bpp with_bpp m_vInfo with_vInfo disp_var log].
  destruct (Z.eqb_spec (bits_per_pixel (disp_var d)) 32); [auto|].
  destruct (Z.eqb_spec (bits_per_pixel (disp_var d)) 24); [auto|].
  destruct (Z.eqb_spec (bits_per_pixel (disp_var d)) 16); [auto|].
  discriminate.
Qed.

(** X11. A successful [Init] is on a display of 32, 24 or 16 bits per pixel.
    At 16 it builds the colour cube [m_rgb565map] from the bit fields that
    [m_vInfo] holds when [Init] returns: entry [b][g][r] is [rgb565_entry]
    of these fields.  Where they are the 5-6-5 fields [Init] asked for (red
    at bit 11, green at bit 5, blue at bit 0), the entry packs its three
    indices as b*2048 + g*32 + r, so that each index can be read back from
    the entry.  At 24 or 32 bits [Init] builds no cube. *)
Theorem Init_builds_rgb565map (config : Config) (startChannel channelCount : Z) (d : Display) :
  let r := Init config (FBMatrixOutput_new startChannel channelCount) d in
  let bpp := bits_per_pixel (disp_var d) in
  r.1.1 <> 0 ->
  (bpp = 32 \/ bpp = 24 \/ bpp = 16) /\
  m_bpp r.1.2 = bpp /\
  (bpp = 16 ->
   m_rgb565map r.1.2 = Some (rgb565_entry (m_vInfo r.1.2)) /\
   (red (m_vInfo r.1.2) = {| bf_offset := 11; bf_length := 5 |} ->
    green (m_vInfo r.1.2) = {| bf_offset := 5; bf_length := 6 |} ->
    blue (m_vInfo r.1.2) = {| bf_offset := 0; bf_length := 5 |} ->
    forall b g r', 0 <= b < 32 -> 0 <= g < 64 -> 0 <= r' < 32 ->
      let e := rgb565_entry (m_vInfo r.1.2) b g r' in
      e = b * 2048 + g * 32 + r' /\
      e / 2048 = b /\ (e / 32) mod 64 = g /\ e mod 32 = r')) /\
  (bpp <> 16 -> m_rgb565map r.1.2 = None).
Proof.
  intros r bpp Hok.
  pose proof (Init_result config (FBMatrixOutput_new startChannel channelCount) d) as HR.
  destruct (Init_open config _ d) as [failed|[s1 d1]] eqn:Eo.
  { destruct HR as [E H0]. fold r in E. rewrite E in Hok. contradiction. }
  clear HR.
  pose proof (Init_open_bpp _ _ _ _ _ Eo) as Hbpp.
  destruct (Init_open_state _ _ _ _ _ Eo) as (_ & _ & _ & Eb & Em & _).
  destruct (Init_tail_state _ _ _ _ _ Eo Hok) as (_ & _ & _ & Tv & _ & _ & Tm).
  fold r in Tv, Tm.
  assert (Tb : m_bpp r.1.2 = m_bpp s1).
  { clear - Eo Hok. unfold r in *. unfold Init in *. rewrite Eo in *.
    destruct (channel_count_incorrect s1); [cbn in Hok; contradiction|].
    revert Hok. repeat case_if; cbn; intros H; try contradiction; reflexivity. }
  split; [exact Hbpp|]. split; [rewrite Tb; exact Eb|]. split.
  - intros H16. split.
    + rewrite Tm, Tv, Eb. fold bpp. rewrite H16. reflexivity.
    + intros Hr Hg Hb b g r' Bb Bg Br. cbv zeta.
      rewrite (rgb565_entry_packed _ b g r' Hr Hg Hb Bb Bg Br).
      split; [reflexivity|]. split; [|split].
      * symmetry. apply (Z.div_unique _ 2048 b (g * 32 + r')); lia.
      * rewrite <- (Z.div_unique (b * 2048 + g * 32 + r') 32 (b * 64 + g) r') by lia.
        rewrite Z.add_comm, Z.mod_add by lia. apply Z.mod_small. lia.
      * replace (b * 2048 + g * 32 + r') with (r' + (b * 64 + g) * 32) by lia.
        rewrite Z.mod_add by lia. apply Z.mod_small. lia.
  - intros Hne. rewrite Tm, Eb. fold bpp.
    destruct (Z.eqb_spec bpp 16); [contradiction|]. rewrite Em. reflexivity.
Qed.

Lemma negotiate_mode_inl_log s d failed :
  negotiate_mode s d = inl failed ->
  (exists l, disp_log failed.2 = disp_log d ++ l ++ [SysClose (m_fbFd s)]) /\
  disp_var failed.2 = disp_var d.
Proof.
  unfold negotiate_mode, put_var. cbv zeta.
  destruct (drv_put_var drv (m_fbFd s) (requested_mode s)) eqn:E1; [discriminate|].
  match goal with |- (if ?c then _ else _) = _ -> _ => destruct c eqn:E2 end;
    [discriminate|].
  intros [= <-]. cbn [fst snd log disp_log disp_var]. split; [|reflexivity].
  eexists [_; _]. rewrite <- !app_assoc. reflexivity.
Qed.

Lemma negotiate_mode_inr_log s d s1 d1 :
  negotiate_mode s d = inr (s1, d1) -> exists l, disp_log d1 = disp_log d ++ l.
Proof.
  unfold negotiate_mode, put_var. cbv zeta.
  destruct (drv_put_var drv (m_fbFd s) (requested_mode s)) eqn:E1.
  - intros [= <- <-]. cbn. eauto.
  - match goal with |- (if ?c then _ else _) = _ -> _ => destruct c eqn:E2 end;
      [|discriminate].
    intros [= <- <-]. cbn. rewrite <- app_assoc. eauto.
Qed.

Lemma Init_open_inl_log config s d failed :
  Init_open config s d = inl failed ->
  let dev := "/dev/" +:+ cfg_device config in
  let fd := drv_open drv dev in
  (fd = 0 -> failed.2 = log d (SysOpen dev 0)) /\
  (fd <> 0 -> exists l, disp_log failed.2 = disp_log d ++ SysOpen dev fd :: l ++ [SysClose fd]).
Proof.
  unfold Init_open. cbv zeta.
  cbn [m_device with_config m_fbFd with_fbFd].
  destruct (Z.eqb_spec (drv_open drv ("/dev/" +:+ cfg_device config)) 0) as [E0|E0].
  { intros [= <-]. cbn [snd]. rewrite E0. split; [reflexivity|]. intros H. contradiction. }
  intros H. split; [intros F; contradiction|]. intros _. revert H.
  destruct (negb _).
  { intros [= <-]. cbn [snd log disp_log]. eexists [_].
    rewrite <- !app_assoc. reflexivity. }
  destruct (_ && _).
  { intros [= <-]. cbn [snd log disp_log]. eexists [_].
    rewrite <- !app_assoc. reflexivity. }
  destruct (negotiate_mode _ _) as [f|[s1 d1]] eqn:En.
  - intros [= <-]. apply negotiate_mode_inl_log in En as [[l El] _].
    cbn [m_fbFd with_bpp with_vInfo with_fbFd log disp_log] in El.
    eexists (_ :: l). rewrite El, <- !app_assoc. reflexivity.
  - apply negotiate_mode_inr_log in En as [l El].
    cbn [log disp_log] in El.
    destruct (drv_get_fix _ _ _); [discriminate|].
    intros [= <-]. cbn [snd log disp_log]. rewrite El.
    eexists (_ :: l ++ [_]).
    rewrite <- ?app_assoc. cbn. rewrite <- ?app_assoc. reflexivity.
Qed.

Lemma Init_open_inr_log config s d s1 d1 :
  Init_open config s d = inr (s1, d1) ->
  let dev := "/dev/" +:+ cfg_device config in
  let fd := drv_open drv dev in
  fd <> 0 /\ exists l, disp_log d1 = disp_log d ++ SysOpen dev fd :: l.
Proof.
  unfold Init_open. cbv zeta.
  cbn [m_device with_config m_fbFd with_fbFd].
  destruct (Z.eqb_spec (drv_open drv ("/dev/" +:+ cfg_device config)) 0) as [E0|E0];
    [discriminate|].
  destruct (negb _); [discriminate|].
  destruct (_ && _); [discriminate|].
  destruct (negotiate_mode _ _) as [f|[s2 d2]] eqn:En; [discriminate|].
  apply negotiate_mode_inr_log in En as [l El]. cbn [log disp_log] in El.
  destruct (drv_get_fix _ _ _); [|discriminate].
  intros [= <- <-]. split; [exact E0|]. cbn [log disp_log]. rewrite El.
  eexists (_ :: l ++ [_]).
  rewrite <- ?app_assoc. cbn. rewrite <- ?app_assoc. reflexivity.
Qed.


Ltac tail_close :=
  split; [unfold restore_and_close, put_var, log;
          cbn [fst snd disp_log disp_var m_fbFd m_vInfoOrig with_ttyFd with_map];
          rewrite <- ?app_assoc; reflexivity|];
  let H := fresh "H" in intros ? H; cbn in H; intuition discriminate.

Lemma Init_tail_failure config s d s1 d1 :
  Init_open config s d = inr (s1, d1) ->
  (Init config s d).1.1 = 0 ->
  ChannelOutputBase_Init config <> 0 ->
  exists l,
    (Init config s d).2 =
      restore_and_close s1 {| disp_var := disp_var d1; disp_log := disp_log d1 ++ l |} /\
    (forall tty, ~ In (SysSetConsole tty KD_TEXT) l).
Proof.
  intros Eo. unfold Init. rewrite Eo. clear Eo. cbv zeta.
  destruct (channel_count_incorrect s1).
  { intros _ _. exists (@nil sys_op). rewrite app_nil_r. destruct d1. split; [reflexivity|].
    intros tty []. }
  repeat case_if; cbn [fst snd]; intros H0 Hb; try contradiction.
  all: first [ eexists [_]; tail_close
             | eexists [_; _]; tail_close
             | eexists [_; _; _]; tail_close
             | eexists [_; _; _; _]; tail_close ].
Qed.

(** X12. When [Init] returns 0 for a reason of its own (the base class's
    [Init] is taken to return non-zero): if [open] returned 0 it is the only
    call made; otherwise the calls start with that [open] and end with
    [close] of the descriptor it returned.  When the failure comes after the
    fixed screen info was read (wrong channel count, console not opened,
    mapping failed), the last two calls put back the mode read at the start
    and close the descriptor, a driver that accepts leaves the display in
    that mode, and no call between sets the console back to text mode. *)
Theorem Init_failure_cleanup (config : Config) (s : FBMatrixOutput) (d : Display) :
  let r := Init config s d in
  let dev := "/dev/" +:+ cfg_device config in
  let fd := drv_open drv dev in
  r.1.1 = 0 ->
  ChannelOutputBase_Init config <> 0 ->
  (fd = 0 -> r.2 = log d (SysOpen dev 0)) /\
  (fd <> 0 -> exists l, disp_log r.2 = disp_log d ++ SysOpen dev fd :: l ++ [SysClose fd]) /\
  (forall s1 d1, Init_open config s d = inr (s1, d1) ->
     let ok := drv_put_var drv fd (disp_var d) in
     (exists l, disp_log r.2 = disp_log d1 ++ l ++ [SysPutVar fd (disp_var d) ok; SysClose fd] /\
                forall tty, ~ In (SysSetConsole tty KD_TEXT) l) /\
     disp_var r.2 = (if ok then disp_var d else disp_var d1)).
Proof.
  intros r dev fd H0 Hb.
  destruct (Init_open config s d) as [failed|[s1 d1]] eqn:Eo.
  - assert (Er : r = failed) by (unfold r, Init; now rewrite Eo).
    destruct (Init_open_inl_log _ _ _ _ Eo) as [A B]. rewrite Er.
    split; [exact A|]. split; [exact B|]. intros ? ? [=].
  - destruct (Init_open_inr_log _ _ _ _ _ Eo) as [Hfd [l1 El1]].
    destruct (Init_open_reaches _ _ _ _ _ Eo) as (_ & _ & _ & Efd & Eorig & _ & _).
    destruct (Init_tail_failure _ _ _ _ _ Eo H0 Hb) as (l & El & Hl).
    fold r in El. fold dev in Efd. fold fd in Efd.
    assert (Elog : disp_log r.2 =
                   disp_log d1 ++ l ++
                   [SysPutVar fd (disp_var d) (drv_put_var drv fd (disp_var d)); SysClose fd]).
    { rewrite El. unfold restore_and_close, put_var, log. cbn [snd disp_log].
      rewrite Efd, Eorig, <- !app_assoc. reflexivity. }
    split; [intros F; contradiction|]. split.
    + intros _. exists (l1 ++ l ++ [SysPutVar fd (disp_var d) (drv_put_var drv fd (disp_var d))]).
      rewrite Elog, El1, <- ?app_assoc. cbn. rewrite <- ?app_assoc. reflexivity.
    + intros s1' d1' [= <- <-]. cbv zeta. split; [exists l; split; [exact Elog|exact Hl]|].
      rewrite El. unfold restore_and_close, put_var, log. cbn [snd disp_var].
      rewrite Efd, Eorig. reflexivity.
Qed.

(** *** Stores into the frame *)

Lemma store_Some frame off b :
  0 <= off < Z.of_nat (length frame) ->
  store frame off b = Some (<[Z.to_nat off := b]> frame).
Proof.
  intros H. unfold store.
  destruct (Z.leb_spec 0 off); [|lia]. destruct (Z.ltb_spec off (Z.of_nat (length frame))); [|lia].
  reflexivity.
Qed.

Lemma stores_app ws1 : forall frame ws2,
  stores frame (ws1 ++ ws2) = (f ← stores frame ws1; stores f ws2).
Proof.
  induction ws1 as [|[off b] ws1 IH]; intros frame ws2; cbn [app stores]; [reflexivity|].
  destruct (store frame off b) as [f|]; cbn; [apply IH|reflexivity].
Qed.

Lemma stores_spec ws : forall frame,
  Forall (fun w => 0 <= w.1 < Z.of_nat (length frame)) ws ->
  exists f, stores frame ws = Some f /\ length f = length frame /\
    (forall off, (forall w, In w ws -> Z.to_nat w.1 <> off) -> f !! off = frame !! off) /\
    (NoDup ws.*1 -> forall w, In w ws -> f !! Z.to_nat w.1 = Some w.2).
Proof.
  induction ws as [|[off b] ws IH]; intros frame Hr.
  - exists frame. cbn. repeat split; auto. intros _ w [].
  - apply Forall_cons in Hr as [Hoff Hr]. cbn [fst] in Hoff.
    cbn [stores]. rewrite store_Some by exact Hoff. cbn.
    destruct (IH (<[Z.to_nat off := b]> frame)) as (f & Ef & Hl & Hout & Hin).
    { rewrite length_insert. exact Hr. }
    rewrite length_insert in Hl.
    exists f. split; [exact Ef|]. split; [exact Hl|]. split.
    + intros o Ho. rewrite Hout by (intros w Hw; apply Ho; now right).
      apply list_lookup_insert_ne. apply (Ho (off, b)). now left.
    + cbn [fmap list_fmap fst]. intros Hnd w [<-|Hw].
      * apply NoDup_cons in Hnd as [Hni _]. cbn [fst snd].
        rewrite Hout.
        -- apply list_lookup_insert_eq. lia.
        -- intros w Hw E. apply Hni. apply list_elem_of_fmap.
           exists w. split; [|now apply list_elem_of_In].
           rewrite Forall_forall in Hr. specialize (Hr w (proj2 (list_elem_of_In _ _) Hw)).
           cbn [fst] in *. lia.
      * apply NoDup_cons in Hnd as [_ Hnd]. now apply Hin.
Qed.

Lemma grid_writes_S rows cells cell :
  grid_writes (S rows) cells cell =
  grid_writes rows cells cell ++ concat (cell rows <$> seq 0 cells).
Proof.
  unfold grid_writes. rewrite seq_S, fmap_app, concat_app. cbn. now rewrite app_nil_r.
Qed.

Lemma In_grid_writes rows cells cell w :
  In w (grid_writes rows cells cell) <->
  exists y x, (y < rows)%nat /\ (x < cells)%nat /\ In w (cell y x).
Proof.
  unfold grid_writes. rewrite in_concat. split.
  - intros (l & Hl & Hw). apply in_map_iff in Hl as (y & <- & Hy).
    apply in_concat in Hw as (l & Hl & Hw). apply in_map_iff in Hl as (x & <- & Hx).
    apply in_seq in Hy, Hx. exists y, x. repeat split; auto; lia.
  - intros (y & x & Hy & Hx & Hw). eexists. split.
    + apply in_map_iff. exists y. split; [reflexivity|]. apply in_seq. lia.
    + apply in_concat. eexists. split; [|exact Hw].
      apply in_map_iff. exists x. split; [reflexivity|]. apply in_seq. lia.
Qed.

Lemma fmap_concat {A B} (f : A -> B) (ls : list (list A)) :
  f <$> concat ls = concat ((fun l : list A => f <$> l) <$> ls).
Proof.
  induction ls as [|l ls IH]; cbn; [reflexivity|]. now rewrite fmap_app, IH.
Qed.

Lemma NoDup_concat_fmap {A} (f : A -> list Z) (l : list A) :
  NoDup l ->
  (forall a, In a l -> NoDup (f a)) ->
  (forall a b o, In a l -> In b l -> In o (f a) -> In o (f b) -> a = b) ->
  NoDup (concat (f <$> l)).
Proof.
  induction l as [|a l IH]; intros Hnd Hf Hd; cbn; [constructor|].
  apply NoDup_cons in Hnd as [Ha Hnd].
  apply NoDup_app. split; [apply Hf; now left|]. split.
  - intros o Ho Ho'. apply list_elem_of_In in Ho, Ho'.
    apply in_concat in Ho' as (l' & Hl' & Ho').
    apply in_map_iff in Hl' as (b & <- & Hb).
    assert (a = b) by (apply (Hd a b o); auto; [now left|now right]).
    subst b. apply Ha. now apply list_elem_of_In.
  - apply IH; auto.
    + intros b Hb. apply Hf. now right.
    + intros b c o Hb Hc. apply Hd; now right.
Qed.

Lemma grid_writes_spec (frame : list Z) (rows cells : nat) (cell : nat -> nat -> list (Z * Z))
    (L add H : Z) (row : nat -> Z) :
  0 <= L -> 0 <= add -> Z.of_nat cells * add <= L -> H * L <= Z.of_nat (length frame) ->
  (forall y, (y < rows)%nat -> 0 <= row y < H) ->
  (forall y y', (y < rows)%nat -> (y' < rows)%nat -> row y = row y' -> y = y') ->
  (forall y x, (y < rows)%nat -> (x < cells)%nat ->
     NoDup (cell y x).*1 /\
     Forall (fun w => row y * L + Z.of_nat x * add <= w.1
                      < row y * L + Z.of_nat x * add + add) (cell y x)) ->
  exists f, stores frame (grid_writes rows cells cell) = Some f /\
    length f = length frame /\
    (forall y x w, (y < rows)%nat -> (x < cells)%nat -> In w (cell y x) ->
       f !! Z.to_nat w.1 = Some w.2) /\
    (forall off,
       (forall y x w, (y < rows)%nat -> (x < cells)%nat -> In w (cell y x) ->
          Z.to_nat w.1 <> off) ->
       f !! off = frame !! off).
Proof.
  intros HL Hadd Hcells Hlen Hrow Hinj Hcell.
  assert (Hbox : forall y x w, (y < rows)%nat -> (x < cells)%nat -> In w (cell y x) ->
            row y * L + Z.of_nat x * add <= w.1 < row y * L + Z.of_nat x * add + add).
  { intros y x w Hy Hx Hw. destruct (Hcell y x Hy Hx) as [_ Hb].
    rewrite List.Forall_forall in Hb. now apply Hb. }
  assert (Hrowbox : forall y x w, (y < rows)%nat -> (x < cells)%nat -> In w (cell y x) ->
            row y * L <= w.1 < row y * L + L).
  { intros y x w Hy Hx Hw. pose proof (Hbox y x w Hy Hx Hw). nia. }
  destruct (stores_spec (grid_writes rows cells cell) frame) as (f & Ef & Hl & Hout & Hin).
  { apply List.Forall_forall. intros w Hw.
    apply In_grid_writes in Hw as (y & x & Hy & Hx & Hw).
    pose proof (Hrowbox y x w Hy Hx Hw). pose proof (Hrow y Hy). nia. }
  exists f. split; [exact Ef|]. split; [exact Hl|]. split.
  - intros y x w Hy Hx Hw. apply Hin.
    + unfold grid_writes. rewrite (fmap_concat fst), <- list_fmap_compose.
      apply NoDup_concat_fmap.
      * apply NoDup_seq.
      * intros y1 Hy1. apply in_seq in Hy1. unfold compose.
        rewrite (fmap_concat fst), <- list_fmap_compose.
        apply NoDup_concat_fmap.
        -- apply NoDup_seq.
        -- intros x1 Hx1. apply in_seq in Hx1. unfold compose.
           apply (Hcell y1 x1); lia.
        -- intros x1 x2 o Hx1 Hx2. unfold compose. intros Ho1 Ho2.
           apply in_seq in Hx1, Hx2.
           apply in_map_iff in Ho1 as (w1 & <- & Hw1).
           apply in_map_iff in Ho2 as (w2 & E & Hw2).
           pose proof (Hbox y1 x1 w1 ltac:(lia) ltac:(lia) Hw1).
           pose proof (Hbox y1 x2 w2 ltac:(lia) ltac:(lia) Hw2).
           rewrite E in *.
           destruct (Nat.lt_trichotomy x1 x2) as [Hlt|[->|Hlt]]; [|reflexivity|]; nia.
      * intros y1 y2 o Hy1 Hy2. unfold compose. intros Ho1 Ho2.
        apply in_seq in Hy1, Hy2.
        rewrite (fmap_concat fst), <- list_fmap_compose in Ho1, Ho2.
        apply in_concat in Ho1 as (l1 & Hl1 & Ho1).
        apply in_map_iff in Hl1 as (x1 & <- & Hx1). apply in_seq in Hx1.
        apply in_concat in Ho2 as (l2 & Hl2 & Ho2).
        apply in_map_iff in Hl2 as (x2 & <- & Hx2). apply in_seq in Hx2.
        unfold compose in Ho1, Ho2.
        apply in_map_iff in Ho1 as (w1 & <- & Hw1).
        apply in_map_iff in Ho2 as (w2 & E & Hw2).
        pose proof (Hrowbox y1 x1 w1 ltac:(lia) ltac:(lia) Hw1).
        pose proof (Hrowbox y2 x2 w2 ltac:(lia) ltac:(lia) Hw2).
        rewrite E in *. apply Hinj; try lia.
        destruct (Z.lt_trichotomy (row y1) (row y2)) as [Hlt|[E'|Hlt]]; [|exact E'|]; nia.
    + apply In_grid_writes. eauto.
  - intros off Hoff. apply Hout. intros w Hw.
    apply In_grid_writes in Hw as (y & x & Hy & Hx & Hw). eauto.
Qed.

(** *** The loops in closed form *)

Lemma bind_stores_app (fr : option (list Z)) ws1 ws2 :
  (f ← (f ← fr; stores f ws1); stores f ws2) = (f ← fr; stores f (ws1 ++ ws2)).
Proof. destruct fr as [f|]; cbn; [now rewrite stores_app|reflexivity]. Qed.

Lemma bind_stores_app_Some f0 ws1 ws2 :
  (f ← stores f0 ws1; stores f ws2) = stores f0 (ws1 ++ ws2).
Proof. now rewrite stores_app. Qed.

Lemma for_loop_stores (body : nat -> Z * Z * option (list Z) -> Z * Z * option (list Z))
    (a b : Z) (wr : Z -> Z -> list (Z * Z)) :
  (forall x src d fr, body x (src, d, fr) = (src + a, d + b, fr ← fr; stores fr (wr src d))) ->
  forall n x0 src d fr,
    for_loop body x0 n (src, d, fr) =
    (src + Z.of_nat n * a, d + Z.of_nat n * b,
     fr ← fr; stores fr (concat ((fun i => wr (src + Z.of_nat i * a) (d + Z.of_nat i * b))
                                   <$> seq 0 n))).
Proof.
  intros Hb. induction n as [|n IH]; intros x0 src d fr.
  - cbn. rewrite !Z.add_0_r. destruct fr; reflexivity.
  - cbn [for_loop]. rewrite Hb, IH.
    f_equal; [f_equal; lia|]. rewrite bind_stores_app.
    destruct fr as [f|]; cbn [mbind option_bind]; [|reflexivity]. f_equal.
    cbn [seq fmap list_fmap concat]. rewrite !Z.add_0_r. f_equal.
    rewrite <- fmap_S_seq, <- list_fmap_compose. f_equal.
    apply list_fmap_ext. intros _ i _. unfold compose. f_equal; lia.
Qed.

Lemma fmap_seqZ_concat (g : Z -> Z * Z) (n : nat) :
  g <$> seqZ 0 (Z.of_nat n) = concat ((fun x => [g (Z.of_nat x)]) <$> seq 0 n).
Proof.
  induction n as [|n IH]; [reflexivity|].
  rewrite seqZ_S, seq_S, !fmap_app, concat_app, IH. cbn. reflexivity.
Qed.

Lemma frame_row_range s y :
  0 <= y < m_height s -> 0 <= frame_row s y < m_height s.
Proof. unfold frame_row. destruct (m_inverted s =? 0); lia. Qed.

Lemma frame_row_inj s y y' : frame_row s y = frame_row s y' -> y = y'.
Proof. unfold frame_row. destruct (m_inverted s =? 0); lia. Qed.

Lemma PrepData_copy_closed s channelData f0 :
  m_frame s = Some f0 ->
  0 <= m_width s -> 3 * m_width s <= INT_MAX ->
  0 <= m_height s <= INT_MAX -> 0 <= m_lineLength s ->
  m_height s * m_lineLength s <= INT_MAX ->
  (for_loop (PrepData_copy_row s channelData) 0 (Z.to_nat (m_height s))
     (m_startChannel s,
      (if m_inverted s =? 0 then 0 else int32 (m_lineLength s * int32 (m_height s - 1))),
      m_frame s)).2 =
  stores f0 (grid_writes (Z.to_nat (m_height s)) (Z.to_nat (3 * m_width s))
               (copy_cell s channelData)).
Proof.
  intros Hf Hw Hw3 Hh HL HhL. unfold INT_MAX in *.
  set (Inv := fun (y : nat) (st : Z * Z * option (list Z)) =>
    st.1.1 = m_startChannel s + Z.of_nat y * (3 * m_width s) /\
    ((y < Z.to_nat (m_height s))%nat ->
     st.1.2 = frame_row s (Z.of_nat y) * m_lineLength s) /\
    st.2 = stores f0 (grid_writes y (Z.to_nat (3 * m_width s)) (copy_cell s channelData))).
  assert (H : Inv (0 + Z.to_nat (m_height s))%nat
                (for_loop (PrepData_copy_row s channelData) 0 (Z.to_nat (m_height s))
                   (m_startChannel s,
                    (if m_inverted s =? 0 then 0
                     else int32 (m_lineLength s * int32 (m_height s - 1))),
                    m_frame s))).
  { apply for_loop_invariant.
    - unfold Inv. cbn [fst snd]. split; [lia|]. split; [|exact Hf].
      intros Hy. unfold frame_row. destruct (m_inverted s =? 0); [lia|].
      rewrite (int32_id (m_height s - 1)) by (unfold in_int, INT_MIN, INT_MAX; nia).
      rewrite int32_id by (unfold in_int, INT_MIN, INT_MAX; nia). lia.
    - intros y [[src dst] fr] [_ Hy] (Hsrc & Hdst & Hfr). cbn [fst snd] in *.
      specialize (Hdst ltac:(lia)). subst src dst fr.
      unfold Inv, PrepData_copy_row. cbn [fst snd].
      rewrite (int32_id (m_width s * 3)) by (unfold in_int, INT_MIN, INT_MAX; lia).
      split; [lia|]. split.
      + intros Hy'. unfold frame_row. destruct (m_inverted s =? 0); lia.
      + rewrite grid_writes_S, stores_app.
        destruct (stores f0 _) as [f|]; cbn [mbind option_bind]; [|reflexivity].
        unfold copy_in. destruct (Z.ltb_spec (m_width s * 3) 0); [lia|].
        replace (m_width s * 3) with (Z.of_nat (Z.to_nat (3 * m_width s))) by lia.
        rewrite fmap_seqZ_concat. reflexivity. }
  exact (proj2 (proj2 H)).
Qed.

(** X20. Plain 24-bit frames.  Where [PrepData] copies row by row (24 bits
    per pixel, colour order as the framebuffer has it, no software scaling)
    and the frame holds [m_height] lines of [m_lineLength >= 3 * m_width]
    bytes, it stores, for every matrix row [y], the row's [3 * m_width]
    channel bytes at the start of frame line [y], or of line
    [m_height - 1 - y] when the matrix is inverted, and leaves every other
    byte of the frame as it was. *)
Theorem PrepData_copies_rows (s : FBMatrixOutput) (channelData f0 : list Z) :
  m_frame s = Some f0 ->
  m_bpp s <> 16 -> m_bpp s <> 32 -> m_useRGB s = false -> m_scaling s <> SOFTWARE ->
  0 <= m_width s -> 0 <= m_height s <= INT_MAX ->
  3 * m_width s <= m_lineLength s <= INT_MAX ->
  m_height s * m_lineLength s <= Z.of_nat (length f0) ->
  Z.of_nat (length f0) <= INT_MAX ->
  exists f,
    PrepData s channelData = Some (with_frame s f) /\
    length f = length f0 /\
    (forall y i, 0 <= y < m_height s -> 0 <= i < 3 * m_width s ->
       f !! Z.to_nat (frame_row s y * m_lineLength s + i)
       = Some (read channelData (m_startChannel s + y * (3 * m_width s) + i))) /\
    (forall off,
       (forall y i, 0 <= y < m_height s -> 0 <= i < 3 * m_width s ->
          off <> Z.to_nat (frame_row s y * m_lineLength s + i)) ->
       f !! off = f0 !! off).
Proof.
  intros Hf H16 H32 Hrgb Hsc Hw Hh HwL HhL Hmax. unfold INT_MAX in *.
  assert (Hclosed : PrepData_frame s channelData =
            stores f0 (grid_writes (Z.to_nat (m_height s)) (Z.to_nat (3 * m_width s))
                         (copy_cell s channelData))).
  { unfold PrepData_frame. cbv zeta.
    destruct (Z.eqb_spec (m_bpp s) 16); [contradiction|].
    destruct (Z.eqb_spec (m_bpp s) 32); [contradiction|].
    rewrite Hrgb. destruct (m_scaling s); try contradiction; cbn [orb];
      (apply PrepData_copy_closed; unfold INT_MAX; auto; lia). }
  destruct (grid_writes_spec f0 (Z.to_nat (m_height s)) (Z.to_nat (3 * m_width s))
              (copy_cell s channelData) (m_lineLength s) 1 (m_height s)
              (fun y => frame_row s (Z.of_nat y)))
    as (f & Ef & Hl & Hin & Hout); try lia.
  - intros y Hy. apply frame_row_range. lia.
  - intros y y' _ _ E. apply frame_row_inj in E. lia.
  - intros y x Hy Hx. unfold copy_cell. cbn [fmap list_fmap fst]. split.
    + apply NoDup_singleton.
    + repeat constructor; cbn [fst]; lia.
  - exists f. unfold PrepData. rewrite Hclosed, Ef. cbn [fmap option_fmap option_map].
    split; [reflexivity|]. split; [exact Hl|]. split.
    + intros y i Hy Hi.
      specialize (Hin (Z.to_nat y) (Z.to_nat i)
                    (frame_row s y * m_lineLength s + i,
                     read channelData (m_startChannel s + y * (3 * m_width s) + i))
                    ltac:(lia) ltac:(lia)).
      apply Hin. unfold copy_cell. rewrite !Z2Nat.id by lia. now left.
    + intros off Hoff. apply Hout. intros y x w Hy Hx [<-|[]]. cbn [fst].
      intros E. apply (Hoff (Z.of_nat y) (Z.of_nat x)); lia.
Qed.

Lemma frame_row_step s y :
  frame_row s y + row_step s = frame_row s (y + 1).
Proof. unfold frame_row, row_step. destruct (m_inverted s =? 0); lia. Qed.

Lemma PrepData24_pixel_plain s channelData width x src d fr :
  m_scaling s <> SOFTWARE ->
  PrepData24_pixel s channelData width x (src, d, fr) =
  (src + 3, d + Z.quot (m_bpp s) 8,
   fr ← fr; stores fr (let '(oR, oG, oB) := if m_useRGB s then (2, 1, 0) else (0, 1, 2) in
                       [(d + oR, read channelData src);
                        (d + oG, read channelData (src + 1));
                        (d + oB, read channelData (src + 2))])).
Proof.
  intros Hsc. unfold PrepData24_pixel.
  destruct (m_useRGB s), (m_scaling s); try contradiction; reflexivity.
Qed.

Lemma PrepData24_rows_closed s channelData f0 :
  m_scaling s <> SOFTWARE ->
  0 <= m_width s -> 0 <= m_height s <= INT_MAX -> 0 <= m_lineLength s ->
  m_height s * m_lineLength s <= INT_MAX ->
  forall n y,
    (y + n = Z.to_nat (m_height s))%nat ->
    PrepData24_rows n s channelData (m_width s) (m_height s) (Z.of_nat y)
      (frame_row s (Z.of_nat y)) (m_startChannel s + Z.of_nat y * m_width s * 3)
      (stores f0 (grid_writes y (Z.to_nat (m_width s))
                    (pixel_cell s channelData (Z.quot (m_bpp s) 8)))) =
    stores f0 (grid_writes (y + n) (Z.to_nat (m_width s))
                 (pixel_cell s channelData (Z.quot (m_bpp s) 8))).
Proof.
  intros Hsc Hw Hh HL HhL. unfold INT_MAX in *.
  induction n as [|n IH]; intros y Hy.
  - cbn [PrepData24_rows]. now rewrite Nat.add_0_r.
  - cbn [PrepData24_rows].
    destruct (Z.ltb_spec (Z.of_nat y) (m_height s)); [|lia].
    rewrite (for_loop_stores _ 3 (Z.quot (m_bpp s) 8)
               (fun src d => let '(oR, oG, oB) := if m_useRGB s then (2, 1, 0) else (0, 1, 2) in
                             [(d + oR, read channelData src);
                              (d + oG, read channelData (src + 1));
                              (d + oB, read channelData (src + 2))]))
      by (intros; now apply PrepData24_pixel_plain).
    assert (Hrow : 0 <= frame_row s (Z.of_nat y) < m_height s)
      by (apply frame_row_range; lia).
    rewrite (int32_id (frame_row s (Z.of_nat y) * m_lineLength s))
      by (unfold in_int, INT_MIN, INT_MAX; nia).
    assert (Erest : forall (vy drow : Z) (fr : option (list Z)),
              match m_scaling s with
              | SOFTWARE => dup_rows (Z.to_nat (m_height s - vy)) s (m_height s) vy drow fr
              | _ => (vy, drow, fr)
              end = (vy, drow, fr)).
    { intros. destruct (m_scaling s); try contradiction; reflexivity. }
    rewrite Erest.
    rewrite (int32_id (Z.of_nat y + 1)) by (unfold in_int, INT_MIN, INT_MAX; lia).
    rewrite frame_row_step.
    rewrite (int32_id (frame_row s (Z.of_nat y + 1)))
      by (unfold in_int, INT_MIN, INT_MAX, frame_row; destruct (m_inverted s =? 0); lia).
    replace (Z.of_nat y + 1) with (Z.of_nat (S y)) by lia.
    replace (m_startChannel s + Z.of_nat y * m_width s * 3 + Z.of_nat (Z.to_nat (m_width s)) * 3)
      with (m_startChannel s + Z.of_nat (S y) * m_width s * 3) by lia.
    rewrite bind_stores_app_Some.
    replace (y + S n)%nat with (S y + n)%nat by lia.
    rewrite <- (IH (S y)) by lia. f_equal.
    rewrite grid_writes_S. f_equal. f_equal. f_equal.
    apply list_fmap_ext. intros _ x _. unfold pixel_cell.
    destruct (m_useRGB s); repeat (f_equal; try lia).
Qed.

(** X21. Frames with the channels placed one by one.  With 32 bits per
    pixel, or 24 bits and RGB channel data, and no software scaling,
    [PrepData] stores the three channel bytes of every matrix pixel (x, y)
    in the cell of [m_bpp / 8] bytes at column [x] of frame line [y] (line
    [m_height - 1 - y] when inverted): for RGB data red goes to byte 2,
    green to byte 1 and blue to byte 0 of the cell, otherwise red to byte 0
    and blue to byte 2.  No other byte of the frame changes, so the fourth
    byte of a 32-bit cell keeps its value.  Width and height are taken
    positive. *)
Theorem PrepData_places_channels (s : FBMatrixOutput) (channelData f0 : list Z) :
  m_frame s = Some f0 ->
  (m_bpp s = 24 /\ m_useRGB s = true) \/ m_bpp s = 32 ->
  m_scaling s <> SOFTWARE ->
  0 < m_width s -> 0 < m_height s ->
  m_width s * (m_bpp s / 8) <= m_lineLength s ->
  m_height s * m_lineLength s <= Z.of_nat (length f0) ->
  Z.of_nat (length f0) <= INT_MAX ->
  exists f,
    PrepData s channelData = Some (with_frame s f) /\
    length f = length f0 /\
    (forall y x, 0 <= y < m_height s -> 0 <= x < m_width s ->
       let cell := frame_row s y * m_lineLength s + x * (m_bpp s / 8) in
       let src := m_startChannel s + (y * m_width s + x) * 3 in
       f !! Z.to_nat (cell + (if m_useRGB s then 2 else 0)) = Some (read channelData src) /\
       f !! Z.to_nat (cell + 1) = Some (read channelData (src + 1)) /\
       f !! Z.to_nat (cell + (if m_useRGB s then 0 else 2))
         = Some (read channelData (src + 2))) /\
    (forall off,
       (forall y x j, 0 <= y < m_height s -> 0 <= x < m_width s -> 0 <= j < 3 ->
          off <> Z.to_nat (frame_row s y * m_lineLength s + x * (m_bpp s / 8) + j)) ->
       f !! off = f0 !! off).
Proof.
  intros Hf Hbpp Hsc Hw Hh HwL HhL Hmax. unfold INT_MAX in *.
  set (add := m_bpp s / 8) in *.
  assert (Hadd : Z.quot (m_bpp s) 8 = add /\ 3 <= add <= 4 /\ m_bpp s <> 16).
  { unfold add. destruct Hbpp as [[E _]|E]; rewrite E.
    - change (Z.quot 24 8) with 3. change (24 / 8) with 3. lia.
    - change (Z.quot 32 8) with 4. change (32 / 8) with 4. lia. }
  destruct Hadd as (Eq & Hadd & H16).
  assert (Hpath : (m_useRGB s || (m_bpp s =? 32)
                   || match m_scaling s with SOFTWARE => true | _ => false end) = true).
  { destruct Hbpp as [[_ ->]| ->]; [reflexivity|]. now rewrite orb_true_r. }
  assert (HL : 3 <= m_lineLength s) by nia.
  assert (Hclosed : PrepData_frame s channelData =
            stores f0 (grid_writes (Z.to_nat (m_height s)) (Z.to_nat (m_width s))
                         (pixel_cell s channelData add))).
  { unfold PrepData_frame. cbv zeta.
    destruct (Z.eqb_spec (m_bpp s) 16); [contradiction|]. rewrite Hpath.
    assert (Ew : match m_scaling s with SOFTWARE => int32 (xres (m_vInfo s)) | _ => m_width s end
                 = m_width s) by (destruct (m_scaling s); try contradiction; reflexivity).
    assert (Eh : match m_scaling s with SOFTWARE => int32 (yres (m_vInfo s)) | _ => m_height s end
                 = m_height s) by (destruct (m_scaling s); try contradiction; reflexivity).
    rewrite Ew, Eh. unfold table_fault.
    destruct (Z.eqb_spec (m_width s) 0); [lia|].
    destruct (Z.eqb_spec (m_height s) 0); [lia|].
    rewrite !int32_id by (unfold in_int, INT_MIN, INT_MAX; nia).
    destruct (Z.ltb_spec (m_width s + 1) 0); [lia|].
    destruct (Z.ltb_spec (m_height s + 1) 0); [lia|]. cbn [orb].
    pose proof (PrepData24_rows_closed s channelData f0 Hsc ltac:(lia)
                  ltac:(unfold INT_MAX; nia) ltac:(lia) ltac:(unfold INT_MAX; lia)
                  (Z.to_nat (m_height s)) 0%nat ltac:(lia)) as Hc.
    rewrite Eq in Hc. cbn [Nat.add] in Hc.
    replace (m_startChannel s + Z.of_nat 0 * m_width s * 3) with (m_startChannel s) in Hc by lia.
    change (Z.of_nat 0) with 0 in Hc.
    assert (E0 : frame_row s 0 = if m_inverted s =? 0 then 0 else m_height s - 1)
      by (unfold frame_row; destruct (m_inverted s =? 0); lia).
    rewrite E0 in Hc.
    unfold grid_writes in Hc at 1. cbn [seq fmap list_fmap concat stores] in Hc.
    rewrite <- Hf in Hc at 1. exact Hc. }
  destruct (grid_writes_spec f0 (Z.to_nat (m_height s)) (Z.to_nat (m_width s))
              (pixel_cell s channelData add) (m_lineLength s) add (m_height s)
              (fun y => frame_row s (Z.of_nat y)))
    as (f & Ef & Hl & Hin & Hout); try lia.
  - intros y Hy. apply frame_row_range. lia.
  - intros y y' _ _ E. apply frame_row_inj in E. lia.
  - intros y x Hy Hx. unfold pixel_cell.
    destruct (m_useRGB s); cbn [fmap list_fmap fst]; split.
    + repeat (apply NoDup_cons; split; [rewrite ?elem_of_cons, ?elem_of_nil; lia|]).
      apply NoDup_nil_2.
    + repeat constructor; cbn [fst]; lia.
    + repeat (apply NoDup_cons; split; [rewrite ?elem_of_cons, ?elem_of_nil; lia|]).
      apply NoDup_nil_2.
    + repeat constructor; cbn [fst]; lia.
  - exists f. unfold PrepData. rewrite Hclosed, Ef. cbn [fmap option_fmap option_map].
    split; [reflexivity|]. split; [exact Hl|]. split.
    + intros y x Hy Hx.
      set (cell := frame_row s y * m_lineLength s + x * add).
      set (src := m_startChannel s + (y * m_width s + x) * 3).
      assert (Hc : pixel_cell s channelData add (Z.to_nat y) (Z.to_nat x) =
                   let '(oR, oG, oB) := if m_useRGB s then (2, 1, 0) else (0, 1, 2) in
                   [(cell + oR, read channelData src);
                    (cell + oG, read channelData (src + 1));
                    (cell + oB, read channelData (src + 2))]).
      { unfold pixel_cell. rewrite !Z2Nat.id by lia. reflexivity. }
      pose proof (Hin (Z.to_nat y) (Z.to_nat x)) as Hp. rewrite Hc in Hp.
      destruct (m_useRGB s).
      * split; [|split].
        -- apply (Hp (cell + 2, _)); [lia|lia|now left].
        -- apply (Hp (cell + 1, _)); [lia|lia|right; now left].
        -- apply (Hp (cell + 0, _)); [lia|lia|right; right; now left].
      * split; [|split].
        -- apply (Hp (cell + 0, _)); [lia|lia|now left].
        -- apply (Hp (cell + 1, _)); [lia|lia|right; now left].
        -- apply (Hp (cell + 2, _)); [lia|lia|right; right; now left].
    + intros off Hoff. apply Hout. intros y x w Hy Hx Hcell E.
      unfold pixel_cell in Hcell.
      destruct (m_useRGB s); cbn in Hcell;
        destruct Hcell as [<-|[<-|[<-|[]]]]; cbn [fst] in E;
        first [ apply (Hoff (Z.of_nat y) (Z.of_nat x) 0); lia
              | apply (Hoff (Z.of_nat y) (Z.of_nat x) 1); lia
              | apply (Hoff (Z.of_nat y) (Z.of_nat x) 2); lia ].
Qed.

Lemma PrepData16_pixel_plain s cube channelData x src d fr :
  PrepData16_pixel s cube channelData x (src, d, fr) =
  (src + 3, d + 2, fr ← fr; stores fr (store16 d (cube_value s cube channelData src))).
Proof.
  unfold PrepData16_pixel, cube_value.
  destruct (cube_index s channelData src) as [[i j] k]. reflexivity.
Qed.

Lemma PrepData16_closed s cube channelData f0 :
  m_frame s = Some f0 ->
  0 <= m_width s -> 0 <= m_height s <= INT_MAX -> 0 <= m_lineLength s ->
  m_height s * m_lineLength s <= INT_MAX ->
  (for_loop (PrepData16_row s cube channelData) 0 (Z.to_nat (m_height s))
     ((if m_inverted s =? 0 then 0 else int32 (m_height s - 1)),
      m_startChannel s, m_frame s)).2 =
  stores f0 (grid_writes (Z.to_nat (m_height s)) (Z.to_nat (m_width s))
               (pixel16_cell s cube channelData)).
Proof.
  intros Hf Hw Hh HL HhL. unfold INT_MAX in *.
  set (Inv := fun (y : nat) (st : Z * Z * option (list Z)) =>
    st.1.1 = frame_row s (Z.of_nat y) /\
    st.1.2 = m_startChannel s + Z.of_nat y * m_width s * 3 /\
    st.2 = stores f0 (grid_writes y (Z.to_nat (m_width s)) (pixel16_cell s cube channelData))).
  assert (H : Inv (0 + Z.to_nat (m_height s))%nat
                (for_loop (PrepData16_row s cube channelData) 0 (Z.to_nat (m_height s))
                   ((if m_inverted s =? 0 then 0 else int32 (m_height s - 1)),
                    m_startChannel s, m_frame s))).
  { apply for_loop_invariant.
    - unfold Inv. cbn [fst snd]. split; [|split; [lia|exact Hf]].
      unfold frame_row. destruct (m_inverted s =? 0); [reflexivity|].
      rewrite int32_id by (unfold in_int, INT_MIN, INT_MAX; lia). cbn. lia.
    - intros y [[drow src] fr] [_ Hy] (Hdrow & Hsrc & Hfr). cbn [fst snd] in *.
      subst drow src fr. unfold Inv, PrepData16_row.
      rewrite (for_loop_stores _ 3 2
                 (fun src d => store16 d (cube_value s cube channelData src)))
        by (intros; apply PrepData16_pixel_plain).
      cbn [fst snd].
      assert (Hrow : 0 <= frame_row s (Z.of_nat y) < m_height s)
        by (apply frame_row_range; lia).
      rewrite (int32_id (frame_row s (Z.of_nat y) * m_lineLength s))
        by (unfold in_int, INT_MIN, INT_MAX; nia).
      rewrite frame_row_step.
      rewrite int32_id
        by (unfold in_int, INT_MIN, INT_MAX, frame_row; destruct (m_inverted s =? 0); lia).
      split; [f_equal; lia|]. split; [lia|].
      rewrite bind_stores_app_Some, grid_writes_S. f_equal. f_equal. f_equal.
      apply list_fmap_ext. intros _ x _. unfold pixel16_cell.
      do 2 f_equal. lia. }
  exact (proj2 (proj2 H)).
Qed.

Lemma read_byte channelData off :
  Forall (fun b => 0 <= b < 256) channelData -> 0 <= read channelData off < 256.
Proof.
  intros Hb. unfold read.
  destruct (channelData !! Z.to_nat off) as [b|] eqn:E.
  - rewrite (list_lookup_total_correct _ _ _ E).
    rewrite Forall_forall in Hb. apply Hb. eapply list_elem_of_lookup_2. exact E.
  - rewrite list_lookup_total_alt, E. cbn. lia.
Qed.

(** X22. 16-bit frames.  At 16 bits per pixel, with the colour cube as
    [Init] builds it (entry [b][g][r] = b*2048 + g*32 + r) and no software
    scaling, [PrepData] stores for every matrix pixel (x, y) one 16-bit
    value, low byte first, at column [x] of frame line [y] (line
    [m_height - 1 - y] when inverted): the top five bits of the first
    channel byte in bits 11 to 15, the top six bits of the second in bits 5
    to 10 and the top five bits of the third in bits 0 to 4, where the
    first byte is red for RGB data and blue otherwise.  No other byte of the
    frame changes. *)
Theorem PrepData_packs_rgb565
    (s : FBMatrixOutput) (cube : Z -> Z -> Z -> Z) (channelData f0 : list Z) :
  m_frame s = Some f0 ->
  m_bpp s = 16 ->
  m_rgb565map s = Some cube ->
  (forall b g r, 0 <= b < 32 -> 0 <= g < 64 -> 0 <= r < 32 ->
     cube b g r = b * 2048 + g * 32 + r) ->
  Forall (fun b => 0 <= b < 256) channelData ->
  m_scaling s <> SOFTWARE ->
  0 <= m_width s -> 0 <= m_height s <= INT_MAX ->
  2 * m_width s <= m_lineLength s ->
  m_height s * m_lineLength s <= Z.of_nat (length f0) ->
  Z.of_nat (length f0) <= INT_MAX ->
  exists f,
    PrepData s channelData = Some (with_frame s f) /\
    length f = length f0 /\
    (forall y x, 0 <= y < m_height s -> 0 <= x < m_width s ->
       let cell := frame_row s y * m_lineLength s + x * 2 in
       let src := m_startChannel s + (y * m_width s + x) * 3 in
       let first := read channelData (if m_useRGB s then src else src + 2) in
       let third := read channelData (if m_useRGB s then src + 2 else src) in
       let v := first / 8 * 2048 + read channelData (src + 1) / 4 * 32 + third / 8 in
       f !! Z.to_nat cell = Some (v mod 256) /\
       f !! Z.to_nat (cell + 1) = Some (v / 256)) /\
    (forall off,
       (forall y x j, 0 <= y < m_height s -> 0 <= x < m_width s -> 0 <= j < 2 ->
          off <> Z.to_nat (frame_row s y * m_lineLength s + x * 2 + j)) ->
       f !! off = f0 !! off).
Proof.
  intros Hf H16 Hcube Hpack Hbytes Hsc Hw Hh HwL HhL Hmax. unfold INT_MAX in *.
  assert (Hclosed : PrepData_frame s channelData =
            stores f0 (grid_writes (Z.to_nat (m_height s)) (Z.to_nat (m_width s))
                         (pixel16_cell s cube channelData))).
  { unfold PrepData_frame. cbv zeta. rewrite H16, Hcube. cbn [Z.eqb Pos.eqb mbind option_bind].
    assert (Eh : match m_scaling s with SOFTWARE => int32 (yres (m_vInfo s)) | _ => m_height s end
                 = m_height s) by (destruct (m_scaling s); try contradiction; reflexivity).
    rewrite Eh. apply PrepData16_closed; unfold INT_MAX; auto; lia. }
  assert (Hval : forall src,
            let first := read channelData (if m_useRGB s then src else src + 2) in
            let third := read channelData (if m_useRGB s then src + 2 else src) in
            cube_value s cube channelData src =
              first / 8 * 2048 + read channelData (src + 1) / 4 * 32 + third / 8 /\
            0 <= cube_value s cube channelData src < 65536).
  { intros src first third. unfold cube_value, cube_index.
    pose proof (read_byte channelData src Hbytes) as B0.
    pose proof (read_byte channelData (src + 1) Hbytes) as B1.
    pose proof (read_byte channelData (src + 2) Hbytes) as B2.
    assert (D : forall b, 0 <= b < 256 -> 0 <= b / 8 < 32 /\ 0 <= b / 4 < 64).
    { intros b Hb. split; split;
        first [apply Z.div_pos; lia | apply Z.div_lt_upper_bound; lia]. }
    unfold first, third.
    destruct (m_useRGB s); rewrite !Z.shiftr_div_pow2 by lia;
      change (2 ^ 3) with 8; change (2 ^ 2) with 4;
      pose proof (D _ B0); pose proof (D _ B1); pose proof (D _ B2);
      rewrite Hpack by lia; split; [reflexivity|lia|reflexivity|lia]. }
  destruct (grid_writes_spec f0 (Z.to_nat (m_height s)) (Z.to_nat (m_width s))
              (pixel16_cell s cube channelData) (m_lineLength s) 2 (m_height s)
              (fun y => frame_row s (Z.of_nat y)))
    as (f & Ef & Hl & Hin & Hout); try lia.
  - intros y Hy. apply frame_row_range. lia.
  - intros y y' _ _ E. apply frame_row_inj in E. lia.
  - intros y x Hy Hx. unfold pixel16_cell, store16. cbn [fmap list_fmap fst]. split.
    + repeat (apply NoDup_cons; split; [rewrite ?elem_of_cons, ?elem_of_nil; lia|]).
      apply NoDup_nil_2.
    + repeat constructor; cbn [fst]; lia.
  - exists f. unfold PrepData. rewrite Hclosed, Ef. cbn [fmap option_fmap option_map].
    split; [reflexivity|]. split; [exact Hl|]. split.
    + intros y x Hy Hx.
      set (cell := frame_row s y * m_lineLength s + x * 2).
      set (src := m_startChannel s + (y * m_width s + x) * 3).
      destruct (Hval src) as [Ev Hv]. cbv zeta in Ev. rewrite <- Ev.
      assert (Hc : pixel16_cell s cube channelData (Z.to_nat y) (Z.to_nat x) =
                   store16 cell (cube_value s cube channelData src)).
      { unfold pixel16_cell. rewrite !Z2Nat.id by lia. reflexivity. }
      pose proof (Hin (Z.to_nat y) (Z.to_nat x)) as Hp. rewrite Hc in Hp.
      unfold store16 in Hp. split.
      * apply (Hp (cell, _)); [lia|lia|now left].
      * replace (cube_value s cube channelData src / 256)
          with (cube_value s cube channelData src / 256 mod 256).
        -- apply (Hp (cell + 1, _)); [lia|lia|right; now left].
        -- apply Z.mod_small. split; [apply Z.div_pos; lia|].
           apply Z.div_lt_upper_bound; lia.
    + intros off Hoff. apply Hout. intros y x w Hy Hx Hcell E.
      unfold pixel16_cell, store16 in Hcell. cbn in Hcell.
      destruct Hcell as [<-|[<-|[]]]; cbn [fst] in E;
        first [ apply (Hoff (Z.of_nat y) (Z.of_nat x) 0); lia
              | apply (Hoff (Z.of_nat y) (Z.of_nat x) 1); lia ].
Qed.

(** *** The size of the frame *)

Lemma store_length frame off b f : store frame off b = Some f -> length f = length frame.
Proof.
  unfold store. destruct (_ && _); [|discriminate]. intros [= <-]. apply length_insert.
Qed.

Lemma stores_length ws : forall frame f, stores frame ws = Some f -> length f = length frame.
Proof.
  induction ws as [|[off b] ws IH]; intros frame f; cbn [stores].
  - now intros [= <-].
  - destruct (store frame off b) as [f1|] eqn:E; cbn; [|discriminate].
    intros H. rewrite (IH _ _ H). now apply store_length in E.
Qed.

Lemma keeps_stores len fr ws : keeps len fr -> keeps len (f ← fr; stores f ws).
Proof.
  intros Hk f. destruct fr as [f1|]; cbn; [|discriminate].
  intros H. rewrite (stores_length _ _ _ H). now apply Hk.
Qed.

Lemma keeps_copy_in len fr dst channelData src n :
  keeps len fr -> keeps len (f ← fr; copy_in f dst channelData src n).
Proof.
  intros Hk f. destruct fr as [f1|]; cbn; [|discriminate].
  unfold copy_in. destruct (n <? 0); [discriminate|].
  intros H. rewrite (stores_length _ _ _ H). now apply Hk.
Qed.

Lemma keeps_copy_within len fr dst src n :
  keeps len fr -> keeps len (f ← fr; copy_within f dst src n).
Proof.
  intros Hk f. destruct fr as [f1|]; cbn; [|discriminate].
  unfold copy_within. destruct (_ && _) eqn:E; [|discriminate].
  intros [= <-]. rewrite <- (Hk f1 eq_refl).
  repeat (apply andb_prop in E as [E ?]).
  unfold bytes_at. rewrite !length_app, length_take, length_take, !length_drop. lia.
Qed.

Lemma for_loop_keeps len (body : nat -> Z * Z * option (list Z) -> Z * Z * option (list Z)) :
  (forall x st, keeps len st.2 -> keeps len (body x st).2) ->
  forall n x0 st, keeps len st.2 -> keeps len (for_loop body x0 n st).2.
Proof.
  intros Hb n x0 st H0.
  apply (for_loop_invariant (fun _ st => keeps len st.2) body n x0 st H0).
  intros i st' _. apply Hb.
Qed.

Lemma dup_rows_keeps len s height n : forall vy drow fr,
  keeps len fr -> keeps len (dup_rows n s height vy drow fr).2.
Proof.
  induction n as [|n IH]; intros vy drow fr Hk; cbn [dup_rows]; [exact Hk|].
  destruct (_ && _); [|exact Hk]. apply IH. now apply keeps_copy_within.
Qed.

Lemma PrepData24_rows_keeps len s channelData width height n : forall vy drow src fr,
  keeps len fr -> keeps len (PrepData24_rows n s channelData width height vy drow src fr).
Proof.
  induction n as [|n IH]; intros vy drow src fr Hk; cbn [PrepData24_rows]; [exact Hk|].
  destruct (vy <? height); [|exact Hk].
  pose proof (for_loop_keeps len (PrepData24_pixel s channelData width)) as Hin.
  specialize (Hin ltac:(intros x [[a b] c] Hc; unfold PrepData24_pixel;
                        destruct (m_useRGB s); cbn [snd] in *; now apply keeps_stores)
                (Z.to_nat width) 0%nat (src, int32 (drow * m_lineLength s), fr) Hk).
  destruct (for_loop _ _ _ _) as [[src' d'] fr']. cbn [snd] in Hin.
  destruct (m_scaling s).
  - now apply IH.
  - pose proof (dup_rows_keeps len s height (Z.to_nat (height - vy)) vy drow fr' Hin) as Hd.
    destruct (dup_rows _ _ _ _ _ _) as [[vy' drow'] fr'']. now apply IH.
  - now apply IH.
Qed.

Lemma PrepData_frame_keeps s channelData f0 :
  m_frame s = Some f0 -> keeps (length f0) (PrepData_frame s channelData).
Proof.
  intros Hf. assert (H0 : keeps (length f0) (m_frame s)) by (rewrite Hf; now intros f [= <-]).
  unfold PrepData_frame. cbv zeta.
  destruct (m_bpp s =? 16).
  - destruct (m_rgb565map s) as [cube|]; cbn [mbind option_bind]; [|discriminate].
    apply for_loop_keeps; [|exact H0].
    intros y [[drow src] fr] Hk. unfold PrepData16_row. cbn [snd] in Hk.
    pose proof (for_loop_keeps (length f0) (PrepData16_pixel s cube channelData)) as Hin.
    specialize (Hin ltac:(intros x [[a b] c] Hc; unfold PrepData16_pixel;
                          destruct (cube_index s channelData a) as [[i j] k];
                          cbn [snd] in *; now apply keeps_stores)
                  (Z.to_nat (m_width s)) 0%nat (src, int32 (drow * m_lineLength s), fr) Hk).
    destruct (for_loop _ _ _ _) as [[src' d'] fr']. exact Hin.
  - destruct (_ || _).
    + destruct (_ || _); [discriminate|]. now apply PrepData24_rows_keeps.
    + apply for_loop_keeps; [|exact H0].
      intros y [[src dst] fr] Hk. unfold PrepData_copy_row. cbn [snd] in *.
      now apply keeps_copy_in.
Qed.

(** X23. [PrepData] writes into the frame and nowhere else: when it
    returns, the sink is as before but for the contents of [m_frame], which
    has kept its size.  The [SendData] that follows copies these contents,
    all [m_screenSize] bytes of them, to the half of the mapping it would
    have written without the [PrepData]. *)
Theorem PrepData_then_SendData
    (s s' : FBMatrixOutput) (channelData : list Z) (d : Display) :
  PrepData s channelData = Some s' ->
  exists f,
    s' = with_frame s f /\
    (forall f0, m_frame s = Some f0 -> length f = length f0) /\
    (length f = Z.to_nat (m_screenSize s) ->
     exists pan,
       disp_log (SendData s' d).2 = disp_log d ++ SysMemcpy (SendData_target s) f :: pan /\
       (m_isDoubleBuffered s = false -> pan = [])).
Proof.
  unfold PrepData. destruct (PrepData_frame s channelData) as [f|] eqn:E; [|discriminate].
  intros [= <-]. exists f. split; [reflexivity|]. split.
  - intros f0 Hf. now apply (PrepData_frame_keeps s channelData f0 Hf).
  - intros Hlen. rewrite SendData_log. eexists. split.
    + cbn [m_screenSize m_frame with_frame default]. rewrite <- Hlen, firstn_all.
      unfold SendData_target. cbn [m_isDoubleBuffered m_topFrame m_screenSize with_frame].
      reflexivity.
    + cbn [m_isDoubleBuffered with_frame]. now intros ->.
Qed.

End Sink.

(** *** A concrete display *)

(** A driver that accepts every request; lines are packed, three bytes per
    pixel, and fresh memory holds zeros. *)
Definition driver_ok : Driver :=
  {| drv_open := fun path => if String.eqb path "/dev/console" then 4 else 3;
     drv_get_var := fun _ => true;
     drv_put_var := fun _ _ => true;
     drv_get_fix := fun _ v => Some {| line_length := xres v * 3 |};
     drv_mmap := fun _ _ => true;
     drv_pan := fun _ _ => true;
     drv_heap := fun _ => 0 |}.

(** A driver that refuses a virtual height above the physical one. *)
Definition driver_single : Driver :=
  {| drv_open := fun path => if String.eqb path "/dev/console" then 4 else 3;
     drv_get_var := fun _ => true;
     drv_put_var := fun _ v => yres_virtual v <=? yres v;
     drv_get_fix := fun _ v => Some {| line_length := xres v * 3 |};
     drv_mmap := fun _ _ => true;
     drv_pan := fun _ _ => true;
     drv_heap := fun _ => 0 |}.

(** A 24-bit display in a 640x480 mode, scanning out from line 0, with no
    call made yet. *)
Definition display0 : Display :=
  {| disp_var := {| xres := 640; yres := 480; xres_virtual := 640; yres_virtual := 480;
                    yoffset := 0; bits_per_pixel := 24;
                    red := {| bf_offset := 16; bf_length := 8 |};
                    green := {| bf_offset := 8; bf_length := 8 |};
                    blue := {| bf_offset := 0; bf_length := 8 |};
                    transp := zero_bitfield |};
     disp_log := [] |}.

(** A 2x2 matrix on /dev/fb1, hardware scaling. *)
Definition cfg_2x2 : Config :=
  {| cfg_width := 2; cfg_height := 2; cfg_colorOrder := "RGB"; cfg_invert := 0;
     cfg_device := "fb1"; cfg_scaling := None |}.

Definition base_ok : Config -> Z := fun _ => 1.

(** The mode of [display0] resized to 2x2 with a virtual height of 4. *)
Definition mode_2x2 (yv : Z) : fb_var_screeninfo :=
  set_geometry (disp_var display0) 2 2 2 yv.

(** Closes a conjunction of closed equations by evaluating each side. *)
Ltac by_evaluation :=
  repeat match goal with |- _ /\ _ => split end;
  try (vm_compute; reflexivity).

Example Init_2x2_succeeds :
  let r := Init driver_ok base_ok cfg_2x2 (FBMatrixOutput_new 1 12) display0 in
  r.1.1 = 1 /\
  m_isDoubleBuffered r.1.2 = true /\ m_topFrame r.1.2 = true /\
  m_screenSize r.1.2 = 12 /\ m_lineLength r.1.2 = 6 /\
  m_fbp r.1.2 = Mapped 24 /\
  disp_var r.2 = mode_2x2 4 /\
  disp_log r.2 = [SysOpen "/dev/fb1" 3; SysGetVar 3 true; SysPutVar 3 (mode_2x2 4) true;
                  SysGetFix 3 true; SysMmap 3 24 true].
Proof. cbv zeta. by_evaluation. Qed.

Example Init_2x2_wrong_channelCount :
  let r := Init driver_ok base_ok cfg_2x2 (FBMatrixOutput_new 1 10) display0 in
  r.1.1 = 0 /\
  disp_var r.2 = disp_var display0 /\
  disp_log r.2 = [SysOpen "/dev/fb1" 3; SysGetVar 3 true; SysPutVar 3 (mode_2x2 4) true;
                  SysGetFix 3 true; SysPutVar 3 (disp_var display0) true; SysClose 3].
Proof. cbv zeta. by_evaluation. Qed.

Example Init_2x2_single_buffer :
  let r := Init driver_single base_ok cfg_2x2 (FBMatrixOutput_new 1 12) display0 in
  r.1.1 = 1 /\ m_isDoubleBuffered r.1.2 = false /\ m_fbp r.1.2 = Mapped 12 /\
  (SendData driver_single r.1.2 r.2).1.1 = 12 /\
  disp_log (send_frames driver_single 2 r.1.2 r.2).2 =
    disp_log r.2 ++ [SysMemcpy 0 (replicate 12 0); SysMemcpy 0 (replicate 12 0)].
Proof. cbv zeta. by_evaluation. Qed.

(** The sink and the display after a successful double-buffered [Init]. *)
Definition sink_2x2 : FBMatrixOutput :=
  (Init driver_ok base_ok cfg_2x2 (FBMatrixOutput_new 1 12) display0).1.2.
Definition display_2x2 : Display :=
  (Init driver_ok base_ok cfg_2x2 (FBMatrixOutput_new 1 12) display0).2.

(** C7 as stated fails on the first call.  After a successful [Init] with
    double buffering the display still scans out from line 0, the top half
    of the mapping, and the first [SendData] copies the frame to offset 0:
    the half being written is the half on display. *)
Lemma first_SendData_writes_displayed_half :
  (Init driver_ok base_ok cfg_2x2 (FBMatrixOutput_new 1 12) display0).1.1 = 1 /\
  m_isDoubleBuffered sink_2x2 = true /\
  yoffset (disp_var display_2x2) = 0 /\
  displayed_offset sink_2x2 display_2x2 = 0 /\
  SendData_target sink_2x2 = displayed_offset sink_2x2 display_2x2 /\
  disp_log (SendData driver_ok sink_2x2 display_2x2).2 =
    disp_log display_2x2 ++
    [SysMemcpy 0 (replicate 12 0); SysPan 3 (set_yoffset (mode_2x2 4) 0) true] /\
  ~ (forall n,
        let sn := (send_frames driver_ok n sink_2x2 display_2x2).1 in
        let dn := (send_frames driver_ok n sink_2x2 display_2x2).2 in
        SendData_target sn <> displayed_offset sn dn).
Proof.
  by_evaluation.
  intros H. apply (H 0%nat). vm_compute. reflexivity.
Qed.

Lemma SendData_alternates_halves_witness :
  let sn := (send_frames driver_ok 3 sink_2x2 display_2x2).1 in
  let dn := (send_frames driver_ok 3 sink_2x2 display_2x2).2 in
  let s' := (SendData driver_ok sn dn).1.2 in
  let d' := (SendData driver_ok sn dn).2 in
  m_isDoubleBuffered sink_2x2 = true /\
  0 < m_screenSize sink_2x2 /\
  (forall fd v, drv_pan driver_ok fd v = true) /\
  m_screenSize sink_2x2 = yres (m_vInfo sink_2x2) * m_lineLength sink_2x2 /\
  SendData_target sn = 12 /\
  SendData_target s' <> SendData_target sn /\
  displayed_offset s' d' = SendData_target sn /\
  SendData_target s' <> displayed_offset s' d'.
Proof.
  intros sn dn s' d'.
  assert (Hdb : m_isDoubleBuffered sink_2x2 = true) by (vm_compute; reflexivity).
  assert (Hpos : 0 < m_screenSize sink_2x2) by (vm_compute; reflexivity).
  assert (Hpan : forall fd v, drv_pan driver_ok fd v = true) by reflexivity.
  assert (Hsize : m_screenSize sink_2x2 = yres (m_vInfo sink_2x2) * m_lineLength sink_2x2)
    by (vm_compute; reflexivity).
  destruct (SendData_alternates_halves driver_ok sink_2x2 display_2x2 3) as [H _].
  destruct (H Hdb Hpos) as (T & Hne & _ & Hshow).
  destruct (Hshow Hpan Hsize) as [Hd Hnd].
  repeat split; assumption.
Defined.




Lemma first_SendData_after_Init_witness :
  let r := Init driver_ok base_ok cfg_2x2 (FBMatrixOutput_new 1 12) display0 in
  m_topFrame r.1.2 = true /\
  SendData_target r.1.2 = 0 /\
  displayed_offset r.1.2 r.2 = 0.
Proof.
  apply (first_SendData_after_Init driver_ok base_ok cfg_2x2 1 12 display0).
  - vm_compute. discriminate.
  - reflexivity.
Defined.

(** The same matrix on /dev/fb0, where [Init] also takes the console. *)
Definition cfg_fb0 : Config :=
  {| cfg_width := 2; cfg_height := 2; cfg_colorOrder := "RGB"; cfg_invert := 0;
     cfg_device := "fb0"; cfg_scaling := None |}.

Example Init_Close_fb0 :
  let r := Init driver_ok base_ok cfg_fb0 (FBMatrixOutput_new 1 12) display0 in
  let c := Close driver_ok 0 r.1.2 r.2 in
  disp_log c.2 =
    [SysOpen "/dev/fb0" 3; SysGetVar 3 true; SysPutVar 3 (mode_2x2 4) true;
     SysGetFix 3 true; SysOpen "/dev/console" 4; SysSetConsole 4 KD_GRAPHICS;
     SysMmap 3 24 true;
     SysMunmap 24; SysSetConsole 4 KD_TEXT; SysClose 4;
     SysPutVar 3 (disp_var display0) true; SysClose 3].
Proof. cbv zeta. by_evaluation. Qed.

Lemma Init_then_Close_witness :
  let r := Init driver_ok base_ok cfg_fb0 (FBMatrixOutput_new 1 12) display0 in
  let c := Close driver_ok 0 r.1.2 r.2 in
  r.1.1 <> 0 /\
  disp_var r.2 <> disp_var display0 /\
  disp_var c.2 = disp_var display0.
Proof.
  intros r c.
  assert (Hok : r.1.1 <> 0) by (vm_compute; discriminate).
  destruct (Init_then_Close driver_ok base_ok 0 cfg_fb0 1 12 display0 Hok)
    as (_ & _ & _ & Hfb0 & _).
  destruct (Hfb0 eq_refl) as [_ Hv].
  split; [exact Hok|]. split; [vm_compute; discriminate|].
  exact (Hv eq_refl).
Defined.

(** The same display at 16 bits per pixel, its bit fields not yet set. *)
Definition display16 : Display :=
  {| disp_var := {| xres := 640; yres := 480; xres_virtual := 640; yres_virtual := 480;
                    yoffset := 0; bits_per_pixel := 16;
                    red := zero_bitfield; green := zero_bitfield; blue := zero_bitfield;
                    transp := zero_bitfield |};
     disp_log := [] |}.

Lemma Init_builds_rgb565map_witness :
  let r := Init driver_ok base_ok cfg_2x2 (FBMatrixOutput_new 1 12) display16 in
  let cube := rgb565_entry (m_vInfo r.1.2) in
  red (m_vInfo r.1.2) = {| bf_offset := 11; bf_length := 5 |} /\
  m_rgb565map r.1.2 = Some cube /\
  cube 31 0 0 = 63488 /\ cube 0 63 0 = 2016 /\ cube 0 0 31 = 31.
Proof.
  intros r cube.
  assert (Hok : r.1.1 <> 0) by (vm_compute; intros H; discriminate H).
  assert (Hr : red (m_vInfo r.1.2) = {| bf_offset := 11; bf_length := 5 |})
    by (vm_compute; reflexivity).
  assert (Hg : green (m_vInfo r.1.2) = {| bf_offset := 5; bf_length := 6 |})
    by (vm_compute; reflexivity).
  assert (Hb : blue (m_vInfo r.1.2) = {| bf_offset := 0; bf_length := 5 |})
    by (vm_compute; reflexivity).
  destruct (Init_builds_rgb565map driver_ok base_ok cfg_2x2 1 12 display16 Hok)
    as (_ & _ & H16 & _).
  destruct (H16 eq_refl) as (Hc & Hall).
  specialize (Hall Hr Hg Hb).
  split; [exact Hr|]. split; [exact Hc|].
  split; [apply (Hall 31 0 0); lia|].
  split; [apply (Hall 0 63 0); lia|apply (Hall 0 0 31); lia].
Defined.

(** A driver that refuses every mapping. *)
Definition driver_nomap : Driver :=
  {| drv_open := fun path => if String.eqb path "/dev/console" then 4 else 3;
     drv_get_var := fun _ => true;
     drv_put_var := fun _ _ => true;
     drv_get_fix := fun _ v => Some {| line_length := xres v * 3 |};
     drv_mmap := fun _ _ => false;
     drv_pan := fun _ _ => true;
     drv_heap := fun _ => 0 |}.

Example Init_fb0_mapping_refused :
  let r := Init driver_nomap base_ok cfg_fb0 (FBMatrixOutput_new 1 12) display0 in
  r.1.1 = 0 /\
  disp_var r.2 = disp_var display0 /\
  disp_log r.2 =
    [SysOpen "/dev/fb0" 3; SysGetVar 3 true; SysPutVar 3 (mode_2x2 4) true;
     SysGetFix 3 true; SysOpen "/dev/console" 4; SysSetConsole 4 KD_GRAPHICS;
     SysMmap 3 24 false; SysMmap 3 12 false;
     SysPutVar 3 (disp_var display0) true; SysClose 3].
Proof. cbv zeta. by_evaluation. Qed.

Lemma Init_failure_cleanup_witness :
  let r := Init driver_nomap base_ok cfg_fb0 (FBMatrixOutput_new 1 12) display0 in
  r.1.1 = 0 /\
  exists l, disp_log r.2 = disp_log display0 ++ SysOpen "/dev/fb0" 3 :: l ++ [SysClose 3].
Proof.
  intros r.
  assert (H0 : r.1.1 = 0) by (vm_compute; reflexivity).
  assert (Hb : base_ok cfg_fb0 <> 0) by (vm_compute; discriminate).
  destruct (Init_failure_cleanup driver_nomap base_ok cfg_fb0 (FBMatrixOutput_new 1 12)
              display0 H0 Hb) as (_ & H & _).
  split; [exact H0|]. apply H. vm_compute. discriminate.
Defined.

Lemma Init_then_GetRequiredChannelRanges_witness :
  let r := Init driver_ok base_ok cfg_2x2 (FBMatrixOutput_new 1 12) display0 in
  GetRequiredChannelRanges r.1.2 = (1, 12) /\
  (GetRequiredChannelRanges r.1.2).2 - (GetRequiredChannelRanges r.1.2).1 + 1 = 12.
Proof.
  apply (Init_then_GetRequiredChannelRanges driver_ok base_ok cfg_2x2
           (FBMatrixOutput_new 1 12) display0).
  all: vm_compute; repeat split; first [reflexivity | intro; discriminate].
Defined.

(** *** Concrete frames *)

(** The 2x2 matrix with channel data in the framebuffer's own order. *)
Definition cfg_bgr : Config :=
  {| cfg_width := 2; cfg_height := 2; cfg_colorOrder := "BGR"; cfg_invert := 0;
     cfg_device := "fb1"; cfg_scaling := None |}.

(** The same, upside down. *)
Definition cfg_bgr_inverted : Config :=
  {| cfg_width := 2; cfg_height := 2; cfg_colorOrder := "BGR"; cfg_invert := 1;
     cfg_device := "fb1"; cfg_scaling := None |}.

Definition sink_bgr : FBMatrixOutput :=
  Eval vm_compute in
    (Init driver_ok base_ok cfg_bgr (FBMatrixOutput_new 0 12) display0).1.2.
Definition sink_bgr_inverted : FBMatrixOutput :=
  Eval vm_compute in
    (Init driver_ok base_ok cfg_bgr_inverted (FBMatrixOutput_new 0 12) display0).1.2.
Definition sink_rgb : FBMatrixOutput :=
  Eval vm_compute in
    (Init driver_ok base_ok cfg_2x2 (FBMatrixOutput_new 0 12) display0).1.2.
Definition sink_565 : FBMatrixOutput :=
  (Init driver_ok base_ok cfg_2x2 (FBMatrixOutput_new 0 12) display16).1.2.

(** The mode [Init] puts [display16] into. *)
Definition mode_565 : fb_var_screeninfo :=
  set_rgb565 (set_geometry (disp_var display16) 2 2 2 4).

Example sinks_from_Init :
  (Init driver_ok base_ok cfg_bgr (FBMatrixOutput_new 0 12) display0).1.2 = sink_bgr /\
  (Init driver_ok base_ok cfg_bgr_inverted (FBMatrixOutput_new 0 12) display0).1.2
    = sink_bgr_inverted /\
  (Init driver_ok base_ok cfg_2x2 (FBMatrixOutput_new 0 12) display0).1.2 = sink_rgb /\
  m_rgb565map sink_565 = Some (rgb565_entry mode_565).
Proof.
  split; [vm_compute; reflexivity|]. split; [vm_compute; reflexivity|].
  split; [vm_compute; reflexivity|]. lazy -[rgb565_entry]. reflexivity.
Qed.

(** Four pixels: red, green, blue, white. *)
Definition four_pixels : list Z := [255; 0; 0; 0; 255; 0; 0; 0; 255; 255; 255; 255].

Example PrepData_frames :
  PrepData_frame sink_bgr four_pixels
    = Some [255; 0; 0; 0; 255; 0; 0; 0; 255; 255; 255; 255] /\
  PrepData_frame sink_bgr_inverted four_pixels
    = Some [0; 0; 255; 255; 255; 255; 255; 0; 0; 0; 255; 0] /\
  PrepData_frame sink_rgb four_pixels
    = Some [0; 0; 255; 0; 255; 0; 255; 0; 0; 255; 255; 255] /\
  PrepData_frame sink_565 four_pixels
    = Some [0; 248; 224; 7; 0; 0; 31; 0; 255; 255; 0; 0].
Proof. by_evaluation. Qed.

Ltac by_computation :=
  vm_compute;
  repeat match goal with |- _ /\ _ => split end;
  first [ reflexivity | let H := fresh in intro H; discriminate H ].

(** Replaces the closed index and value of a lookup by what they evaluate
    to. *)
Ltac evaluate_lookup P :=
  match type of P with
  | ?f !! ?i = Some ?v =>
      let i' := eval vm_compute in i in
      let v' := eval vm_compute in v in
      let Ei := fresh in
      let Ev := fresh in
      assert (Ei : i = i') by (vm_compute; reflexivity);
      assert (Ev : v = v') by (vm_compute; reflexivity);
      rewrite Ei, Ev in P; clear Ei Ev
  end.

Lemma PrepData_copies_rows_witness :
  exists f,
    PrepData sink_bgr_inverted four_pixels = Some (with_frame sink_bgr_inverted f) /\
    f !! 1%nat = Some 0 /\ f !! 6%nat = Some 255.
Proof.
  assert (H1 : m_frame sink_bgr_inverted = Some (replicate 12 0)) by reflexivity.
  assert (H2 : m_bpp sink_bgr_inverted <> 16) by by_computation.
  assert (H3 : m_bpp sink_bgr_inverted <> 32) by by_computation.
  assert (H4 : m_useRGB sink_bgr_inverted = false) by reflexivity.
  assert (H5 : m_scaling sink_bgr_inverted <> SOFTWARE) by by_computation.
  assert (H6 : 0 <= m_width sink_bgr_inverted) by by_computation.
  assert (H7 : 0 <= m_height sink_bgr_inverted <= INT_MAX) by by_computation.
  assert (H8 : 3 * m_width sink_bgr_inverted <= m_lineLength sink_bgr_inverted <= INT_MAX)
    by by_computation.
  assert (H9 : m_height sink_bgr_inverted * m_lineLength sink_bgr_inverted
               <= Z.of_nat (length (replicate 12 0))) by by_computation.
  assert (H10 : Z.of_nat (length (replicate 12 0)) <= INT_MAX) by by_computation.
  destruct (PrepData_copies_rows sink_bgr_inverted four_pixels (replicate 12 0)
              H1 H2 H3 H4 H5 H6 H7 H8 H9 H10) as (f & E & _ & Hpix & _).
  assert (A0 : 0 <= 0 < m_height sink_bgr_inverted) by by_computation.
  assert (A1 : 0 <= 1 < m_height sink_bgr_inverted) by by_computation.
  assert (B0 : 0 <= 0 < 3 * m_width sink_bgr_inverted) by by_computation.
  assert (B1 : 0 <= 1 < 3 * m_width sink_bgr_inverted) by by_computation.
  pose proof (Hpix 1 1 A1 B1) as P1. evaluate_lookup P1.
  pose proof (Hpix 0 0 A0 B0) as P0. evaluate_lookup P0.
  exists f. split; [exact E|]. split; [exact P1|exact P0].
Defined.

Lemma PrepData_places_channels_witness :
  exists f,
    PrepData sink_rgb four_pixels = Some (with_frame sink_rgb f) /\
    f !! 2%nat = Some 255 /\ f !! 1%nat = Some 0 /\ f !! 0%nat = Some 0.
Proof.
  assert (H1 : m_frame sink_rgb = Some (replicate 12 0)) by reflexivity.
  assert (H2 : (m_bpp sink_rgb = 24 /\ m_useRGB sink_rgb = true) \/ m_bpp sink_rgb = 32)
    by (left; split; reflexivity).
  assert (H3 : m_scaling sink_rgb <> SOFTWARE) by by_computation.
  assert (H4 : 0 < m_width sink_rgb) by by_computation.
  assert (H5 : 0 < m_height sink_rgb) by by_computation.
  assert (H6 : m_width sink_rgb * (m_bpp sink_rgb / 8) <= m_lineLength sink_rgb)
    by by_computation.
  assert (H7 : m_height sink_rgb * m_lineLength sink_rgb
               <= Z.of_nat (length (replicate 12 0))) by by_computation.
  assert (H8 : Z.of_nat (length (replicate 12 0)) <= INT_MAX) by by_computation.
  destruct (PrepData_places_channels sink_rgb four_pixels (replicate 12 0)
              H1 H2 H3 H4 H5 H6 H7 H8) as (f & E & _ & Hpix & _).
  assert (A0 : 0 <= 0 < m_height sink_rgb) by by_computation.
  assert (B0 : 0 <= 0 < m_width sink_rgb) by by_computation.
  destruct (Hpix 0 0 A0 B0) as (P0 & P1 & P2).
  evaluate_lookup P0. evaluate_lookup P1. evaluate_lookup P2.
  exists f. split; [exact E|]. split; [exact P0|]. split; [exact P1|exact P2].
Defined.

Lemma PrepData_packs_rgb565_witness :
  exists f,
    PrepData sink_565 four_pixels = Some (with_frame sink_565 f) /\
    f !! 0%nat = Some 0 /\ f !! 1%nat = Some 248.
Proof.
  assert (H1 : m_frame sink_565 = Some (replicate 12 0)) by (vm_compute; reflexivity).
  assert (H2 : m_bpp sink_565 = 16) by (vm_compute; reflexivity).
  assert (H3 : m_rgb565map sink_565 = Some (rgb565_entry mode_565))
    by (lazy -[rgb565_entry]; reflexivity).
  assert (H4 : forall b g r, 0 <= b < 32 -> 0 <= g < 64 -> 0 <= r < 32 ->
                 rgb565_entry mode_565 b g r = b * 2048 + g * 32 + r)
    by (intros b g r; apply rgb565_entry_packed; reflexivity).
  assert (H5 : Forall (fun b => 0 <= b < 256) four_pixels)
    by (repeat constructor; intro; discriminate).
  assert (H6 : m_scaling sink_565 <> SOFTWARE) by by_computation.
  assert (H7 : 0 <= m_width sink_565) by by_computation.
  assert (H8 : 0 <= m_height sink_565 <= INT_MAX) by by_computation.
  assert (H9 : 2 * m_width sink_565 <= m_lineLength sink_565) by by_computation.
  assert (H10 : m_height sink_565 * m_lineLength sink_565
                <= Z.of_nat (length (replicate 12 0))) by by_computation.
  assert (H11 : Z.of_nat (length (replicate 12 0)) <= INT_MAX) by by_computation.
  destruct (PrepData_packs_rgb565 sink_565 (rgb565_entry mode_565)
              four_pixels (replicate 12 0) H1 H2 H3 H4 H5 H6 H7 H8 H9 H10 H11)
    as (f & E & _ & Hpix & _).
  assert (A0 : 0 <= 0 < m_height sink_565) by by_computation.
  assert (B0 : 0 <= 0 < m_width sink_565) by by_computation.
  destruct (Hpix 0 0 A0 B0) as (P0 & P1).
  evaluate_lookup P0. evaluate_lookup P1.
  exists f. split; [exact E|]. split; [exact P0|exact P1].
Defined.

Lemma PrepData_then_SendData_witness :
  exists f pan,
    disp_log (SendData driver_ok (with_frame sink_rgb f) display_2x2).2
    = disp_log display_2x2 ++ SysMemcpy (SendData_target sink_rgb) f :: pan.
Proof.
  assert (H : PrepData sink_rgb four_pixels
              = Some (with_frame sink_rgb [0; 0; 255; 0; 255; 0; 255; 0; 0; 255; 255; 255]))
    by (vm_compute; reflexivity).
  destruct (PrepData_then_SendData driver_ok sink_rgb _ four_pixels display_2x2 H)
    as (f & Es & _ & Hsend).
  assert (Ef : f = [0; 0; 255; 0; 255; 0; 255; 0; 0; 255; 255; 255]).
  { apply (f_equal m_frame) in Es. cbn [m_frame with_frame] in Es. congruence. }
  assert (Hlen : length f = Z.to_nat (m_screenSize sink_rgb)) by (rewrite Ef; reflexivity).
  destruct (Hsend Hlen) as (pan & Hlog & _).
  exists f, pan. rewrite <- Es. exact Hlog.
Defined.

End FBMatrix.

(** ** Spixels pixel-bus sink (src/channeloutput/spixels.cpp) *)

Module Spixels.
Import CInt.

(** The members of [PixelString] (PixelString.h, outside the sources) this
    file reads: the number of output channels, the channel each output
    position takes its byte from, and one 256-entry brightness table per
    output position. *)
Record PixelString : Type := {
  m_outputChannels : Z;
  m_outputMap : list Z;
  m_brightnessMaps : list (list Z)
}.

(** [RGBc(r, g, b)] of the spixels library: three 8-bit components. *)
Record RGBc : Type := { rgb_r : Z; rgb_g : Z; rgb_b : Z }.

(** One call [m_strips[s]->SetPixel(pix, c)]. *)
Record SetPixelCall : Type := { sp_strip : nat; sp_pix : nat; sp_color : RGBc }.

Inductive Protocol : Type := WS2801 | APA102 | LPD6803 | LPD8806.

(** What [Create...Strip(m_spi, connector, pixels)] was asked for. *)
Record LEDStrip : Type := {
  strip_protocol : Protocol;
  strip_connector : Z;
  strip_count : Z
}.

(** One entry of [config["outputs"]]: its protocol and port number, and the
    string [PixelString::Init] makes of it ([None] when that fails). *)
Record OutputConfig : Type := {
  out_protocol : string;
  out_portNumber : Z;
  out_string : option PixelString
}.

Record SpixelsOutput : Type := {
  m_channelCount : Z;
  m_spi : bool;                        (* whether the MultiSPI driver exists *)
  m_strings : list PixelString;
  m_strips : list LEDStrip
}.

Definition SpixelsOutput_new (startChannel channelCount : Z) : SpixelsOutput :=
  {| m_channelCount := uint32 channelCount; m_spi := false;
     m_strings := []; m_strips := [] |}.

(** [toLower] (common.h, outside the sources) on ASCII letters. *)
Definition lower_ascii (c : Ascii.ascii) : Ascii.ascii :=
  let n := Ascii.nat_of_ascii c in
  if (65 <=? n)%nat && (n <=? 90)%nat then Ascii.ascii_of_nat (n + 32) else c.

Fixpoint toLower (s : string) : string :=
  match s with
  | EmptyString => EmptyString
  | String c s => String (lower_ascii c) (toLower s)
  end.

(** The strip constructor [Init] picks for a protocol name. *)
Definition protocol_of (name : string) : option Protocol :=
  let protocol := toLower name in
  if String.eqb protocol "ws2801" then Some WS2801
  else if String.eqb protocol "apa102" then Some APA102
  else if String.eqb protocol "lpd6803" then Some LPD6803
  else if String.eqb protocol "lpd8806" then Some LPD8806
  else None.

Section Sink.

(** [MultiSPI::SPI_P1] .. [MultiSPI::SPI_P16] (spixels library), by number. *)
Variable SPI_P : Z -> Z.

(** [FPPD_MAX_CHANNELS] (outside the sources). *)
Variable FPPD_MAX_CHANNELS : Z.

(** [ThreadedChannelOutput::Init(config)] (outside the sources). *)
Variable ThreadedChannelOutput_Init : list OutputConfig -> Z.

(** *** Init *)

(** The [switch] on the port number: ports 0..15 name connectors 1..16, any
    other number leaves [connector] at 0. *)
Definition connector_of (portNumber : Z) : Z :=
  if (0 <=? portNumber) && (portNumber <=? 15) then SPI_P (portNumber + 1) else 0.

(** The second loop of [Init] over the outputs; [false] is [return 0]. *)
Fixpoint Init_outputs (outputs : list OutputConfig) (s : SpixelsOutput)
  : bool * SpixelsOutput :=
  match outputs with
  | [] => (true, s)
  | o :: outputs =>
      match out_string o with
      | None => (false, s)
      | Some newString =>
          let pixels := int32 (Z.quot (m_outputChannels newString) 3) in
          if pixels =? 0 then Init_outputs outputs s
          else
            match protocol_of (out_protocol o) with
            | None => (false, s)
            | Some protocol =>
                Init_outputs outputs
                  {| m_channelCount := m_channelCount s; m_spi := m_spi s;
                     m_strings := m_strings s ++ [newString];
                     m_strips := m_strips s ++
                       [{| strip_protocol := protocol;
                           strip_connector := connector_of (out_portNumber o);
                           strip_count := pixels |}] |}
            end
      end
  end.

Definition Init (outputs : list OutputConfig) (s : SpixelsOutput) : Z * SpixelsOutput :=
  let s := {| m_channelCount := m_channelCount s; m_spi := true;
              m_strings := m_strings s; m_strips := m_strips s |} in
  let '(ok, s) := Init_outputs outputs s in
  if ok then (ThreadedChannelOutput_Init outputs, s) else (0, s).

(** *** GetRequiredChannelRanges *)

(** Body of [for (int p = 0; p < ps->m_outputChannels; p++)] on
    [(min, max, inCh)]. *)
Definition range_body (ps : PixelString) (p : nat) (st : Z * Z * nat) : Z * Z * nat :=
  let '(min, max, inCh) := st in
  let ch := m_outputMap ps !!! inCh in
  if ch <? FPPD_MAX_CHANNELS
  then (Z.min min ch, Z.max max ch, S inCh)
  else (min, max, S inCh).

Definition range_scan (ps : PixelString) : Z * Z * nat :=
  for_loop (range_body ps) 0 (Z.to_nat (m_outputChannels ps)) (FPPD_MAX_CHANNELS, 0, 0%nat).

(** The range [addRange] is called with for one string, if it is. *)
Definition string_range (ps : PixelString) : option (Z * Z) :=
  let '(min, max, _) := range_scan ps in
  if min <? max then Some (min, max) else None.

(** The calls to [addRange], in order. *)
Definition GetRequiredChannelRanges (s : SpixelsOutput) : list (Z * Z) :=
  omap string_range (m_strings s).

(** *** PrepData *)

(** [ps->m_brightnessMaps[p][channelData[ps->m_outputMap[inCh]]]].  The
    output map, the brightness maps and their tables hold as many entries as
    the lists do, the channel buffer as many bytes as [channelData]: a read
    outside any of them has no defined result, [None]. *)
Definition mapped_byte (ps : PixelString) (channelData : list Z) (p inCh : nat) : option Z :=
  ch ← m_outputMap ps !! inCh;
  c ← (if ch <? 0 then None else channelData !! Z.to_nat ch);
  table ← m_brightnessMaps ps !! p;
  if c <? 0 then None else table !! Z.to_nat c.

(** [for (int p = 0, pix = 0; p < ps->m_outputChannels; pix++)]: each
    round takes three output positions, whatever is left of
    [m_outputChannels], and calls [m_strips[s]->SetPixel].  [fuel] bounds
    the rounds; running out of it gives [None] as well. *)
Fixpoint pixel_loop (fuel : nat) (o : SpixelsOutput) (ps : PixelString)
    (channelData : list Z) (s : nat) (p pix inCh : nat) : option (list SetPixelCall) :=
  if Z.of_nat p <? m_outputChannels ps then
    match fuel with
    | O => None
    | S fuel =>
        r ← mapped_byte ps channelData p inCh;
        g ← mapped_byte ps channelData (p + 1) (inCh + 1);
        b ← mapped_byte ps channelData (p + 2) (inCh + 2);
        _ ← m_strips o !! s;
        calls ← pixel_loop fuel o ps channelData s (p + 3) (pix + 1) (inCh + 3);
        Some ({| sp_strip := s; sp_pix := pix;
                 sp_color := {| rgb_r := uchar r; rgb_g := uchar g; rgb_b := uchar b |} |}
              :: calls)
    end
  else Some [].

(** The calls [PrepData] makes for string [s]; the loop ends within
    [m_outputChannels] rounds. *)
Definition PrepData_string (o : SpixelsOutput) (channelData : list Z) (s : nat)
    (ps : PixelString) : option (list SetPixelCall) :=
  pixel_loop (Z.to_nat (m_outputChannels ps)) o ps channelData s 0 0 0.

(** [for (int s = 0; s < m_strings.size(); s++)], from string [s] on. *)
Fixpoint string_loop (o : SpixelsOutput) (channelData : list Z) (s : nat)
    (strings : list PixelString) : option (list SetPixelCall) :=
  match strings with
  | [] => Some []
  | ps :: strings =>
      calls ← PrepData_string o channelData s ps;
      rest ← string_loop o channelData (S s) strings;
      Some (calls ++ rest)
  end.

(** The [SetPixel] calls of [PrepData], in order; [None] when a read is out
    of bounds. *)
Definition PrepData (o : SpixelsOutput) (channelData : list Z) : option (list SetPixelCall) :=
  string_loop o channelData 0 (m_strings o).

(** *** RawSendData *)

(** Whether [m_spi->SendBuffers()] is called, and the value returned. *)
Definition RawSendData (o : SpixelsOutput) : bool * Z :=
  (m_spi o, int32 (m_channelCount o)).

(** *** Notions the properties are stated with *)

(** The channel output position [i] of a string reads. *)
Definition channel_of (ps : PixelString) (i : nat) : Z := m_outputMap ps !!! i.

(** Position [i] is one the scan looks at and keeps. *)
Definition referenced (ps : PixelString) (i : nat) : Prop :=
  (i < Z.to_nat (m_outputChannels ps))%nat /\ channel_of ps i < FPPD_MAX_CHANNELS.

(** The pixel count [Init] computes for a string. *)
Definition pixels_of (ps : PixelString) : Z := int32 (Z.quot (m_outputChannels ps) 3).

(** A string and the strip made for it. *)
Definition paired (ps : PixelString) (strip : LEDStrip) : Prop :=
  strip_count strip = pixels_of ps /\ strip_count strip <> 0.

(** An output that makes [Init] return 0 when the loop reaches it. *)
Definition rejected (o : OutputConfig) : bool :=
  match out_string o with
  | None => true
  | Some ps =>
      negb (pixels_of ps =? 0) &&
      match protocol_of (out_protocol o) with Some _ => false | None => true end
  end.

(** The string and the strip an output adds, if it adds any. *)
Definition contributes (o : OutputConfig) : option (PixelString * LEDStrip) :=
  match out_string o, protocol_of (out_protocol o) with
  | Some ps, Some protocol =>
      if pixels_of ps =? 0 then None
      else Some (ps, {| strip_protocol := protocol;
                        strip_connector := connector_of (out_portNumber o);
                        strip_count := pixels_of ps |})
  | _, _ => None
  end.

(** Rounds of the pixel loop for a string: a third of its output channels,
    rounded up. *)
Definition rounds (ps : PixelString) : nat := Z.to_nat ((m_outputChannels ps + 2) / 3).

(** What round [pix] of the loop does for string [s]: its three reads and
    its call. *)
Definition round_call (o : SpixelsOutput) (ps : PixelString) (channelData : list Z)
    (s pix : nat) : option SetPixelCall :=
  r ← mapped_byte ps channelData (3 * pix) (3 * pix);
  g ← mapped_byte ps channelData (3 * pix + 1) (3 * pix + 1);
  b ← mapped_byte ps channelData (3 * pix + 2) (3 * pix + 2);
  _ ← m_strips o !! s;
  Some {| sp_strip := s; sp_pix := pix;
          sp_color := {| rgb_r := uchar r; rgb_g := uchar g; rgb_b := uchar b |} |}.

(** The reads for the output positions below [m_outputChannels] are in
    bounds: the output map and the brightness maps have an entry for each
    of them, the mapped channels lie in the channel buffer and every table
    has an entry for every byte. *)
Definition in_bounds (ps : PixelString) (channelData : list Z) : Prop :=
  (Z.to_nat (m_outputChannels ps) <= length (m_outputMap ps))%nat /\
  (Z.to_nat (m_outputChannels ps) <= length (m_brightnessMaps ps))%nat /\
  Forall (fun ch => 0 <= ch < Z.of_nat (length channelData)) (m_outputMap ps) /\
  Forall (fun table => length table = 256%nat) (m_brightnessMaps ps).

(** The byte output position [i] sends, for a read that is in bounds: the
    byte of the mapped channel, looked up in the position's table. *)
Definition byte_at (ps : PixelString) (channelData : list Z) (i : nat) : Z :=
  (m_brightnessMaps ps !!! i) !!! Z.to_nat (channelData !!! Z.to_nat (m_outputMap ps !!! i)).

(** The call for pixel [pix] of string [s]. *)
Definition call_for (ps : PixelString) (channelData : list Z) (s pix : nat) : SetPixelCall :=
  {| sp_strip := s; sp_pix := pix;
     sp_color :=
       {| rgb_r := uchar (byte_at ps channelData (3 * pix));
          rgb_g := uchar (byte_at ps channelData (3 * pix + 1));
          rgb_b := uchar (byte_at ps channelData (3 * pix + 2)) |} |}.

(** *** Channel ranges *)

Record scan_inv (ps : PixelString) (x : nat) (st : Z * Z * nat) : Prop := {
  si_inCh : st.2 = x;
  si_min_le : st.1.1 <= FPPD_MAX_CHANNELS;
  si_max_ge : 0 <= st.1.2;
  si_cover : forall i, (i < x)%nat -> channel_of ps i < FPPD_MAX_CHANNELS ->
             st.1.1 <= channel_of ps i <= st.1.2;
  si_min : st.1.1 = FPPD_MAX_CHANNELS \/
           exists i, (i < x)%nat /\ channel_of ps i < FPPD_MAX_CHANNELS /\
                     st.1.1 = channel_of ps i;
  si_max : st.1.2 = 0 \/
           exists i, (i < x)%nat /\ channel_of ps i < FPPD_MAX_CHANNELS /\
                     st.1.2 = channel_of ps i
}.

Lemma scan_inv_step ps x st :
  scan_inv ps x st -> scan_inv ps (S x) (range_body ps x st).
Proof.
  destruct st as [[mn mx] inCh]. intros [Hi Hmn Hmx Hc Hlo Hhi]. cbn [fst snd] in *.
  subst inCh. unfold range_body. fold (channel_of ps x).
  destruct (Z.ltb_spec (channel_of ps x) FPPD_MAX_CHANNELS) as [Hv|Hv].
  - split; cbn [fst snd].
    + reflexivity.
    + lia.
    + lia.
    + intros i Hix Hvi. destruct (decide (i = x)) as [->|Hne]; [lia|].
      specialize (Hc i ltac:(lia) Hvi). lia.
    + destruct (Z.min_spec mn (channel_of ps x)) as [[_ ->]|[_ ->]].
      * destruct Hlo as [->|(i & Hix & Hvi & ->)]; [lia|].
        right. exists i. repeat split; auto; lia.
      * right. exists x. repeat split; auto; lia.
    + destruct (Z.max_spec mx (channel_of ps x)) as [[_ ->]|[_ ->]].
      * right. exists x. repeat split; auto; lia.
      * destruct Hhi as [->|(i & Hix & Hvi & ->)]; [now left|].
        right. exists i. repeat split; auto; lia.
  - split; cbn [fst snd].
    + reflexivity.
    + lia.
    + lia.
    + intros i Hix Hvi. destruct (decide (i = x)) as [->|Hne]; [lia|].
      apply Hc; [lia|exact Hvi].
    + destruct Hlo as [->|(i & Hix & Hvi & ->)]; [now left|].
      right. exists i. repeat split; auto; lia.
    + destruct Hhi as [->|(i & Hix & Hvi & ->)]; [now left|].
      right. exists i. repeat split; auto; lia.
Qed.

Lemma range_scan_inv ps :
  scan_inv ps (Z.to_nat (m_outputChannels ps)) (range_scan ps).
Proof.
  unfold range_scan.
  apply (for_loop_invariant (scan_inv ps) (range_body ps)
           (Z.to_nat (m_outputChannels ps)) 0%nat).
  - split; cbn [fst snd]; try reflexivity; try lia; try (now left);
      try (intros i Hi; lia).
  - intros i st _. apply scan_inv_step.
Qed.

Lemma string_range_Some ps lo hi :
  string_range ps = Some (lo, hi) ->
  lo < hi /\ (range_scan ps).1.1 = lo /\ (range_scan ps).1.2 = hi.
Proof.
  unfold string_range. destruct (range_scan ps) as [[mn mx] inCh]. cbn [fst snd].
  destruct (Z.ltb_spec mn mx); [|discriminate]. intros [= <- <-]. auto.
Qed.

Lemma string_range_None ps :
  string_range ps = None <-> (range_scan ps).1.2 <= (range_scan ps).1.1.
Proof.
  unfold string_range. destruct (range_scan ps) as [[mn mx] inCh]. cbn [fst snd].
  destruct (Z.ltb_spec mn mx); split; intros; try discriminate; try reflexivity; lia.
Qed.

(** X3. Every range [GetRequiredChannelRanges] reports comes from one of the
    sink's strings, has min < max, and contains every channel below
    [FPPD_MAX_CHANNELS] that the string's output map refers to; when the
    mapped channels are non-negative its two ends are themselves mapped
    channels.  Conversely a string that refers to two different channels
    below the limit is reported. *)
Theorem GetRequiredChannelRanges_covers (o : SpixelsOutput) :
  (forall lo hi, (lo, hi) ∈ GetRequiredChannelRanges o ->
     exists ps, ps ∈ m_strings o /\
       lo < hi /\
       (forall i, referenced ps i -> lo <= channel_of ps i <= hi) /\
       (0 <= FPPD_MAX_CHANNELS ->
        (forall i, referenced ps i -> 0 <= channel_of ps i) ->
        (exists i, referenced ps i /\ channel_of ps i = lo) /\
        (exists i, referenced ps i /\ channel_of ps i = hi))) /\
  (forall ps i j, ps ∈ m_strings o -> referenced ps i -> referenced ps j ->
     channel_of ps i < channel_of ps j ->
     exists lo hi, (lo, hi) ∈ GetRequiredChannelRanges o /\
                   lo <= channel_of ps i /\ channel_of ps j <= hi).
Proof.
  split.
  - intros lo hi Hin. unfold GetRequiredChannelRanges in Hin.
    apply list_elem_of_omap in Hin as (ps & Hps & Hr).
    exists ps. split; [exact Hps|].
    apply string_range_Some in Hr as (Hlt & Elo & Ehi).
    destruct (range_scan_inv ps) as [_ Hmn Hmx Hc Hlo Hhi]. rewrite Elo, Ehi in *.
    split; [exact Hlt|]. split.
    + intros i [Hi Hv]. now apply Hc.
    + intros Hmax Hnn.
      assert (Hlo' : exists i, referenced ps i /\ channel_of ps i = lo).
      { destruct Hhi as [->|(i & Hi & Hv & ->)].
        - destruct Hlo as [->|(i & Hi & Hv & ->)]; [lia|].
          exists i. split; [split; assumption|reflexivity].
        - destruct Hlo as [->|(k & Hk & Hvk & ->)]; [lia|].
          exists k. split; [split; assumption|reflexivity]. }
      split; [exact Hlo'|].
      destruct Hhi as [->|(i & Hi & Hv & ->)].
      * destruct Hlo' as (k & Hk & <-). specialize (Hnn k Hk). lia.
      * exists i. split; [split; assumption|reflexivity].
  - intros ps i j Hps [Hi Hvi] [Hj Hvj] Hlt.
    destruct (range_scan_inv ps) as [_ _ _ Hc _ _].
    pose proof (Hc i Hi Hvi) as Bi. pose proof (Hc j Hj Hvj) as Bj.
    destruct (string_range ps) as [[lo hi]|] eqn:Er.
    + exists lo, hi. apply string_range_Some in Er as Hs. destruct Hs as (_ & Elo & Ehi).
      split; [|lia].
      unfold GetRequiredChannelRanges. apply list_elem_of_omap. eauto.
    + apply string_range_None in Er. lia.
Qed.

(** X4. A string whose mapped channels below [FPPD_MAX_CHANNELS] are all one
    and the same non-negative channel, or that has none (no output channel,
    or only channels at or above the limit), is reported no range at all. *)
Theorem single_channel_string_has_no_range (ps : PixelString) (c : Z) :
  0 <= FPPD_MAX_CHANNELS ->
  0 <= c ->
  (forall i, referenced ps i -> channel_of ps i = c) ->
  string_range ps = None.
Proof.
  intros Hmax Hc Hall. apply string_range_None.
  destruct (range_scan_inv ps) as [_ Hmn Hmx Hcov Hlo Hhi].
  destruct Hhi as [->|(i & Hi & Hv & ->)].
  - destruct Hlo as [->|(i & Hi & Hv & ->)]; [lia|].
    rewrite (Hall i (conj Hi Hv)). lia.
  - destruct Hlo as [Hlo|(k & Hk & Hvk & ->)].
    + pose proof (Hcov i Hi Hv). lia.
    + rewrite (Hall i (conj Hi Hv)), (Hall k (conj Hk Hvk)). lia.
Qed.

(** *** Init *)

Lemma contributes_paired o ps strip : contributes o = Some (ps, strip) -> paired ps strip.
Proof.
  unfold contributes. destruct (out_string o) as [ps'|]; [|discriminate].
  destruct (protocol_of (out_protocol o)); [|discriminate].
  destruct (Z.eqb_spec (pixels_of ps') 0); [discriminate|].
  intros [= <- <-]. split; cbn; [reflexivity|assumption].
Qed.

Lemma contributed_paired outputs :
  Forall2 paired (omap contributes outputs).*1 (omap contributes outputs).*2.
Proof.
  induction outputs as [|o outputs IH]; cbn; [constructor|].
  destruct (contributes o) as [[ps strip]|] eqn:E; cbn; [|exact IH].
  constructor; [now apply (contributes_paired o)|exact IH].
Qed.

(** The loop stops at the first rejected output; the outputs before it have
    added their strings and strips. *)
Lemma Init_outputs_spec outputs : forall s,
  exists k,
    (k <= length outputs)%nat /\
    (Init_outputs outputs s).1 = negb (existsb rejected outputs) /\
    (existsb rejected outputs = false -> k = length outputs) /\
    m_spi (Init_outputs outputs s).2 = m_spi s /\
    m_channelCount (Init_outputs outputs s).2 = m_channelCount s /\
    m_strings (Init_outputs outputs s).2
      = m_strings s ++ (omap contributes (take k outputs)).*1 /\
    m_strips (Init_outputs outputs s).2
      = m_strips s ++ (omap contributes (take k outputs)).*2.
Proof.
  induction outputs as [|o outputs IH]; intros s.
  - exists 0%nat. cbn. rewrite !app_nil_r. repeat split; auto.
  - cbn [Init_outputs existsb].
    destruct (out_string o) as [ps|] eqn:Es.
    2:{ assert (Hr : rejected o = true) by (unfold rejected; now rewrite Es).
        exists 0%nat. rewrite Hr. cbn. rewrite !app_nil_r.
        repeat split; auto; try lia; try (intros; discriminate). }
    fold (pixels_of ps).
    destruct (Z.eqb_spec (pixels_of ps) 0) as [Ez|Ez].
    + assert (Hr : rejected o = false).
      { unfold rejected. rewrite Es, Ez. reflexivity. }
      assert (Hc : contributes o = None).
      { unfold contributes. rewrite Es, Ez. now destruct (protocol_of _). }
      destruct (IH s) as (k & Hk & Hok & Hall & A & B & C & D).
      exists (S k). rewrite Hr. cbn [orb take length omap list_omap]. rewrite Hc.
      repeat split; auto; try lia; try (intros H; rewrite (Hall H); reflexivity).
    + destruct (protocol_of (out_protocol o)) as [pr|] eqn:Ep.
      2:{ assert (Hr : rejected o = true).
          { unfold rejected. rewrite Es, Ep.
            destruct (Z.eqb_spec (pixels_of ps) 0); [contradiction|reflexivity]. }
          exists 0%nat. rewrite Hr. cbn. rewrite !app_nil_r.
          repeat split; auto; try lia; try (intros; discriminate). }
      assert (Hr : rejected o = false).
      { unfold rejected. rewrite Es, Ep. apply andb_false_r. }
      assert (Hc : contributes o =
                   Some (ps, {| strip_protocol := pr;
                                strip_connector := connector_of (out_portNumber o);
                                strip_count := pixels_of ps |})).
      { unfold contributes. rewrite Es, Ep.
        destruct (Z.eqb_spec (pixels_of ps) 0); [contradiction|reflexivity]. }
      match goal with |- context [Init_outputs outputs ?s1] =>
        destruct (IH s1) as (k & Hk & Hok & Hall & A & B & C & D) end.
      exists (S k). rewrite Hr. cbn [orb take length omap list_omap]. rewrite Hc.
      cbn [m_spi m_channelCount m_strings m_strips] in A, B, C, D.
      rewrite C, D. cbn [fmap list_fmap fst snd]. rewrite <- !app_assoc.
      repeat split; auto; try lia; try (intros H; rewrite (Hall H); reflexivity).
Qed.

(** X5. Whatever [Init] returns for a newly constructed sink, it leaves
    [m_strings] and [m_strips] paired: they have the same length, and the
    strip at each index was created with as many pixels as a third of the
    channels (rounded towards zero) of the string at that index, never
    zero.  The MultiSPI driver has been created. *)
Theorem Init_pairs_strings_and_strips
    (outputs : list OutputConfig) (startChannel channelCount : Z) :
  let o := (Init outputs (SpixelsOutput_new startChannel channelCount)).2 in
  m_spi o = true /\
  length (m_strings o) = length (m_strips o) /\
  Forall2 paired (m_strings o) (m_strips o).
Proof.
  intros o.
  destruct (Init_outputs_spec outputs
              {| m_channelCount := uint32 channelCount; m_spi := true;
                 m_strings := []; m_strips := [] |})
    as (k & _ & _ & _ & A & _ & C & D).
  assert (E : o = (Init_outputs outputs
                     {| m_channelCount := uint32 channelCount; m_spi := true;
                        m_strings := []; m_strips := [] |}).2).
  { unfold o, Init, SpixelsOutput_new. cbn [m_channelCount m_strings m_strips].
    destruct (Init_outputs outputs _) as [[|] s']; reflexivity. }
  rewrite E, A, C, D. cbn [app m_spi].
  split; [reflexivity|].
  pose proof (contributed_paired (take k outputs)) as HP.
  split; [exact (Forall2_length _ _ _ HP)|exact HP].
Qed.

Lemma lower_ascii_idemp c : lower_ascii (lower_ascii c) = lower_ascii c.
Proof.
  destruct c as [[|] [|] [|] [|] [|] [|] [|] [|]]; vm_compute; reflexivity.
Qed.

Lemma toLower_idemp name : toLower (toLower name) = toLower name.
Proof.
  induction name as [|c name IH]; cbn; [reflexivity|].
  now rewrite lower_ascii_idemp, IH.
Qed.

(** X6. [Init] of a newly constructed sink returns 0 when some output is
    rejected: its string fails to initialise, or it has at least one pixel
    and a protocol name that is none of ws2801, apa102, lpd6803, lpd8806
    in any letter case.  Otherwise it returns what
    [ThreadedChannelOutput::Init] returns and holds one string and one strip
    for each output with at least one pixel, in configuration order.  An
    output whose string has no pixel is passed over before its protocol is
    looked at, so an unknown protocol there is no error. *)
Theorem Init_accepts_or_rejects
    (outputs : list OutputConfig) (startChannel channelCount : Z) :
  let r := Init outputs (SpixelsOutput_new startChannel channelCount) in
  (existsb rejected outputs = true -> r.1 = 0) /\
  (existsb rejected outputs = false ->
   r.1 = ThreadedChannelOutput_Init outputs /\
   m_strings r.2 = (omap contributes outputs).*1 /\
   m_strips r.2 = (omap contributes outputs).*2) /\
  (forall o ps, out_string o = Some ps -> pixels_of ps = 0 ->
     rejected o = false /\ contributes o = None) /\
  (forall name, protocol_of (toLower name) = protocol_of name).
Proof.
  intros r.
  destruct (Init_outputs_spec outputs
              {| m_channelCount := uint32 channelCount; m_spi := true;
                 m_strings := []; m_strips := [] |})
    as (k & _ & Hok & Hall & _ & _ & C & D).
  unfold r, Init, SpixelsOutput_new. cbn [m_channelCount m_strings m_strips].
  destruct (Init_outputs outputs _) as [ok s'] eqn:E. cbn [fst snd] in *.
  split; [|split; [|split]].
  - intros Hr. rewrite Hr in Hok. cbn in Hok. subst ok. reflexivity.
  - intros Hr. rewrite Hr in Hok. cbn in Hok. subst ok. cbn [fst snd].
    rewrite (Hall Hr), firstn_all in C, D. auto.
  - intros o ps Es Ez. unfold rejected, contributes. rewrite Es, Ez. cbn.
    split; [reflexivity|]. now destruct (protocol_of (out_protocol o)).
  - intros name. unfold protocol_of. now rewrite toLower_idemp.
Qed.

(** *** PrepData *)

Lemma rounds_lt ps k :
  (k < rounds ps)%nat <-> Z.of_nat (3 * k) < m_outputChannels ps.
Proof.
  unfold rounds.
  pose proof (Z.div_mod (m_outputChannels ps + 2) 3 ltac:(lia)) as Hd.
  pose proof (Z.mod_pos_bound (m_outputChannels ps + 2) 3 ltac:(lia)) as Hm.
  split; intros H; lia.
Qed.

Lemma rounds_le_channels ps : (rounds ps <= Z.to_nat (m_outputChannels ps))%nat.
Proof.
  unfold rounds.
  pose proof (Z.div_mod (m_outputChannels ps + 2) 3 ltac:(lia)) as Hd.
  pose proof (Z.mod_pos_bound (m_outputChannels ps + 2) 3 ltac:(lia)) as Hm.
  lia.
Qed.

Lemma rounds_exact ps :
  m_outputChannels ps mod 3 = 0 -> rounds ps = Z.to_nat (m_outputChannels ps / 3).
Proof.
  intros H0. unfold rounds. f_equal.
  pose proof (Z.div_mod (m_outputChannels ps) 3 ltac:(lia)) as Hd.
  pose proof (Z.div_mod (m_outputChannels ps + 2) 3 ltac:(lia)) as Hd2.
  pose proof (Z.mod_pos_bound (m_outputChannels ps + 2) 3 ltac:(lia)) as Hm.
  lia.
Qed.

(** The loop is its rounds one after the other, as long as there is fuel
    for them. *)
Lemma pixel_loop_closed o ps channelData s fuel : forall k,
  (rounds ps - k <= fuel)%nat ->
  pixel_loop fuel o ps channelData s (3 * k) k (3 * k)
  = mapM (round_call o ps channelData s) (seq k (rounds ps - k)).
Proof.
  induction fuel as [|fuel IH]; intros k Hf.
  - cbn [pixel_loop].
    destruct (Z.ltb_spec (Z.of_nat (3 * k)) (m_outputChannels ps)) as [Hlt|Hge].
    + apply rounds_lt in Hlt. lia.
    + replace (rounds ps - k)%nat with 0%nat by lia. reflexivity.
  - cbn [pixel_loop].
    destruct (Z.ltb_spec (Z.of_nat (3 * k)) (m_outputChannels ps)) as [Hlt|Hge].
    + apply rounds_lt in Hlt.
      replace (rounds ps - k)%nat with (S (rounds ps - S k)) by lia.
      cbn [seq mapM].
      replace (3 * k + 3)%nat with (3 * S k)%nat by lia.
      replace (k + 1)%nat with (S k) by lia.
      rewrite (IH (S k)) by lia. unfold round_call.
      destruct (mapped_byte ps channelData (3 * k) (3 * k)); [|reflexivity].
      destruct (mapped_byte ps channelData (3 * k + 1) (3 * k + 1)); [|reflexivity].
      destruct (mapped_byte ps channelData (3 * k + 2) (3 * k + 2)); [|reflexivity].
      destruct (m_strips o !! s); reflexivity.
    + assert (~ (k < rounds ps)%nat) by (rewrite rounds_lt; lia).
      replace (rounds ps - k)%nat with 0%nat by lia. reflexivity.
Qed.

Lemma PrepData_string_closed o channelData s ps :
  PrepData_string o channelData s ps
  = mapM (round_call o ps channelData s) (seq 0 (rounds ps)).
Proof.
  unfold PrepData_string.
  rewrite (pixel_loop_closed o ps channelData s _ 0%nat)
    by (pose proof (rounds_le_channels ps); lia).
  now rewrite Nat.sub_0_r.
Qed.

Lemma mapM_total {A B} (f : A -> option B) (g : A -> B) (l : list A) :
  (forall x, x ∈ l -> f x = Some (g x)) -> mapM f l = Some (g <$> l).
Proof.
  induction l as [|x l IH]; intros H; [reflexivity|].
  cbn [mapM]. rewrite (H x) by left. cbn.
  rewrite IH by (intros y Hy; apply H; now right). reflexivity.
Qed.

Lemma mapped_byte_in_bounds ps channelData i :
  in_bounds ps channelData ->
  Forall (fun c => 0 <= c < 256) channelData ->
  (i < Z.to_nat (m_outputChannels ps))%nat ->
  mapped_byte ps channelData i i = Some (byte_at ps channelData i).
Proof.
  intros (Hmap & Htab & Hch & Hlen) Hbytes Hi. unfold mapped_byte, byte_at.
  destruct (lookup_lt_is_Some_2 (m_outputMap ps) i ltac:(lia)) as [ch Ech].
  rewrite (list_lookup_total_correct _ _ _ Ech), Ech. cbn.
  pose proof (Forall_lookup_1 _ _ _ _ Hch Ech) as Bch. cbv beta in Bch.
  destruct (Z.ltb_spec ch 0); [lia|].
  destruct (lookup_lt_is_Some_2 channelData (Z.to_nat ch) ltac:(lia)) as [c Ec].
  rewrite (list_lookup_total_correct _ _ _ Ec), Ec. cbn.
  pose proof (Forall_lookup_1 _ _ _ _ Hbytes Ec) as Bc. cbv beta in Bc.
  destruct (lookup_lt_is_Some_2 (m_brightnessMaps ps) i ltac:(lia)) as [t Et].
  rewrite (list_lookup_total_correct _ _ _ Et), Et. cbn.
  pose proof (Forall_lookup_1 _ _ _ _ Hlen Et) as Bt. cbv beta in Bt.
  destruct (Z.ltb_spec c 0); [lia|].
  destruct (lookup_lt_is_Some_2 t (Z.to_nat c) ltac:(lia)) as [v Ev].
  rewrite (list_lookup_total_correct _ _ _ Ev). exact Ev.
Qed.

(** A read that is defined is inside the output map. *)
Lemma mapped_byte_Some ps channelData p i v :
  mapped_byte ps channelData p i = Some v -> (i < length (m_outputMap ps))%nat.
Proof.
  unfold mapped_byte. intros H. apply lookup_lt_is_Some.
  destruct (m_outputMap ps !! i); [eauto|discriminate].
Qed.

Lemma round_call_Some o ps channelData s pix c :
  round_call o ps channelData s pix = Some c ->
  sp_strip c = s /\ sp_pix c = pix /\ (3 * pix + 2 < length (m_outputMap ps))%nat.
Proof.
  unfold round_call. intros H.
  destruct (mapped_byte ps channelData (3 * pix) (3 * pix)); [|discriminate].
  destruct (mapped_byte ps channelData (3 * pix + 1) (3 * pix + 1)); [|discriminate].
  destruct (mapped_byte ps channelData (3 * pix + 2) (3 * pix + 2)) as [b|] eqn:Eb;
    [|discriminate].
  destruct (m_strips o !! s); [|discriminate].
  cbn in H. injection H as <-. cbn. apply mapped_byte_Some in Eb. auto.
Qed.

Lemma string_loop_total o channelData (F : nat -> PixelString -> list SetPixelCall)
    strings : forall s,
  (forall i ps, strings !! i = Some ps ->
     PrepData_string o channelData (s + i) ps = Some (F (s + i)%nat ps)) ->
  string_loop o channelData s strings
  = Some (concat (imap (fun i => F (s + i)%nat) strings)).
Proof.
  induction strings as [|ps strings IH]; intros s H; [reflexivity|].
  cbn [string_loop imap concat].
  pose proof (H 0%nat ps eq_refl) as H0. rewrite Nat.add_0_r in H0. rewrite H0. cbn.
  rewrite (IH (S s)).
  - cbn. rewrite Nat.add_0_r. do 3 f_equal. apply imap_ext. intros i x _. cbn.
    f_equal. lia.
  - intros i x Hi. replace (S s + i)%nat with (s + S i)%nat by lia. apply H. exact Hi.
Qed.

Lemma string_loop_Some o channelData strings : forall s calls,
  string_loop o channelData s strings = Some calls ->
  (forall i ps, strings !! i = Some ps ->
     is_Some (PrepData_string o channelData (s + i) ps)) /\
  (forall c, c ∈ calls ->
     exists i ps cs, strings !! i = Some ps /\
       PrepData_string o channelData (s + i) ps = Some cs /\ c ∈ cs).
Proof.
  induction strings as [|ps strings IH]; intros s calls H.
  - injection H as <-. split; [intros i ps Hi; discriminate|].
    intros c Hc. apply elem_of_nil in Hc. contradiction.
  - cbn [string_loop] in H.
    destruct (PrepData_string o channelData s ps) as [cs|] eqn:E1; [|discriminate].
    destruct (string_loop o channelData (S s) strings) as [rest|] eqn:E2; [|discriminate].
    cbn in H. injection H as <-.
    destruct (IH (S s) rest E2) as [IH1 IH2]. split.
    + intros [|i] x Hi.
      * injection Hi as <-. rewrite Nat.add_0_r, E1. eauto.
      * replace (s + S i)%nat with (S s + i)%nat by lia. apply IH1. exact Hi.
    + intros c Hc. apply elem_of_app in Hc as [Hc|Hc].
      * exists 0%nat, ps, cs. rewrite Nat.add_0_r. auto.
      * destruct (IH2 c Hc) as (i & x & cs' & Hi & Hx & Hcs).
        exists (S i), x, cs'. replace (s + S i)%nat with (S s + i)%nat by lia. auto.
Qed.

(** X7. Where every string has a strip, a channel count that is a multiple
    of 3 and all its reads in bounds, [PrepData] sets, for each string in
    order, the pixels 0, 1, ... of its strip, each exactly once and in
    ascending order, one pixel for every three output channels; pixel [pix]
    gets as red, green and blue the bytes of the channels mapped to output
    positions 3pix, 3pix+1, 3pix+2, each looked up in that position's
    brightness table.  It makes no other call. *)
Theorem PrepData_sets_each_pixel_once (o : SpixelsOutput) (channelData : list Z) :
  (length (m_strings o) <= length (m_strips o))%nat ->
  Forall (fun c => 0 <= c < 256) channelData ->
  Forall (fun ps => m_outputChannels ps mod 3 = 0 /\ in_bounds ps channelData)
         (m_strings o) ->
  PrepData o channelData =
  Some (concat (imap (fun s ps => call_for ps channelData s
                                    <$> seq 0 (Z.to_nat (m_outputChannels ps / 3)))
                     (m_strings o))).
Proof.
  intros Hstrips Hbytes Hall. unfold PrepData.
  rewrite (string_loop_total o channelData
             (fun s ps => call_for ps channelData s
                            <$> seq 0 (Z.to_nat (m_outputChannels ps / 3)))).
  { reflexivity. }
  intros s ps Hs. cbn [Nat.add].
  destruct (Forall_lookup_1 _ _ _ _ Hall Hs) as [H3 Hin].
  rewrite PrepData_string_closed, (rounds_exact ps H3).
  apply mapM_total. intros pix Hpix. apply elem_of_seq in Hpix.
  pose proof (Z.div_mod (m_outputChannels ps) 3 ltac:(lia)) as Hd.
  assert (Hlt : (3 * pix + 2 < Z.to_nat (m_outputChannels ps))%nat) by lia.
  unfold round_call, call_for.
  rewrite !(mapped_byte_in_bounds ps channelData) by (auto; lia). cbn.
  destruct (lookup_lt_is_Some_2 (m_strips o) s) as [strip ->]; [|reflexivity].
  apply lookup_lt_Some in Hs. lia.
Qed.

(** X8. On a sink whose strings and strips are paired as [Init] leaves them
    and whose output maps have one entry per output channel, a [PrepData]
    that stays within bounds calls [SetPixel] only on the strip made for
    the string it is working on and only with a pixel index below that
    strip's pixel count; and this happens only if the channel count of
    every string with output channels is a multiple of 3: a remainder of
    one or two makes the last round read past the output map. *)
Theorem PrepData_pixels_and_strip_size
    (o : SpixelsOutput) (channelData : list Z) (calls : list SetPixelCall) :
  Forall2 paired (m_strings o) (m_strips o) ->
  Forall (fun ps => m_outputChannels ps <= INT_MAX /\
                    length (m_outputMap ps) = Z.to_nat (m_outputChannels ps))
         (m_strings o) ->
  PrepData o channelData = Some calls ->
  (forall ps, ps ∈ m_strings o -> 0 < m_outputChannels ps ->
     m_outputChannels ps mod 3 = 0) /\
  (forall c, In c calls ->
     exists ps strip,
       m_strings o !! sp_strip c = Some ps /\
       m_strips o !! sp_strip c = Some strip /\
       0 <= Z.of_nat (sp_pix c) < strip_count strip).
Proof.
  intros Hp Hsized Hrun. unfold PrepData in Hrun.
  destruct (string_loop_Some _ _ _ _ _ Hrun) as [Hdef Hcalls].
  assert (Hround : forall s ps pix, m_strings o !! s = Some ps -> (pix < rounds ps)%nat ->
                     (3 * pix + 2 < Z.to_nat (m_outputChannels ps))%nat).
  { intros s ps pix Hs Hpix.
    destruct (Hdef s ps Hs) as [cs Hcs]. cbn [Nat.add] in Hcs.
    rewrite PrepData_string_closed in Hcs. apply mapM_Some in Hcs.
    destruct (Forall2_lookup_l _ _ _ pix pix Hcs) as (c & _ & Hc).
    { apply lookup_seq. split; [reflexivity|exact Hpix]. }
    apply round_call_Some in Hc as (_ & _ & Hlt).
    destruct (Forall_lookup_1 _ _ _ _ Hsized Hs) as [_ <-]. exact Hlt. }
  split.
  - intros ps Hps Hpos. apply list_elem_of_lookup in Hps as [s Hs].
    pose proof (Z.div_mod (m_outputChannels ps + 2) 3 ltac:(lia)) as Hd.
    pose proof (Z.mod_pos_bound (m_outputChannels ps + 2) 3 ltac:(lia)) as Hm.
    assert (Hr : (rounds ps - 1 < rounds ps)%nat) by (unfold rounds; lia).
    pose proof (Hround s ps _ Hs Hr) as Hlt. unfold rounds in Hlt.
    pose proof (Z.div_mod (m_outputChannels ps) 3 ltac:(lia)) as Hd3.
    pose proof (Z.mod_pos_bound (m_outputChannels ps) 3 ltac:(lia)) as Hm3.
    lia.
  - intros c Hc. apply list_elem_of_In in Hc.
    destruct (Hcalls c Hc) as (s & ps & cs & Hs & Hcs & Hin). cbn [Nat.add] in Hcs.
    rewrite PrepData_string_closed in Hcs. apply mapM_Some in Hcs.
    apply list_elem_of_lookup in Hin as [j Hj].
    destruct (Forall2_lookup_r _ _ _ _ _ Hcs Hj) as (pix & Hpix & Hcall).
    apply lookup_seq in Hpix as [-> Hpix]. cbn [Nat.add] in Hcall.
    apply round_call_Some in Hcall as (-> & -> & _).
    destruct (Forall2_lookup_l _ _ _ _ _ Hp Hs) as (strip & Hstrip & [Hcnt Hnz]).
    destruct (Forall_lookup_1 _ _ _ _ Hsized Hs) as [Hle _].
    pose proof (Hround s ps j Hs Hpix) as Hlt.
    exists ps, strip. split; [exact Hs|]. split; [exact Hstrip|].
    rewrite Hcnt. unfold pixels_of. rewrite Z.quot_div_nonneg by lia.
    pose proof (Z.div_mod (m_outputChannels ps) 3 ltac:(lia)) as Hd.
    pose proof (Z.mod_pos_bound (m_outputChannels ps) 3 ltac:(lia)) as Hm.
    rewrite int32_id by (unfold in_int, INT_MIN, INT_MAX in *; lia).
    lia.
Qed.

End Sink.

(** *** Concrete runs *)

Definition spi_connector : Z -> Z := fun n => 100 + n.
Definition max_channels : Z := 8388608.
Definition base_init_ok : list OutputConfig -> Z := fun _ => 1.

(** The identity brightness table. *)
Definition identity_table : list Z := seqZ 0 256.

(** A string of [n] output channels reading channels [first], [first]+1, ...
    through identity tables. *)
Definition plain_string (first n : Z) : PixelString :=
  {| m_outputChannels := n;
     m_outputMap := seqZ first n;
     m_brightnessMaps := replicate (Z.to_nat n) identity_table |}.

Definition outputs_demo : list OutputConfig :=
  [ {| out_protocol := "APA102"; out_portNumber := 0;
       out_string := Some (plain_string 0 6) |};
    {| out_protocol := "no such protocol"; out_portNumber := 1;
       out_string := Some (plain_string 6 2) |};
    {| out_protocol := "Ws2801"; out_portNumber := 16;
       out_string := Some (plain_string 8 4) |} ].

Definition sink_demo : SpixelsOutput :=
  Eval vm_compute in
    (Init spi_connector base_init_ok outputs_demo (SpixelsOutput_new 1 12)).2.

(** Letter case is ignored, the two-channel output is passed over although
    its protocol is unknown, and port 16 gets connector 0. *)
Example Init_demo :
  (Init spi_connector base_init_ok outputs_demo (SpixelsOutput_new 1 12)).1 = 1 /\
  m_strings sink_demo = [plain_string 0 6; plain_string 8 4] /\
  m_strips sink_demo =
    [{| strip_protocol := APA102; strip_connector := 101; strip_count := 2 |};
     {| strip_protocol := WS2801; strip_connector := 0; strip_count := 1 |}].
Proof. repeat match goal with |- _ /\ _ => split end; vm_compute; reflexivity. Qed.

Example Init_unknown_protocol :
  (Init spi_connector base_init_ok
     [ {| out_protocol := "apa102"; out_portNumber := 0;
          out_string := Some (plain_string 0 6) |};
       {| out_protocol := "dmx"; out_portNumber := 1;
          out_string := Some (plain_string 6 3) |} ]
     (SpixelsOutput_new 1 9)).1 = 0.
Proof. vm_compute. reflexivity. Qed.

(** The four-channel string makes the second round of its loop read output
    positions 4 and 5, past its output map: [PrepData] has no defined
    result on [sink_demo]. *)
Example PrepData_demo :
  PrepData sink_demo [10; 11; 12; 13; 14; 15; 16; 17; 18; 19; 20; 21; 22; 23] = None /\
  GetRequiredChannelRanges max_channels sink_demo = [(0, 5); (8, 11)].
Proof. repeat match goal with |- _ /\ _ => split end; vm_compute; reflexivity. Qed.

(** Two strings of six and three channels. *)
Definition outputs_rgb : list OutputConfig :=
  [ {| out_protocol := "APA102"; out_portNumber := 0;
       out_string := Some (plain_string 0 6) |};
    {| out_protocol := "Ws2801"; out_portNumber := 1;
       out_string := Some (plain_string 8 3) |} ].

Definition sink_rgb : SpixelsOutput :=
  Eval vm_compute in
    (Init spi_connector base_init_ok outputs_rgb (SpixelsOutput_new 1 11)).2.

Definition channels_demo : list Z := [10; 11; 12; 13; 14; 15; 16; 17; 18; 19; 20; 21; 22; 23].

Example PrepData_rgb :
  (Init spi_connector base_init_ok outputs_rgb (SpixelsOutput_new 1 11)).2 = sink_rgb /\
  PrepData sink_rgb channels_demo = Some
  [ {| sp_strip := 0; sp_pix := 0; sp_color := {| rgb_r := 10; rgb_g := 11; rgb_b := 12 |} |};
    {| sp_strip := 0; sp_pix := 1; sp_color := {| rgb_r := 13; rgb_g := 14; rgb_b := 15 |} |};
    {| sp_strip := 1; sp_pix := 0; sp_color := {| rgb_r := 18; rgb_g := 19; rgb_b := 20 |} |} ].
Proof. split; vm_compute; reflexivity. Qed.

Lemma single_channel_string_has_no_range_witness :
  string_range max_channels (plain_string 5 1) = None.
Proof.
  apply (single_channel_string_has_no_range max_channels (plain_string 5 1) 5).
  - vm_compute. discriminate.
  - vm_compute. discriminate.
  - intros i [Hi _]. unfold channel_of.
    assert (i = 0%nat) as -> by (vm_compute in Hi; lia). reflexivity.
Defined.

Lemma sink_rgb_in_bounds :
  Forall (fun ps => m_outputChannels ps mod 3 = 0 /\ in_bounds ps channels_demo)
         (m_strings sink_rgb).
Proof.
  repeat constructor; try (vm_compute; reflexivity);
    try (cbn; lia); try (intro H; discriminate H).
Qed.

Lemma PrepData_sets_each_pixel_once_witness :
  PrepData sink_rgb channels_demo = Some
  [ {| sp_strip := 0; sp_pix := 0; sp_color := {| rgb_r := 10; rgb_g := 11; rgb_b := 12 |} |};
    {| sp_strip := 0; sp_pix := 1; sp_color := {| rgb_r := 13; rgb_g := 14; rgb_b := 15 |} |};
    {| sp_strip := 1; sp_pix := 0; sp_color := {| rgb_r := 18; rgb_g := 19; rgb_b := 20 |} |} ].
Proof.
  assert (H1 : (length (m_strings sink_rgb) <= length (m_strips sink_rgb))%nat)
    by (vm_compute; lia).
  assert (H2 : Forall (fun c => 0 <= c < 256) channels_demo)
    by (repeat constructor; intro H; discriminate H).
  pose proof sink_rgb_in_bounds as H3.
  rewrite (PrepData_sets_each_pixel_once sink_rgb channels_demo H1 H2 H3).
  vm_compute. reflexivity.
Defined.

Lemma PrepData_pixels_and_strip_size_witness :
  let c := {| sp_strip := 1; sp_pix := 0;
              sp_color := {| rgb_r := 18; rgb_g := 19; rgb_b := 20 |} |} in
  (forall ps, ps ∈ m_strings sink_rgb -> 0 < m_outputChannels ps ->
     m_outputChannels ps mod 3 = 0) /\
  exists ps strip,
    m_strings sink_rgb !! sp_strip c = Some ps /\
    m_strips sink_rgb !! sp_strip c = Some strip /\
    0 <= Z.of_nat (sp_pix c) < strip_count strip.
Proof.
  intros c.
  assert (H1 : Forall2 paired (m_strings sink_rgb) (m_strips sink_rgb)).
  { repeat constructor; intro H; discriminate H. }
  assert (H2 : Forall (fun ps => m_outputChannels ps <= INT_MAX /\
                                 length (m_outputMap ps) = Z.to_nat (m_outputChannels ps))
                      (m_strings sink_rgb)).
  { repeat constructor; intro H; discriminate H. }
  assert (H3 : PrepData sink_rgb channels_demo = Some
    [ {| sp_strip := 0; sp_pix := 0; sp_color := {| rgb_r := 10; rgb_g := 11; rgb_b := 12 |} |};
      {| sp_strip := 0; sp_pix := 1; sp_color := {| rgb_r := 13; rgb_g := 14; rgb_b := 15 |} |};
      c ]) by (vm_compute; reflexivity).
  destruct (PrepData_pixels_and_strip_size sink_rgb channels_demo _ H1 H2 H3) as [Hm Hc].
  split; [exact Hm|]. apply Hc. right. right. left. reflexivity.
Defined.

End Spixels.
